(** * Meal-analysis service: normalisation, fallback and prompt building

    A shallow embedding of [server/src/services/openai.ts] (class
    [OpenAIService]) together with the part of the JavaScript runtime the
    service relies on: IEEE-754 doubles, loosely typed values, truthiness,
    [Number(..)], property reads, string helpers, [Math.round] and
    [Math.max], and exceptions. *)

From Stdlib Require Import ZArith String Ascii Bool.
From Stdlib Require Import Floats.SpecFloat.
From stdpp Require Import gmap strings list fin_maps pretty.

#[local] Open Scope Z_scope.
#[local] Set Warnings "-register-all".

(** ** Numbers: binary64 *)

Module Num.

(** A JavaScript number is an IEEE-754 binary64 value.  [spec_float] is
    the inductive description of such values (sign, mantissa, exponent,
    one NaN); the operations below are the correctly rounded ones of
    the standard library's specification, at precision 53. *)
Definition number : Type := spec_float.

Definition prec : Z := 53.
Definition emax : Z := 1024.

Definition NaN : number := S754_nan.
Definition pos_zero : number := S754_zero false.
Definition neg_zero : number := S754_zero true.
Definition Infinity : number := S754_infinity false.

(** An integer literal. *)
Definition of_Z (z : Z) : number := binary_normalize prec emax z 0 false.

(** The double nearest to [(-1)^sgn * m * 10^e], ties to even: the value
    of a decimal literal, in source text or in a string. *)
Definition of_decimal (sgn : bool) (m : Z) (e : Z) : number :=
  match m with
  | Zpos p =>
      if 0 <=? e
      then binary_normalize prec emax (if sgn then - (m * 10 ^ e) else m * 10 ^ e) 0 sgn
      else
        let '(q, e', l) := SFdiv_core_binary prec emax m 0 (10 ^ (- e)) 0 in
        binary_round_aux prec emax sgn q e' l
  | _ => S754_zero sgn
  end.

Definition mul : number -> number -> number := SFmul prec emax.
Definition sub : number -> number -> number := SFsub prec emax.

Definition is_nan (x : number) : bool :=
  match x with S754_nan => true | _ => false end.

Definition is_zero (x : number) : bool :=
  match x with S754_zero _ => true | _ => false end.

(** [x > y] and [x === y] on numbers; both are false when either side is
    NaN, and the two zeros are equal. *)
Definition gt (x y : number) : bool := SFltb y x.
Definition strict_eq (x y : number) : bool := SFeqb x y.

(** ToBoolean on a number: false exactly for [+0], [-0] and [NaN]. *)
Definition truthy (x : number) : bool := negb (is_zero x || is_nan x).

(** [x || d] where [x] is a number. *)
Definition or_default (x d : number) : number := if truthy x then x else d.

(** [Math.round]: non-finite and integral arguments are returned as they
    are; otherwise the closest integer, a tie going towards +Infinity,
    and a result of zero keeping the sign of the argument. *)
Definition Math_round (x : number) : number :=
  match x with
  | S754_finite s m e =>
      if 0 <=? e then x
      else
        let d := 2 ^ (- e) in
        if (Zpos m) mod d =? 0 then x
        else
          let r := ((if s then - (2 * Zpos m) else 2 * Zpos m) + d) / (2 * d) in
          if r =? 0 then S754_zero s else of_Z r
  | _ => x
  end.

(** [Math.max(...args)]: start from -Infinity; a NaN argument makes the
    result NaN; [+0] is larger than [-0]. *)
Definition max_step (highest : option number) (n : number) : option number :=
  match highest with
  | None => None
  | Some h =>
      if is_nan n then None
      else
        match n, h with
        | S754_zero false, S754_zero true => Some n
        | _, _ => if gt n h then Some n else Some h
        end
  end.

Definition Math_max (args : list number) : number :=
  match fold_left max_step args (Some (S754_infinity true)) with
  | Some h => h
  | None => NaN
  end.

End Num.

Export Num.

(** ** Strings

    A JavaScript string is modelled by the [string] of its UTF-8 bytes.
    The service only searches for, strips and compares literal text, and
    on well-formed text these operations agree on UTF-8 bytes and on
    UTF-16 code units. *)

Module Str.

Definition code (a : ascii) : Z := Z.of_N (N_of_ascii a).

(** The double-quote character, for literals that contain it. *)
Definition dq : string := String (ascii_of_nat 34) EmptyString.
Definition quoted (s : string) : string := dq +:+ s +:+ dq.

(** Line feed, as written [\n] in the source's template literals. *)
Definition nl : string := String (ascii_of_nat 10) EmptyString.

(** [s.startsWith(p)] *)
Definition startsWith (s p : string) : bool := String.prefix p s.

(** [s.includes(p)] *)
Fixpoint includes (s p : string) : bool :=
  String.prefix p s ||
  match s with
  | EmptyString => false
  | String _ r => includes r p
  end.

(** [s.toLowerCase()] on the letters A to Z.  Other characters are kept:
    the result is only searched for keywords that are either Hebrew
    (which has no case) or ASCII without the letter k, and the only
    non-ASCII characters whose lower case contains an ASCII letter are
    U+212A (giving k) and U+0130 (giving i followed by U+0307, while in
    the keywords i is followed by n or by e). *)
Definition lower_ascii (a : ascii) : ascii :=
  let c := code a in
  if (65 <=? c) && (c <=? 90) then ascii_of_N (Z.to_N (c + 32)) else a.

Fixpoint toLowerCase (s : string) : string :=
  match s with
  | EmptyString => EmptyString
  | String a r => String (lower_ascii a) (toLowerCase r)
  end.

(** White space and line terminators, as [trim] and [Number] see them:
    TAB, LF, VT, FF, CR, SP; U+00A0; U+1680; U+2000 to U+200A, U+2028,
    U+2029, U+202F, U+205F; U+3000; U+FEFF. *)
Definition ws1 (a : ascii) : bool :=
  let c := code a in ((9 <=? c) && (c <=? 13)) || (c =? 32).

Definition ws2 (a b : ascii) : bool :=
  (code a =? 194) && (code b =? 160).

Definition ws3 (a b c : ascii) : bool :=
  let x := code a in let y := code b in let z := code c in
  ((x =? 225) && (y =? 154) && (z =? 128))
  || ((x =? 226) && (y =? 128)
      && (((128 <=? z) && (z <=? 138)) || (z =? 168) || (z =? 169) || (z =? 175)))
  || ((x =? 226) && (y =? 129) && (z =? 159))
  || ((x =? 227) && (y =? 128) && (z =? 128))
  || ((x =? 239) && (y =? 187) && (z =? 191)).

Fixpoint trimStart (s : string) : string :=
  match s with
  | EmptyString => s
  | String a r =>
      if ws1 a then trimStart r
      else
        match r with
        | String b r2 =>
            if ws2 a b then trimStart r2
            else
              match r2 with
              | String c r3 => if ws3 a b c then trimStart r3 else s
              | EmptyString => s
              end
        | EmptyString => s
        end
  end.

Definition all_ws (s : string) : bool :=
  match trimStart s with EmptyString => true | _ => false end.

Fixpoint trimEnd (s : string) : string :=
  match s with
  | EmptyString => s
  | String a r => if all_ws s then EmptyString else String a (trimEnd r)
  end.

(** [s.trim()] *)
Definition trim (s : string) : string := trimEnd (trimStart s).

(** [s.split(",")[1]]: the text between the first and the second comma,
    [None] (undefined) when [s] has no comma. *)
Fixpoint upto_comma (s : string) : string :=
  match s with
  | EmptyString => s
  | String a r => if code a =? 44 then EmptyString else String a (upto_comma r)
  end.

Fixpoint split_comma_1 (s : string) : option string :=
  match s with
  | EmptyString => None
  | String a r => if code a =? 44 then Some (upto_comma r) else split_comma_1 r
  end.

(** The regular expression [/^[A-Za-z0-9+/]*={0,2}$/]. *)
Definition base64_char (a : ascii) : bool :=
  let c := code a in
  ((65 <=? c) && (c <=? 90)) || ((97 <=? c) && (c <=? 122))
  || ((48 <=? c) && (c <=? 57)) || (c =? 43) || (c =? 47).

Fixpoint drop_base64 (s : string) : string :=
  match s with
  | EmptyString => s
  | String a r => if base64_char a then drop_base64 r else s
  end.

Definition base64Regex_test (s : string) : bool :=
  match drop_base64 s with
  | EmptyString => true
  | String a EmptyString => code a =? 61
  | String a (String b EmptyString) => (code a =? 61) && (code b =? 61)
  | _ => false
  end.

(** *** [StringToNumber] *)

Definition digit_of (base : Z) (a : ascii) : option Z :=
  let c := code a in
  let d :=
    if (48 <=? c) && (c <=? 57) then c - 48
    else if (97 <=? c) && (c <=? 102) then c - 87
    else if (65 <=? c) && (c <=? 70) then c - 55
    else 99 in
  if d <? base then Some d else None.

(** Reads the longest run of digits: value so far, digits read, rest. *)
Fixpoint digits (base : Z) (s : string) (acc : Z) (cnt : Z) : Z * Z * string :=
  match s with
  | EmptyString => (acc, cnt, s)
  | String a r =>
      match digit_of base a with
      | Some d => digits base r (acc * base + d) (cnt + 1)
      | None => (acc, cnt, s)
      end
  end.

(** [0x..], [0o..], [0b..] (either case), no sign, at least one digit. *)
Definition nondecimal (s : string) : option number :=
  match s with
  | String z (String x r) =>
      let base :=
        let c := code x in
        if (c =? 120) || (c =? 88) then 16
        else if (c =? 111) || (c =? 79) then 8
        else if (c =? 98) || (c =? 66) then 2
        else 0 in
      if (code z =? 48) && (0 <? base) then
        match digits base r 0 0 with
        | (v, cnt, EmptyString) => if 0 <? cnt then Some (of_Z v) else None
        | _ => None
        end
      else None
  | _ => None
  end.

(** An optional exponent part [e], [e+] or [e-] followed by digits;
    text that is not an exponent part is left unread. *)
Definition exponent (s : string) : Z * string :=
  match s with
  | String e r =>
      if (code e =? 101) || (code e =? 69) then
        let '(neg, r') :=
          match r with
          | String sg r1 =>
              if code sg =? 45 then (true, r1)
              else if code sg =? 43 then (false, r1)
              else (false, r)
          | EmptyString => (false, r)
          end in
        match digits 10 r' 0 0 with
        | (v, cnt, rest) =>
            if 0 <? cnt then ((if neg then - v else v), rest) else (0, s)
        end
      else (0, s)
  | EmptyString => (0, s)
  end.

(** [Infinity], or digits with an optional fraction and exponent. *)
Definition unsigned_decimal (sgn : bool) (s : string) : number :=
  if String.eqb s "Infinity" then S754_infinity sgn
  else
    let '(ip, ic, r1) := digits 10 s 0 0 in
    let '(m, fc, r2) :=
      match r1 with
      | String dot rf =>
          if code dot =? 46 then
            let '(m, fc, r2) := digits 10 rf ip 0 in
            if 0 <? ic + fc then (m, fc, r2) else (ip, 0, r1)
          else (ip, 0, r1)
      | EmptyString => (ip, 0, r1)
      end in
    if 0 <? ic + fc then
      match exponent r2 with
      | (ex, EmptyString) => of_decimal sgn m (ex - fc)
      | _ => NaN
      end
    else NaN.

Definition StringToNumber (s : string) : number :=
  let t := trim s in
  match t with
  | EmptyString => pos_zero
  | String a r =>
      match nondecimal t with
      | Some n => n
      | None =>
          if code a =? 45 then unsigned_decimal true r
          else if code a =? 43 then unsigned_decimal false r
          else unsigned_decimal false t
      end
  end.

End Str.

Export Str.

(** ** Values, exceptions and coercions *)

Module Js.

(** The values a JSON text can denote, and [undefined].  An object is a
    finite map from its own property names to their values. *)
Inductive value : Type :=
| VUndefined
| VNull
| VBool (b : bool)
| VNum (n : number)
| VStr (s : string)
| VArr (l : list value)
| VObj (o : gmap string value).

(** A computation either returns or throws a value. *)
Inductive res (A : Type) : Type :=
| Ok (a : A)
| Throw (e : value).
Arguments Ok {A} a.
Arguments Throw {A} e.

Definition bind {A B : Type} (c : res A) (k : A -> res B) : res B :=
  match c with
  | Ok a => k a
  | Throw e => Throw e
  end.

#[global] Instance res_bind : MBind res := fun A B k c => bind c k.

(** [try { c } catch (error) { handler }] *)
Definition try_catch {A : Type} (c : res A) (handler : value -> res A) : res A :=
  match c with
  | Ok a => Ok a
  | Throw e => handler e
  end.

(** [new Error(message)]: an object whose own property is the message;
    it has no [status]. *)
Definition Error_ (message : string) : value :=
  VObj {[ "message" := VStr message ]}.

(** The TypeError the runtime raises (reading a property of [null] or
    [undefined], or converting an object that has no usable [toString]
    to a primitive).  The message text is the engine's and is left out. *)
Definition TypeError_ : value :=
  VObj {[ "name" := VStr "TypeError" ]}.

Definition is_nullish (v : value) : bool :=
  match v with
  | VUndefined | VNull => true
  | _ => false
  end.

Definition is_string (v : value) : bool :=
  match v with
  | VStr _ => true
  | _ => false
  end.

(** ToBoolean *)
Definition ToBoolean (v : value) : bool :=
  match v with
  | VUndefined | VNull => false
  | VBool b => b
  | VNum n => Num.truthy n
  | VStr s => negb (String.eqb s "")
  | VArr _ | VObj _ => true
  end.

(** [a || b] *)
Definition or_else (a b : value) : value := if ToBoolean a then a else b.

(** [v.k] for a property name [k] that neither a prototype nor an
    array or string defines (every name the service reads is such a
    name): the own property of an object, [undefined] on any other
    value, and a TypeError on [null] and [undefined]. *)
Definition Get (v : value) (k : string) : res value :=
  match v with
  | VUndefined | VNull => Throw TypeError_
  | VObj o => Ok (default VUndefined (o !! k))
  | _ => Ok VUndefined
  end.

(** Whether converting [v] to a primitive succeeds.  A plain object is
    converted by its inherited [valueOf] and [toString]; an own property
    named [toString] (never a function in JSON data) hides the inherited
    method and the conversion throws a TypeError.  An array is converted
    by joining the conversions of its elements. *)
Fixpoint convertible (v : value) : bool :=
  match v with
  | VArr l => forallb convertible l
  | VObj o => bool_decide (o !! "toString" = None)
  | _ => true
  end.

(** The number a convertible value denotes.  An object reads
    [[object Object]], which is not numeric.  An array reads as its
    elements joined by commas: nothing for the empty array, not numeric
    for two elements or more, and for one element that element's text
    ([null] and [undefined] read as nothing, a boolean as [true] or
    [false], and a number as its shortest decimal text, which denotes
    the same number, read back with [-0] as [+0]). *)
Fixpoint number_of (v : value) : number :=
  match v with
  | VUndefined => NaN
  | VNull => pos_zero
  | VBool b => if b then of_Z 1 else pos_zero
  | VNum n => n
  | VStr s => StringToNumber s
  | VObj _ => NaN
  | VArr l =>
      match l with
      | [] => pos_zero
      | [x] =>
          match x with
          | VUndefined | VNull => pos_zero
          | VBool _ => NaN
          | VNum n => if is_zero n then pos_zero else n
          | _ => number_of x
          end
      | _ => NaN
      end
  end.

(** ToNumber, and [Number(v)] which is the same on these values. *)
Definition ToNumber (v : value) : res number :=
  if convertible v then Ok (number_of v) else Throw TypeError_.

Definition Number_ (v : value) : res number := ToNumber v.

(** [v === n] for a number [n]. *)
Definition strict_eq_num (v : value) (n : number) : bool :=
  match v with
  | VNum m => Num.strict_eq m n
  | _ => false
  end.

(** Text of an interpolated [${..}] that may be undefined. *)
Definition text_of (o : option string) : string := default "undefined" o.

End Js.

Export Js.

(** ** The service *)

Module OpenAIService.

(** *** The nutrition record

    The object literal that [normalizeAnalysisResponse] and
    [getFallbackAnalysis] build.  A field built with [Number(..) || d]
    holds a number; a field built with [x || "text"] holds whatever
    value was chosen; the two index fields hold a number or [null]
    ([None]). *)
Record NutritionRecord : Type := {
  name : value;
  description : value;
  calories : number;
  protein : number;
  carbs : number;
  fat : number;
  fiber : number;
  sugar : number;
  sodium : number;
  saturated_fats_g : number;
  polyunsaturated_fats_g : number;
  monounsaturated_fats_g : number;
  omega_3_g : number;
  omega_6_g : number;
  soluble_fiber_g : number;
  insoluble_fiber_g : number;
  cholesterol_mg : number;
  alcohol_g : number;
  caffeine_mg : number;
  liquids_ml : number;
  serving_size_g : number;
  glycemic_index : option number;
  insulin_index : option number;
  food_category : value;
  processing_level : value;
  cooking_method : value;
  health_risk_notes : value;
  confidence : number;
  ingredients : list value;
  healthNotes : value;
  recommendations : value;
  meal_name : value;
  protein_g : number;
  carbs_g : number;
  fats_g : number;
  fiber_g : number;
  sugar_g : number;
  sodium_mg : number
}.

(** *** [normalizeAnalysisResponse] *)

(** [Number(analysis.k) || d] *)
Definition number_or (analysis : value) (k : string) (d : number) : res number :=
  v ← Get analysis k;
  n ← Number_ v;
  Ok (Num.or_default n d).

(** [analysis.k || d] *)
Definition value_or (analysis : value) (k : string) (d : value) : res value :=
  v ← Get analysis k;
  Ok (or_else v d).

(** [analysis.k ? Number(analysis.k) : null] *)
Definition number_or_null (analysis : value) (k : string) : res (option number) :=
  c ← Get analysis k;
  if ToBoolean c then
    v ← Get analysis k;
    n ← Number_ v;
    Ok (Some n)
  else Ok None.

(** [analysis.k1 || analysis.k2 || ""] *)
Definition value_or2 (analysis : value) (k1 k2 : string) : res value :=
  a ← Get analysis k1;
  if ToBoolean a then Ok a
  else
    b ← Get analysis k2;
    Ok (or_else b (VStr "")).

(** [Array.isArray(analysis.ingredients) ? analysis.ingredients : []] *)
Definition array_or_empty (analysis : value) (k : string) : res (list value) :=
  v ← Get analysis k;
  match v with
  | VArr l => Ok l
  | _ => Ok []
  end.

Definition normalizeAnalysisResponse (analysis : value) : res NutritionRecord :=
  name_ ← value_or analysis "name" (VStr "Unknown Meal");
  description_ ← value_or analysis "description" (VStr "");
  calories_ ← number_or analysis "calories" (of_Z 0);
  protein_ ← number_or analysis "protein" (of_Z 0);
  carbs_ ← number_or analysis "carbs" (of_Z 0);
  fat_ ← number_or analysis "fat" (of_Z 0);
  fiber_ ← number_or analysis "fiber" (of_Z 0);
  sugar_ ← number_or analysis "sugar" (of_Z 0);
  sodium_ ← number_or analysis "sodium" (of_Z 0);
  saturated_fats_g_ ← number_or analysis "saturated_fats_g" (of_Z 0);
  polyunsaturated_fats_g_ ← number_or analysis "polyunsaturated_fats_g" (of_Z 0);
  monounsaturated_fats_g_ ← number_or analysis "monounsaturated_fats_g" (of_Z 0);
  omega_3_g_ ← number_or analysis "omega_3_g" (of_Z 0);
  omega_6_g_ ← number_or analysis "omega_6_g" (of_Z 0);
  soluble_fiber_g_ ← number_or analysis "soluble_fiber_g" (of_Z 0);
  insoluble_fiber_g_ ← number_or analysis "insoluble_fiber_g" (of_Z 0);
  cholesterol_mg_ ← number_or analysis "cholesterol_mg" (of_Z 0);
  alcohol_g_ ← number_or analysis "alcohol_g" (of_Z 0);
  caffeine_mg_ ← number_or analysis "caffeine_mg" (of_Z 0);
  liquids_ml_ ← number_or analysis "liquids_ml" (of_Z 0);
  serving_size_g_ ← number_or analysis "serving_size_g" (of_Z 100);
  glycemic_index_ ← number_or_null analysis "glycemic_index";
  insulin_index_ ← number_or_null analysis "insulin_index";
  food_category_ ← value_or analysis "food_category" (VStr "Mixed");
  processing_level_ ← value_or analysis "processing_level" (VStr "Moderate");
  cooking_method_ ← value_or analysis "cooking_method" (VStr "Mixed");
  health_risk_notes_ ← value_or analysis "health_risk_notes" (VStr "");
  confidence_ ← number_or analysis "confidence" (of_Z 75);
  ingredients_ ← array_or_empty analysis "ingredients";
  healthNotes_ ← value_or2 analysis "healthNotes" "recommendations";
  recommendations_ ← value_or2 analysis "recommendations" "healthNotes";
  meal_name_ ← value_or analysis "name" (VStr "Unknown Meal");
  protein_g_ ← number_or analysis "protein" (of_Z 0);
  carbs_g_ ← number_or analysis "carbs" (of_Z 0);
  fats_g_ ← number_or analysis "fat" (of_Z 0);
  fiber_g_ ← number_or analysis "fiber" (of_Z 0);
  sugar_g_ ← number_or analysis "sugar" (of_Z 0);
  sodium_mg_ ← number_or analysis "sodium" (of_Z 0);
  Ok {| name := name_;
        description := description_;
        calories := calories_;
        protein := protein_;
        carbs := carbs_;
        fat := fat_;
        fiber := fiber_;
        sugar := sugar_;
        sodium := sodium_;
        saturated_fats_g := saturated_fats_g_;
        polyunsaturated_fats_g := polyunsaturated_fats_g_;
        monounsaturated_fats_g := monounsaturated_fats_g_;
        omega_3_g := omega_3_g_;
        omega_6_g := omega_6_g_;
        soluble_fiber_g := soluble_fiber_g_;
        insoluble_fiber_g := insoluble_fiber_g_;
        cholesterol_mg := cholesterol_mg_;
        alcohol_g := alcohol_g_;
        caffeine_mg := caffeine_mg_;
        liquids_ml := liquids_ml_;
        serving_size_g := serving_size_g_;
        glycemic_index := glycemic_index_;
        insulin_index := insulin_index_;
        food_category := food_category_;
        processing_level := processing_level_;
        cooking_method := cooking_method_;
        health_risk_notes := health_risk_notes_;
        confidence := confidence_;
        ingredients := ingredients_;
        healthNotes := healthNotes_;
        recommendations := recommendations_;
        meal_name := meal_name_;
        protein_g := protein_g_;
        carbs_g := carbs_g_;
        fats_g := fats_g_;
        fiber_g := fiber_g_;
        sugar_g := sugar_g_;
        sodium_mg := sodium_mg_ |}.

(** *** [getFallbackAnalysis] *)

(** One entry of the fallback record's [ingredients] array. *)
Definition ingredient (name_ : string) (calories_ protein_ carbs_ fat_ fiber_ sugar_ sodium_mg_ : Z) : value :=
  VObj (<["name" := VStr name_]>
       (<["calories" := VNum (of_Z calories_)]>
       (<["protein" := VNum (of_Z protein_)]>
       (<["carbs" := VNum (of_Z carbs_)]>
       (<["fat" := VNum (of_Z fat_)]>
       (<["fiber" := VNum (of_Z fiber_)]>
       (<["sugar" := VNum (of_Z sugar_)]>
       (<["sodium_mg" := VNum (of_Z sodium_mg_)]> ∅)))))))).

Definition getFallbackAnalysis (language : string) : NutritionRecord :=
  let isHebrew := String.eqb language "hebrew" in
  {| name := VStr (if isHebrew then "ארוחה מנותחת" else "Analyzed Meal");
     description := VStr (if isHebrew then "ניתוח בסיסי של הארוחה" else "Basic meal analysis");
     calories := of_Z 400;
     protein := of_Z 25;
     carbs := of_Z 45;
     fat := of_Z 15;
     fiber := of_Z 8;
     sugar := of_Z 10;
     sodium := of_Z 600;
     saturated_fats_g := of_Z 5;
     polyunsaturated_fats_g := of_Z 3;
     monounsaturated_fats_g := of_Z 7;
     omega_3_g := of_Z 1;
     omega_6_g := of_Z 2;
     soluble_fiber_g := of_Z 4;
     insoluble_fiber_g := of_Z 4;
     cholesterol_mg := of_Z 50;
     alcohol_g := of_Z 0;
     caffeine_mg := of_Z 0;
     liquids_ml := of_Z 200;
     serving_size_g := of_Z 250;
     glycemic_index := Some (of_Z 55);
     insulin_index := Some (of_Z 45);
     food_category := VStr (if isHebrew then "מעורב" else "Mixed");
     processing_level := VStr (if isHebrew then "בינוני" else "Moderate");
     cooking_method := VStr (if isHebrew then "מעורב" else "Mixed");
     health_risk_notes := VStr "";
     confidence := of_Z 70;
     ingredients :=
       [ ingredient (if isHebrew then "מרכיב עיקרי" else "Main ingredient")
           200 15 25 8 4 5 300;
         ingredient (if isHebrew then "מרכיב משני" else "Secondary ingredient")
           200 10 20 7 4 5 300 ];
     healthNotes :=
       VStr (if isHebrew
             then "ניתוח בסיסי - לתוצאות מדויקות יותר, הוסף מפתח OpenAI"
             else "Basic analysis - for more accurate results, add OpenAI API key");
     recommendations :=
       VStr (if isHebrew
             then "המלצות כלליות לתזונה בריאה"
             else "General healthy nutrition recommendations");
     meal_name := VStr (if isHebrew then "ארוחה מנותחת" else "Analyzed Meal");
     protein_g := of_Z 25;
     carbs_g := of_Z 45;
     fats_g := of_Z 15;
     fiber_g := of_Z 8;
     sugar_g := of_Z 10;
     sodium_mg := of_Z 600 |}.

(** *** [getBasicUpdate] *)

(** The UTF-16 code units of a string, each as a one-unit string: a
    character of one to three bytes is one unit, a character of four
    bytes is a pair of surrogates (each written as its three-byte
    generalised encoding). *)
Definition byte_string (bs : list Z) : string :=
  string_of_list_ascii (map (fun z => ascii_of_N (Z.to_N z)) bs).

Definition surrogate (w : Z) : string :=
  byte_string [237; Z.lor 128 (Z.land (Z.shiftr w 6) 63); Z.lor 128 (Z.land w 63)].

Definition surrogate_pair (a b c d : Z) : list string :=
  let cp :=
    Z.lor (Z.shiftl (Z.land a 7) 18)
      (Z.lor (Z.shiftl (Z.land b 63) 12)
         (Z.lor (Z.shiftl (Z.land c 63) 6) (Z.land d 63))) in
  let u := cp - 65536 in
  [surrogate (55296 + Z.shiftr u 10); surrogate (56320 + Z.land u 1023)].

Fixpoint code_units (s : string) : list string :=
  match s with
  | EmptyString => []
  | String a r1 =>
      if code a <? 192 then byte_string [code a] :: code_units r1
      else
        match r1 with
        | EmptyString => [byte_string [code a]]
        | String b r2 =>
            if code a <? 224 then byte_string [code a; code b] :: code_units r2
            else
              match r2 with
              | EmptyString => [byte_string [code a; code b]]
              | String c r3 =>
                  if code a <? 240
                  then byte_string [code a; code b; code c] :: code_units r3
                  else
                    match r3 with
                    | EmptyString => [byte_string [code a; code b; code c]]
                    | String d r4 =>
                        surrogate_pair (code a) (code b) (code c) (code d)
                          ++ code_units r4
                    end
              end
        end
  end.

(** The object with the elements of [l] under the names 0, 1, 2, ... *)
Definition indexed (l : list value) : gmap string value :=
  list_to_map (imap (fun i x => (pretty i, x)) l).

(** The own enumerable properties copied by [{ ...v }]: those of an
    object, the indexed elements of an array or string, and none for
    any other value. *)
Definition spread (v : value) : gmap string value :=
  match v with
  | VObj o => o
  | VArr l => indexed l
  | VStr s => indexed (map VStr (code_units s))
  | _ => ∅
  end.

(** [updated.k] *)
Definition prop (updated : gmap string value) (k : string) : value :=
  default VUndefined (updated !! k).

(** The three keyword tests on the lower-cased update text. *)
Definition wants_more_protein (lowerUpdate : string) : bool :=
  includes lowerUpdate "more protein" || includes lowerUpdate "חלבון".

Definition wants_less_calories (lowerUpdate : string) : bool :=
  includes lowerUpdate "less calories" || includes lowerUpdate "פחות קלוריות".

Definition wants_more_vegetables (lowerUpdate : string) : bool :=
  includes lowerUpdate "more vegetables" || includes lowerUpdate "ירקות".

(** The literals [1.2], [0.8] and [1.3]. *)
Definition lit_1_2 : number := of_decimal false 12 (-1).
Definition lit_0_8 : number := of_decimal false 8 (-1).
Definition lit_1_3 : number := of_decimal false 13 (-1).

(** [updated.k = Math.round(updated.k * factor)] *)
Definition scale (updated : gmap string value) (k : string) (factor : number)
  : res (gmap string value) :=
  x ← ToNumber (prop updated k);
  Ok (<[k := VNum (Math_round (Num.mul x factor))]> updated).

Definition getBasicUpdate (originalAnalysis : value) (updateText : string)
  : res (gmap string value) :=
  let updated := spread originalAnalysis in
  let lowerUpdate := toLowerCase updateText in
  updated ←
    (if wants_more_protein lowerUpdate then
       updated ← scale updated "protein" lit_1_2;
       Ok (<["protein_g" := prop updated "protein"]> updated)
     else Ok updated);
  updated ←
    (if wants_less_calories lowerUpdate then
       scale updated "calories" lit_0_8
     else Ok updated);
  updated ←
    (if wants_more_vegetables lowerUpdate then
       updated ← scale updated "fiber" lit_1_3;
       Ok (<["fiber_g" := prop updated "fiber"]> updated)
     else Ok updated);
  let updated :=
    <["healthNotes" := VStr ("Updated based on user input: " +:+ updateText)]> updated in
  c ← ToNumber (prop updated "confidence");
  Ok (<["confidence" := VNum (Math_max [of_Z 50; Num.sub c (of_Z 10)])]> updated).

(** *** Prompts *)

Fixpoint join_lines (l : list string) : string :=
  match l with
  | [] => EmptyString
  | [x] => x
  | x :: r => x +:+ nl +:+ join_lines r
  end.

(** The Hebrew instruction template of [createAnalysisPrompt]. *)
Definition basePrompt_hebrew : string :=
  join_lines
    [ "אתה מנתח תזונה מומחה. נתח את תמונת האוכל ותן פירוט תזונתי מדויק.";
      EmptyString;
      "החזר JSON בפורמט הזה בדיוק:";
      "{";
      "  " +:+ quoted "name" +:+ ": " +:+ quoted "שם המנה" +:+ ",";
      "  " +:+ quoted "description" +:+ ": " +:+ quoted "תיאור קצר" +:+ ",";
      "  " +:+ quoted "calories" +:+ ": מספר,";
      "  " +:+ quoted "protein" +:+ ": מספר,";
      "  " +:+ quoted "carbs" +:+ ": מספר,";
      "  " +:+ quoted "fat" +:+ ": מספר,";
      "  " +:+ quoted "fiber" +:+ ": מספר,";
      "  " +:+ quoted "sugar" +:+ ": מספר,";
      "  " +:+ quoted "sodium" +:+ ": מספר,";
      "  " +:+ quoted "saturated_fats_g" +:+ ": מספר,";
      "  " +:+ quoted "polyunsaturated_fats_g" +:+ ": מספר,";
      "  " +:+ quoted "monounsaturated_fats_g" +:+ ": מספר,";
      "  " +:+ quoted "omega_3_g" +:+ ": מספר,";
      "  " +:+ quoted "omega_6_g" +:+ ": מספר,";
      "  " +:+ quoted "soluble_fiber_g" +:+ ": מספר,";
      "  " +:+ quoted "insoluble_fiber_g" +:+ ": מספר,";
      "  " +:+ quoted "cholesterol_mg" +:+ ": מספר,";
      "  " +:+ quoted "alcohol_g" +:+ ": מספר,";
      "  " +:+ quoted "caffeine_mg" +:+ ": מספר,";
      "  " +:+ quoted "liquids_ml" +:+ ": מספר,";
      "  " +:+ quoted "serving_size_g" +:+ ": מספר,";
      "  " +:+ quoted "glycemic_index" +:+ ": מספר,";
      "  " +:+ quoted "insulin_index" +:+ ": מספר,";
      "  " +:+ quoted "food_category" +:+ ": " +:+ quoted "קטגוריה" +:+ ",";
      "  " +:+ quoted "processing_level" +:+ ": " +:+ quoted "רמת עיבוד" +:+ ",";
      "  " +:+ quoted "cooking_method" +:+ ": " +:+ quoted "שיטת הכנה" +:+ ",";
      "  " +:+ quoted "health_risk_notes" +:+ ": " +:+ quoted "הערות בריאות" +:+ ",";
      "  " +:+ quoted "confidence" +:+ ": מספר (0-100),";
      "  " +:+ quoted "ingredients" +:+ ": [";
      "    {";
      "      " +:+ quoted "name" +:+ ": " +:+ quoted "שם המרכיב" +:+ ",";
      "      " +:+ quoted "calories" +:+ ": מספר,";
      "      " +:+ quoted "protein" +:+ ": מספר,";
      "      " +:+ quoted "carbs" +:+ ": מספר,";
      "      " +:+ quoted "fat" +:+ ": מספר,";
      "      " +:+ quoted "fiber" +:+ ": מספר,";
      "      " +:+ quoted "sugar" +:+ ": מספר,";
      "      " +:+ quoted "sodium_mg" +:+ ": מספר";
      "    }";
      "  ],";
      "  " +:+ quoted "healthNotes" +:+ ": " +:+ quoted "הערות בריאות והמלצות" +:+ ",";
      "  " +:+ quoted "recommendations" +:+ ": " +:+ quoted "המלצות תזונתיות";
      "}" ].

(** The English instruction template of [createAnalysisPrompt]. *)
Definition basePrompt_english : string :=
  join_lines
    [ "You are an expert nutrition analyst. Analyze the food image and provide detailed nutritional information.";
      EmptyString;
      "Return JSON in this exact format:";
      "{";
      "  " +:+ quoted "name" +:+ ": " +:+ quoted "Dish name" +:+ ",";
      "  " +:+ quoted "description" +:+ ": " +:+ quoted "Brief description" +:+ ",";
      "  " +:+ quoted "calories" +:+ ": number,";
      "  " +:+ quoted "protein" +:+ ": number,";
      "  " +:+ quoted "carbs" +:+ ": number,";
      "  " +:+ quoted "fat" +:+ ": number,";
      "  " +:+ quoted "fiber" +:+ ": number,";
      "  " +:+ quoted "sugar" +:+ ": number,";
      "  " +:+ quoted "sodium" +:+ ": number,";
      "  " +:+ quoted "saturated_fats_g" +:+ ": number,";
      "  " +:+ quoted "polyunsaturated_fats_g" +:+ ": number,";
      "  " +:+ quoted "monounsaturated_fats_g" +:+ ": number,";
      "  " +:+ quoted "omega_3_g" +:+ ": number,";
      "  " +:+ quoted "omega_6_g" +:+ ": number,";
      "  " +:+ quoted "soluble_fiber_g" +:+ ": number,";
      "  " +:+ quoted "insoluble_fiber_g" +:+ ": number,";
      "  " +:+ quoted "cholesterol_mg" +:+ ": number,";
      "  " +:+ quoted "alcohol_g" +:+ ": number,";
      "  " +:+ quoted "caffeine_mg" +:+ ": number,";
      "  " +:+ quoted "liquids_ml" +:+ ": number,";
      "  " +:+ quoted "serving_size_g" +:+ ": number,";
      "  " +:+ quoted "glycemic_index" +:+ ": number,";
      "  " +:+ quoted "insulin_index" +:+ ": number,";
      "  " +:+ quoted "food_category" +:+ ": " +:+ quoted "category" +:+ ",";
      "  " +:+ quoted "processing_level" +:+ ": " +:+ quoted "processing level" +:+ ",";
      "  " +:+ quoted "cooking_method" +:+ ": " +:+ quoted "cooking method" +:+ ",";
      "  " +:+ quoted "health_risk_notes" +:+ ": " +:+ quoted "health notes" +:+ ",";
      "  " +:+ quoted "confidence" +:+ ": number (0-100),";
      "  " +:+ quoted "ingredients" +:+ ": [";
      "    {";
      "      " +:+ quoted "name" +:+ ": " +:+ quoted "ingredient name" +:+ ",";
      "      " +:+ quoted "calories" +:+ ": number,";
      "      " +:+ quoted "protein" +:+ ": number,";
      "      " +:+ quoted "carbs" +:+ ": number,";
      "      " +:+ quoted "fat" +:+ ": number,";
      "      " +:+ quoted "fiber" +:+ ": number,";
      "      " +:+ quoted "sugar" +:+ ": number,";
      "      " +:+ quoted "sodium_mg" +:+ ": number";
      "    }";
      "  ],";
      "  " +:+ quoted "healthNotes" +:+ ": " +:+ quoted "Health notes and recommendations" +:+ ",";
      "  " +:+ quoted "recommendations" +:+ ": " +:+ quoted "Nutritional recommendations";
      "}" ].

(** An optional string argument is truthy when given and not empty. *)
Definition given (o : option string) : bool :=
  match o with
  | Some s => negb (String.eqb s "")
  | None => false
  end.

(** *** The provider's chat-completion interface *)

Inductive content_part : Type :=
| text_part (text : string)
| image_url_part (url : string) (detail : string).

Inductive message_content : Type :=
| text_content (text : string)
| parts_content (parts : list content_part).

Record chat_message : Type := {
  role : string;
  content : message_content
}.

Record chat_request : Type := {
  model : string;
  messages : list chat_message;
  max_tokens : Z;
  temperature : number
}.

(** The part of a completion the service reads:
    [response.choices[0]?.message?.content], a string or nothing. *)
Module Completion.
Record message_t : Type := { content : option string }.
Record choice : Type := { message : option message_t }.
Record t : Type := { choices : list choice }.

Definition first_content (response : t) : option string :=
  match choices response with
  | c :: _ =>
      match message c with
      | Some m => content m
      | None => None
      end
  | [] => None
  end.
End Completion.

(** What [updateMealAnalysis] returns: the normalised record, or the
    keyword-adjusted copy made by [getBasicUpdate]. *)
Inductive update_result : Type :=
| Normalized (r : NutritionRecord)
| Adjusted (updated : gmap string value).

Section Runtime.

(** [JSON.stringify(v, null, indent)], a built-in of the runtime taken
    as given; [None] is the result [undefined]. *)
Variable JSON_stringify : value -> nat -> option string.

(** The two helpers imported from [../utils/openai]; either may throw. *)
Variable extractCleanJSON : string -> res string.
Variable parsePartialJSON : string -> res value.

Definition createAnalysisPrompt (isHebrew : bool) (updateText : option string)
    (editedIngredients : list value) : string :=
  let basePrompt := if isHebrew then basePrompt_hebrew else basePrompt_english in
  if given updateText then
    basePrompt +:+
      (if isHebrew
       then nl +:+ nl +:+ "מידע נוסף מהמשתמש: " +:+ text_of updateText
       else nl +:+ nl +:+ "Additional user information: " +:+ text_of updateText)
  else if (0 <? length editedIngredients)%nat then
    basePrompt +:+
      (if isHebrew
       then nl +:+ nl +:+ "מרכיבים שערך המשתמש: "
              +:+ text_of (JSON_stringify (VArr editedIngredients) 0)
       else nl +:+ nl +:+ "User-edited ingredients: "
              +:+ text_of (JSON_stringify (VArr editedIngredients) 0))
  else basePrompt.

Definition createUpdatePrompt (originalAnalysis : value) (updateText : string)
    (isHebrew : bool) : string :=
  if isHebrew then
    join_lines
      [ "עדכן את הניתוח התזונתי הקיים בהתבסס על המידע החדש.";
        EmptyString;
        "ניתוח קיים:";
        text_of (JSON_stringify originalAnalysis 2);
        EmptyString;
        "מידע חדש מהמשתמש:";
        updateText;
        EmptyString;
        "החזר JSON מעודכן באותו פורמט של הניתוח המקורי." ]
  else
    join_lines
      [ "Update the existing nutritional analysis based on the new information.";
        EmptyString;
        "Current analysis:";
        text_of (JSON_stringify originalAnalysis 2);
        EmptyString;
        "New user information:";
        updateText;
        EmptyString;
        "Return updated JSON in the same format as the original analysis." ].

(** The module-level client, [None] when no key was set when the module
    was loaded, and [process.env.OPENAI_API_KEY] at the time of the
    call.  A call of the client returns a completion or throws. *)
Variable openai : option (chat_request -> res Completion.t).
Variable OPENAI_API_KEY : option string.

(** [error.status === n] *)
Definition status_is (error : value) (n : Z) : res bool :=
  status ← Get error "status";
  Ok (strict_eq_num status (of_Z n)).

(** [!imageBase64 || imageBase64.trim() === ""] *)
Definition image_missing (imageBase64 : string) : bool :=
  String.eqb imageBase64 "" || String.eqb (trim imageBase64) "".

(** The payload after [data:image/...,] has been cut off: the second piece
    of the split at commas, which is undefined when there is no comma. *)
Definition clean_base64 (imageBase64 : string) : option string :=
  if startsWith imageBase64 "data:image/"
  then split_comma_1 imageBase64
  else Some imageBase64.

(** The body of the [try] block of [analyzeMealImage]. *)
Definition analyzeMealImage_try (imageBase64 language : string)
    (updateText : option string) (editedIngredients : list value)
  : res NutritionRecord :=
  match openai with
  | None => Ok (getFallbackAnalysis language)
  | Some client =>
      if negb (given OPENAI_API_KEY) then Ok (getFallbackAnalysis language)
      else if image_missing imageBase64
      then Throw (Error_ "Image data is required")
      else
        let cleanBase64 := clean_base64 imageBase64 in
        if negb (base64Regex_test (text_of cleanBase64))
        then Throw (Error_ "Invalid base64 image format")
        else
          let isHebrew := String.eqb language "hebrew" in
          let systemPrompt := createAnalysisPrompt isHebrew updateText editedIngredients in
          response ←
            client
              {| model := "gpt-4o";
                 messages :=
                   [ {| role := "system"; content := text_content systemPrompt |};
                     {| role := "user";
                        content :=
                          parts_content
                            [ text_part
                                (if given updateText then text_of updateText
                                 else if isHebrew
                                 then "נתח את התמונה הזו של האוכל ותן לי פירוט תזונתי מדויק."
                                 else "Analyze this food image and provide detailed nutritional information.");
                              image_url_part
                                ("data:image/jpeg;base64," +:+ text_of cleanBase64)
                                "high" ] |} ];
                 max_tokens := 2000;
                 temperature := of_decimal false 3 (-1) |};
          let content_ := Completion.first_content response in
          if negb (given content_) then Throw (Error_ "No response from OpenAI")
          else
            cleanedJSON ← extractCleanJSON (text_of content_);
            analysis ← parsePartialJSON cleanedJSON;
            normalizeAnalysisResponse analysis
  end.

(** The [catch] block of [analyzeMealImage]. *)
Definition analyzeMealImage_catch (language : string) (error : value)
  : res NutritionRecord :=
  is400 ← status_is error 400;
  if (is400 : bool) then Throw (Error_ "Invalid image data or request format")
  else
    is401 ← status_is error 401;
    if (is401 : bool) then Throw (Error_ "OpenAI API authentication failed")
    else
      is429 ← status_is error 429;
      if (is429 : bool)
      then Throw (Error_ "OpenAI API rate limit exceeded. Please try again later.")
      else
        is500 ← status_is error 500;
        if (is500 : bool) then Throw (Error_ "OpenAI service temporarily unavailable")
        else Ok (getFallbackAnalysis language).

(** [analyzeMealImage(imageBase64, language, updateText, editedIngredients)];
    a call without [language] passes ["english"], one without
    [editedIngredients] passes the empty array. *)
Definition analyzeMealImage (imageBase64 language : string)
    (updateText : option string) (editedIngredients : list value)
  : res NutritionRecord :=
  try_catch
    (analyzeMealImage_try imageBase64 language updateText editedIngredients)
    (analyzeMealImage_catch language).

(** The body of the [try] block of [updateMealAnalysis]. *)
Definition updateMealAnalysis_try (originalAnalysis : value)
    (updateText language : string) : res update_result :=
  match openai with
  | None =>
      updated ← getBasicUpdate originalAnalysis updateText;
      Ok (Adjusted updated)
  | Some client =>
      if negb (given OPENAI_API_KEY) then
        updated ← getBasicUpdate originalAnalysis updateText;
        Ok (Adjusted updated)
      else
        let isHebrew := String.eqb language "hebrew" in
        let prompt := createUpdatePrompt originalAnalysis updateText isHebrew in
        response ←
          client
            {| model := "gpt-4o";
               messages :=
                 [ {| role := "system";
                      content :=
                        text_content
                          (if isHebrew
                           then "אתה מנתח תזונה מומחה. עדכן את הניתוח הקיים בהתבסס על המידע החדש שהמשתמש סיפק."
                           else "You are an expert nutrition analyst. Update the existing analysis based on the new information provided by the user.") |};
                   {| role := "user"; content := text_content prompt |} ];
               max_tokens := 1500;
               temperature := of_decimal false 2 (-1) |};
        let content_ := Completion.first_content response in
        if negb (given content_) then Throw (Error_ "No response from OpenAI")
        else
          cleanedJSON ← extractCleanJSON (text_of content_);
          updatedAnalysis ← parsePartialJSON cleanedJSON;
          r ← normalizeAnalysisResponse updatedAnalysis;
          Ok (Normalized r)
  end.

(** [updateMealAnalysis(originalAnalysis, updateText, language)] *)
Definition updateMealAnalysis (originalAnalysis : value)
    (updateText language : string) : res update_result :=
  try_catch
    (updateMealAnalysis_try originalAnalysis updateText language)
    (fun _ =>
       updated ← getBasicUpdate originalAnalysis updateText;
       Ok (Adjusted updated)).

(** [generateText(prompt, maxTokens)], with [maxTokens] a whole number of
    tokens; a call without [maxTokens] passes 1000.  The [catch] block
    throws the error it caught. *)
Definition generateText (prompt : string) (maxTokens : Z) : res string :=
  try_catch
    (match openai with
     | None => Ok "AI text generation not available - no API key configured"
     | Some client =>
         if negb (given OPENAI_API_KEY)
         then Ok "AI text generation not available - no API key configured"
         else
           response ←
             client
               {| model := "gpt-4o";
                  messages := [ {| role := "user"; content := text_content prompt |} ];
                  max_tokens := maxTokens;
                  temperature := of_decimal false 7 (-1) |};
           let content_ := Completion.first_content response in
           Ok (if given content_ then text_of content_ else "No response generated")
     end)
    (fun error => Throw error).

End Runtime.

End OpenAIService.

Import OpenAIService.

(** ** Stand-ins for the collaborators

    The results below hold for every provider, every pair of JSON helpers
    and every [JSON.stringify]; these simple ones serve to run the service
    on concrete inputs. *)

Module Sample.

Definition JSON_stringify (v : value) (indent : nat) : option string :=
  match v with
  | VUndefined => None
  | VArr [] => Some "[]"
  | _ => Some "{}"
  end.

Definition extractCleanJSON (content_ : string) : res string := Ok content_.

Definition parsePartialJSON (text : string) : res value :=
  if String.eqb text "null" then Ok VNull else Ok (VObj ∅).

(** A provider that answers with the given text. *)
Definition client_replying (text : string) (request : chat_request) : res Completion.t :=
  Ok {| Completion.choices :=
          [ {| Completion.message := Some {| Completion.content := Some text |} |} ] |}.

(** A provider whose call is rejected with an error carrying a status. *)
Definition client_failing (status : Z) (request : chat_request) : res Completion.t :=
  Throw (VObj (<["status" := VNum (of_Z status)]>
              (<["message" := VStr "request failed"]> ∅))).

End Sample.

(** ** Vocabulary of the statements *)

(** The value read by [analysis.k] when [analysis] is neither [null] nor
    [undefined]. *)
Definition field (analysis : value) (k : string) : value :=
  match analysis with
  | VObj o => default VUndefined (o !! k)
  | _ => VUndefined
  end.

(** The properties that [normalizeAnalysisResponse] hands to [Number]. *)
Definition coerced_keys : list string :=
  [ "calories"; "protein"; "carbs"; "fat"; "fiber"; "sugar"; "sodium";
    "saturated_fats_g"; "polyunsaturated_fats_g"; "monounsaturated_fats_g";
    "omega_3_g"; "omega_6_g"; "soluble_fiber_g"; "insoluble_fiber_g";
    "cholesterol_mg"; "alcohol_g"; "caffeine_mg"; "liquids_ml";
    "serving_size_g"; "glycemic_index"; "insulin_index"; "confidence" ].

(** The inputs on which [normalizeAnalysisResponse] returns: every value
    but [null] and [undefined] whose coerced properties convert to a
    primitive. *)
Definition normalizable (analysis : value) : bool :=
  negb (is_nullish analysis)
  && forallb (fun k => convertible (field analysis k)) coerced_keys.

(** [Number(analysis.k) || d], [analysis.k || d] and
    [analysis.k ? Number(analysis.k) : null] once the reads succeed. *)
Definition coerced (analysis : value) (k : string) (d : number) : number :=
  Num.or_default (number_of (field analysis k)) d.

Definition chosen (analysis : value) (k : string) (d : string) : value :=
  or_else (field analysis k) (VStr d).

Definition coerced_or_null (analysis : value) (k : string) : option number :=
  if ToBoolean (field analysis k) then Some (number_of (field analysis k)) else None.

(** The record [normalizeAnalysisResponse] returns on a normalizable
    input, field by field. *)
Definition normalized (analysis : value) : NutritionRecord :=
  {| name := chosen analysis "name" "Unknown Meal";
     description := chosen analysis "description" "";
     calories := coerced analysis "calories" (of_Z 0);
     protein := coerced analysis "protein" (of_Z 0);
     carbs := coerced analysis "carbs" (of_Z 0);
     fat := coerced analysis "fat" (of_Z 0);
     fiber := coerced analysis "fiber" (of_Z 0);
     sugar := coerced analysis "sugar" (of_Z 0);
     sodium := coerced analysis "sodium" (of_Z 0);
     saturated_fats_g := coerced analysis "saturated_fats_g" (of_Z 0);
     polyunsaturated_fats_g := coerced analysis "polyunsaturated_fats_g" (of_Z 0);
     monounsaturated_fats_g := coerced analysis "monounsaturated_fats_g" (of_Z 0);
     omega_3_g := coerced analysis "omega_3_g" (of_Z 0);
     omega_6_g := coerced analysis "omega_6_g" (of_Z 0);
     soluble_fiber_g := coerced analysis "soluble_fiber_g" (of_Z 0);
     insoluble_fiber_g := coerced analysis "insoluble_fiber_g" (of_Z 0);
     cholesterol_mg := coerced analysis "cholesterol_mg" (of_Z 0);
     alcohol_g := coerced analysis "alcohol_g" (of_Z 0);
     caffeine_mg := coerced analysis "caffeine_mg" (of_Z 0);
     liquids_ml := coerced analysis "liquids_ml" (of_Z 0);
     serving_size_g := coerced analysis "serving_size_g" (of_Z 100);
     glycemic_index := coerced_or_null analysis "glycemic_index";
     insulin_index := coerced_or_null analysis "insulin_index";
     food_category := chosen analysis "food_category" "Mixed";
     processing_level := chosen analysis "processing_level" "Moderate";
     cooking_method := chosen analysis "cooking_method" "Mixed";
     health_risk_notes := chosen analysis "health_risk_notes" "";
     confidence := coerced analysis "confidence" (of_Z 75);
     ingredients :=
       match field analysis "ingredients" with
       | VArr l => l
       | _ => []
       end;
     healthNotes :=
       or_else (field analysis "healthNotes") (chosen analysis "recommendations" "");
     recommendations :=
       or_else (field analysis "recommendations") (chosen analysis "healthNotes" "");
     meal_name := chosen analysis "name" "Unknown Meal";
     protein_g := coerced analysis "protein" (of_Z 0);
     carbs_g := coerced analysis "carbs" (of_Z 0);
     fats_g := coerced analysis "fat" (of_Z 0);
     fiber_g := coerced analysis "fiber" (of_Z 0);
     sugar_g := coerced analysis "sugar" (of_Z 0);
     sodium_mg := coerced analysis "sodium" (of_Z 0) |}.

(** The numeric fields of a record, aliases included. *)
Definition numeric_fields (r : NutritionRecord) : list number :=
  [ calories r; protein r; carbs r; fat r; fiber r; sugar r; sodium r;
    saturated_fats_g r; polyunsaturated_fats_g r; monounsaturated_fats_g r;
    omega_3_g r; omega_6_g r; soluble_fiber_g r; insoluble_fiber_g r;
    cholesterol_mg r; alcohol_g r; caffeine_mg r; liquids_ml r;
    serving_size_g r; confidence r;
    protein_g r; carbs_g r; fats_g r; fiber_g r; sugar_g r; sodium_mg r ].

(** The descriptive fields of a record. *)
Definition descriptive_fields (r : NutritionRecord) : list value :=
  [ food_category r; processing_level r; cooking_method r; health_risk_notes r ].

(** A valid number is a number that is not NaN. *)
Definition valid_number (n : number) : bool := negb (is_nan n).

Definition valid_or_null (o : option number) : bool :=
  match o with
  | Some n => valid_number n
  | None => true
  end.

(** The typing that the specification promises of a normalised record:
    valid numbers, strings in the descriptive fields, and the two index
    fields valid or null (the [ingredients] field is a list by its type). *)
Definition well_typed (r : NutritionRecord) : bool :=
  forallb valid_number (numeric_fields r)
  && forallb is_string (descriptive_fields r)
  && valid_or_null (glycemic_index r)
  && valid_or_null (insulin_index r).

(** The numeric properties with the default each falls back to. *)
Definition numeric_defaults : list (string * (NutritionRecord -> number) * Z) :=
  [ ("calories", calories, 0); ("protein", protein, 0); ("carbs", carbs, 0);
    ("fat", fat, 0); ("fiber", fiber, 0); ("sugar", sugar, 0);
    ("sodium", sodium, 0); ("saturated_fats_g", saturated_fats_g, 0);
    ("polyunsaturated_fats_g", polyunsaturated_fats_g, 0);
    ("monounsaturated_fats_g", monounsaturated_fats_g, 0);
    ("omega_3_g", omega_3_g, 0); ("omega_6_g", omega_6_g, 0);
    ("soluble_fiber_g", soluble_fiber_g, 0);
    ("insoluble_fiber_g", insoluble_fiber_g, 0);
    ("cholesterol_mg", cholesterol_mg, 0); ("alcohol_g", alcohol_g, 0);
    ("caffeine_mg", caffeine_mg, 0); ("liquids_ml", liquids_ml, 0);
    ("serving_size_g", serving_size_g, 100); ("confidence", confidence, 75) ].

(** The descriptive properties with the text each falls back to. *)
Definition descriptive_defaults : list (string * (NutritionRecord -> value) * string) :=
  [ ("food_category", food_category, "Mixed");
    ("processing_level", processing_level, "Moderate");
    ("cooking_method", cooking_method, "Mixed");
    ("health_risk_notes", health_risk_notes, "") ].

(** Inputs used in the statements. *)
Definition empty_object : value := VObj ∅.

Definition calories_200_protein_null : value :=
  VObj (<["calories" := VStr "200"]> (<["protein" := VNull]> ∅)).

Definition category_42_index_high : value :=
  VObj (<["food_category" := VNum (of_Z 42)]>
       (<["glycemic_index" := VStr "high"]> ∅)).

(** The properties [getBasicUpdate] may assign. *)
Definition assigned_keys : list string :=
  [ "protein"; "protein_g"; "calories"; "fiber"; "fiber_g"; "healthNotes";
    "confidence" ].

(** What [getBasicUpdate] makes of an object [o], where [p], [c] and [f]
    are its [protein], [calories] and [fiber] when the keyword of the
    property occurs, and [conf] is its [confidence]: each keyword rule
    acts on its own property, whatever the other rules do; the notes and
    the confidence are always set; nothing else changes. *)
Definition adjusted (o : gmap string value) (p c f conf : number)
    (updateText : string) (updated : gmap string value) : Prop :=
  let lowerUpdate := toLowerCase updateText in
  updated !! "protein"
  = (if wants_more_protein lowerUpdate
     then Some (VNum (Math_round (Num.mul p lit_1_2)))
     else o !! "protein")
  /\ updated !! "protein_g"
     = (if wants_more_protein lowerUpdate
        then Some (VNum (Math_round (Num.mul p lit_1_2)))
        else o !! "protein_g")
  /\ updated !! "calories"
     = (if wants_less_calories lowerUpdate
        then Some (VNum (Math_round (Num.mul c lit_0_8)))
        else o !! "calories")
  /\ updated !! "fiber"
     = (if wants_more_vegetables lowerUpdate
        then Some (VNum (Math_round (Num.mul f lit_1_3)))
        else o !! "fiber")
  /\ updated !! "fiber_g"
     = (if wants_more_vegetables lowerUpdate
        then Some (VNum (Math_round (Num.mul f lit_1_3)))
        else o !! "fiber_g")
  /\ updated !! "healthNotes"
     = Some (VStr ("Updated based on user input: " +:+ updateText))
  /\ updated !! "confidence"
     = Some (VNum (Math_max [of_Z 50; Num.sub conf (of_Z 10)]))
  /\ (forall k, ~ In k assigned_keys -> updated !! k = o !! k).

Definition object_100_10_5_80 : gmap string value :=
  <["calories" := VNum (of_Z 100)]>
    (<["protein" := VNum (of_Z 10)]>
       (<["fiber" := VNum (of_Z 5)]>
          (<["confidence" := VNum (of_Z 80)]> ∅))).

Definition object_confidence_55 : gmap string value :=
  <["confidence" := VNum (of_Z 55)]> ∅.

(** The statuses that the [catch] block of [analyzeMealImage] answers with
    an error of its own, and the message of each. *)
Definition rethrown : list (Z * string) :=
  [ (400, "Invalid image data or request format");
    (401, "OpenAI API authentication failed");
    (429, "OpenAI API rate limit exceeded. Please try again later.");
    (500, "OpenAI service temporarily unavailable") ].

(** [error.status === n], for an error that is not [null] or [undefined]. *)
Definition has_status (error : value) (n : Z) : bool :=
  strict_eq_num (field error "status") (of_Z n).

(** The message of the first status of the list that [error] carries. *)
Fixpoint rethrown_message (error : value) (l : list (Z * string)) : option string :=
  match l with
  | [] => None
  | (n, message) :: l' =>
      if has_status error n then Some message else rethrown_message error l'
  end.

(** The errors that [analyzeMealImage] answers with the fallback record:
    every value but [null] and [undefined] that carries none of the four
    statuses. *)
Definition falls_back (error : value) : bool :=
  negb (is_nullish error)
  && match rethrown_message error rethrown with
     | None => true
     | Some _ => false
     end.

(** The image payloads that the validation of [analyzeMealImage] refuses. *)
Definition image_rejected (imageBase64 : string) : bool :=
  image_missing imageBase64
  || negb (base64Regex_test (text_of (clean_base64 imageBase64))).

(** The inputs on which [getBasicUpdate] returns: the confidence, and each
    property whose keyword occurs in the text, converts to a primitive. *)
Definition adjustable (originalAnalysis : value) (updateText : string) : bool :=
  let o := spread originalAnalysis in
  let lowerUpdate := toLowerCase updateText in
  (negb (wants_more_protein lowerUpdate) || convertible (prop o "protein"))
  && (negb (wants_less_calories lowerUpdate) || convertible (prop o "calories"))
  && (negb (wants_more_vegetables lowerUpdate) || convertible (prop o "fiber"))
  && convertible (prop o "confidence").

(** Every error that a collaborator throws is one that [analyzeMealImage]
    answers with the fallback record. *)
Definition errors_fall_back
    (extractCleanJSON : string -> res string)
    (parsePartialJSON : string -> res value)
    (openai : option (chat_request -> res Completion.t)) : Prop :=
  (forall client request e,
      openai = Some client -> client request = Throw e -> falls_back e = true)
  /\ (forall text e, extractCleanJSON text = Throw e -> falls_back e = true)
  /\ (forall text e, parsePartialJSON text = Throw e -> falls_back e = true).

(** The properties that [normalizeAnalysisResponse] reads. *)
Definition read_keys : list string :=
  [ "name"; "description"; "calories"; "protein"; "carbs"; "fat"; "fiber";
    "sugar"; "sodium"; "saturated_fats_g"; "polyunsaturated_fats_g";
    "monounsaturated_fats_g"; "omega_3_g"; "omega_6_g"; "soluble_fiber_g";
    "insoluble_fiber_g"; "cholesterol_mg"; "alcohol_g"; "caffeine_mg";
    "liquids_ml"; "serving_size_g"; "glycemic_index"; "insulin_index";
    "food_category"; "processing_level"; "cooking_method";
    "health_risk_notes"; "confidence"; "ingredients"; "healthNotes";
    "recommendations" ].

(** The request that [analyzeMealImage] sends to the provider. *)
Definition analysis_request (JSON_stringify : value -> nat -> option string)
    (imageBase64 language : string) (updateText : option string)
    (editedIngredients : list value) : chat_request :=
  let isHebrew := String.eqb language "hebrew" in
  {| model := "gpt-4o";
     messages :=
       [ {| role := "system";
            content :=
              text_content
                (createAnalysisPrompt JSON_stringify isHebrew updateText
                   editedIngredients) |};
         {| role := "user";
            content :=
              parts_content
                [ text_part
                    (if given updateText then text_of updateText
                     else if isHebrew
                     then "נתח את התמונה הזו של האוכל ותן לי פירוט תזונתי מדויק."
                     else "Analyze this food image and provide detailed nutritional information.");
                  image_url_part
                    ("data:image/jpeg;base64," +:+ text_of (clean_base64 imageBase64))
                    "high" ] |} ];
     max_tokens := 2000;
     temperature := of_decimal false 3 (-1) |}.

(** The request that [updateMealAnalysis] sends to the provider. *)
Definition update_request (JSON_stringify : value -> nat -> option string)
    (originalAnalysis : value) (updateText language : string) : chat_request :=
  let isHebrew := String.eqb language "hebrew" in
  {| model := "gpt-4o";
     messages :=
       [ {| role := "system";
            content :=
              text_content
                (if isHebrew
                 then "אתה מנתח תזונה מומחה. עדכן את הניתוח הקיים בהתבסס על המידע החדש שהמשתמש סיפק."
                 else "You are an expert nutrition analyst. Update the existing analysis based on the new information provided by the user.") |};
         {| role := "user";
            content :=
              text_content
                (createUpdatePrompt JSON_stringify originalAnalysis updateText
                   isHebrew) |} ];
     max_tokens := 1500;
     temperature := of_decimal false 2 (-1) |}.

(** What [updateMealAnalysis] answers when it does not use the provider's
    reply: the result of [getBasicUpdate]. *)
Definition basic_update (originalAnalysis : value) (updateText : string)
  : res update_result :=
  updated ← getBasicUpdate originalAnalysis updateText;
  Ok (Adjusted updated).

(** A string without a comma. *)
Fixpoint no_comma (s : string) : bool :=
  match s with
  | EmptyString => true
  | String a r => negb (code a =? 44) && no_comma r
  end.

(** A string of characters of the base64 alphabet. *)
Fixpoint all_base64 (s : string) : bool :=
  match s with
  | EmptyString => true
  | String a r => base64_char a && all_base64 r
  end.

(** The phrases that trigger each rule of [getBasicUpdate]. *)
Definition protein_phrases : list string := [ "more protein"; "חלבון" ].
Definition calories_phrases : list string := [ "less calories"; "פחות קלוריות" ].
Definition vegetables_phrases : list string := [ "more vegetables"; "ירקות" ].

(** The provider answers [request] with a text that is not empty, and the
    two helpers turn that text into the value [analysis]. *)
Definition parsed_reply
    (extractCleanJSON : string -> res string)
    (parsePartialJSON : string -> res value)
    (client : chat_request -> res Completion.t)
    (request : chat_request) (analysis : value) : Prop :=
  exists response text cleanedJSON,
    client request = Ok response
    /\ Completion.first_content response = Some text
    /\ text <> ""%string
    /\ extractCleanJSON text = Ok cleanedJSON
    /\ parsePartialJSON cleanedJSON = Ok analysis.

(** The image reference that [analyzeMealImage] puts in its request. *)
Definition sent_image_url (imageBase64 : string) : string :=
  "data:image/jpeg;base64," +:+ text_of (clean_base64 imageBase64).

(** The request that [generateText] sends to the provider. *)
Definition text_request (prompt : string) (maxTokens : Z) : chat_request :=
  {| model := "gpt-4o";
     messages := [ {| role := "user"; content := text_content prompt |} ];
     max_tokens := maxTokens;
     temperature := of_decimal false 7 (-1) |}.

(** A record as the object it is in the program: one property for each
    field, a missing index being [null]. *)
Definition number_or_null_value (o : option number) : value :=
  match o with
  | Some n => VNum n
  | None => VNull
  end.

Definition record_properties (r : NutritionRecord) : list (string * value) :=
  [ ("name", name r);
    ("description", description r);
    ("calories", VNum (calories r));
    ("protein", VNum (protein r));
    ("carbs", VNum (carbs r));
    ("fat", VNum (fat r));
    ("fiber", VNum (fiber r));
    ("sugar", VNum (sugar r));
    ("sodium", VNum (sodium r));
    ("saturated_fats_g", VNum (saturated_fats_g r));
    ("polyunsaturated_fats_g", VNum (polyunsaturated_fats_g r));
    ("monounsaturated_fats_g", VNum (monounsaturated_fats_g r));
    ("omega_3_g", VNum (omega_3_g r));
    ("omega_6_g", VNum (omega_6_g r));
    ("soluble_fiber_g", VNum (soluble_fiber_g r));
    ("insoluble_fiber_g", VNum (insoluble_fiber_g r));
    ("cholesterol_mg", VNum (cholesterol_mg r));
    ("alcohol_g", VNum (alcohol_g r));
    ("caffeine_mg", VNum (caffeine_mg r));
    ("liquids_ml", VNum (liquids_ml r));
    ("serving_size_g", VNum (serving_size_g r));
    ("glycemic_index", number_or_null_value (glycemic_index r));
    ("insulin_index", number_or_null_value (insulin_index r));
    ("food_category", food_category r);
    ("processing_level", processing_level r);
    ("cooking_method", cooking_method r);
    ("health_risk_notes", health_risk_notes r);
    ("confidence", VNum (confidence r));
    ("ingredients", VArr (ingredients r));
    ("healthNotes", healthNotes r);
    ("recommendations", recommendations r);
    ("meal_name", meal_name r);
    ("protein_g", VNum (protein_g r));
    ("carbs_g", VNum (carbs_g r));
    ("fats_g", VNum (fats_g r));
    ("fiber_g", VNum (fiber_g r));
    ("sugar_g", VNum (sugar_g r));
    ("sodium_mg", VNum (sodium_mg r)) ].

Definition as_object (r : NutritionRecord) : gmap string value :=
  list_to_map (record_properties r).

Definition as_value (r : NutritionRecord) : value := VObj (as_object r).

(** An index field that a further normalisation keeps: [null], or a
    number other than zero and NaN. *)
Definition index_kept (o : option number) : bool :=
  match o with
  | Some n => Num.truthy n
  | None => true
  end.

(** The numbers that a basic update assigns, checked on its result:
    [protein], [calories] and [fiber] are numbers other than NaN, and
    [confidence] is one that is not below 50. *)
Definition valid_at (updated : gmap string value) (k : string) : bool :=
  match updated !! k with
  | Some (VNum n) => valid_number n
  | _ => false
  end.

Definition update_valid (updated : gmap string value) : bool :=
  valid_at updated "protein"
  && valid_at updated "calories"
  && valid_at updated "fiber"
  && match updated !! "confidence" with
     | Some (VNum n) => valid_number n && negb (Num.gt (of_Z 50) n)
     | _ => false
     end.

(** The four numbers of a record that a basic update computes with. *)
Definition update_operands (r : NutritionRecord) : list number :=
  [ protein r; calories r; fiber r; confidence r ].


(** [x] is the double nearest to [tenths / 10], for a value between a
    half and two: a positive double with a mantissa of 53 bits that lies
    within half a unit in the last place of [tenths / 10]. *)
Definition nearest_tenths (x : number) (tenths : Z) : bool :=
  match x with
  | S754_finite false m e =>
      (2 ^ 52 <=? Z.pos m) && (Z.pos m <? 2 ^ 53) && (e <? 0)
      && (Z.abs (10 * Z.pos m - tenths * 2 ^ (- e)) <=? 5)
  | _ => false
  end.

(** ** Results *)

(** *** The runtime on examples *)

Example Math_round_tie_goes_up :
  Math_round (of_decimal false 25 (-1)) = of_Z 3
  /\ Math_round (of_decimal true 25 (-1)) = of_Z (-2).
Proof. split; vm_compute; reflexivity. Qed.

Example Math_round_keeps_sign_of_zero :
  Math_round (of_decimal true 2 (-1)) = neg_zero
  /\ Math_round (of_decimal false 49999999999999994 (-17)) = pos_zero.
Proof. split; vm_compute; reflexivity. Qed.

Example Math_max_NaN : Math_max [of_Z 50; NaN] = NaN.
Proof. reflexivity. Qed.

Example StringToNumber_examples :
  StringToNumber "200" = of_Z 200
  /\ StringToNumber "  12.5e1 " = of_Z 125
  /\ StringToNumber "" = pos_zero
  /\ StringToNumber "0x1F" = of_Z 31
  /\ StringToNumber "-Infinity" = S754_infinity true
  /\ StringToNumber "high" = NaN
  /\ StringToNumber "1,2" = NaN
  /\ StringToNumber "0.1" = S754_finite false 7205759403792794 (-56).
Proof. repeat split; vm_compute; reflexivity. Qed.

Example ToNumber_examples :
  ToNumber (VArr [VStr "7"]) = Ok (of_Z 7)
  /\ ToNumber (VArr [VNum (of_Z 1); VNum (of_Z 2)]) = Ok NaN
  /\ ToNumber (VObj ∅) = Ok NaN
  /\ ToNumber (VObj (<["toString" := VNum (of_Z 1)]> ∅)) = Throw TypeError_.
Proof. repeat split; vm_compute; reflexivity. Qed.

Example base64Regex_examples :
  base64Regex_test "AAAA" = true
  /\ base64Regex_test "AA==" = true
  /\ base64Regex_test "AA===" = false
  /\ base64Regex_test "A=A" = false
  /\ base64Regex_test (text_of (clean_base64 "data:image/png;base64,AAAA")) = true
  /\ base64Regex_test (text_of (clean_base64 "data:image/png;base64")) = true.
Proof. repeat split; vm_compute; reflexivity. Qed.

(** [Math.round] on a finite [x = n / d] that is not an integer gives the
    integer [r] with [r - 1/2 <= x < r + 1/2], as a zero of the sign of
    [x] when [r] is zero. *)
Lemma Math_round_nearest (s : bool) (m : positive) (e : Z) :
  e < 0 ->
  Zpos m mod 2 ^ (- e) <> 0 ->
  let d := 2 ^ (- e) in
  let n := if s then - Zpos m else Zpos m in
  exists r,
    Math_round (S754_finite s m e) = (if r =? 0 then S754_zero s else of_Z r)
    /\ 2 * d * r - d <= 2 * n < 2 * d * r + d.
Proof.
  intros He Hmod d n.
  assert (Hd : 0 < d) by (apply Z.pow_pos_nonneg; lia).
  exists ((2 * n + d) / (2 * d)). split.
  - unfold Math_round.
    destruct (0 <=? e) eqn:Hle; [apply Z.leb_le in Hle; lia|].
    fold d. destruct (Zpos m mod d =? 0) eqn:Hz; [apply Z.eqb_eq in Hz; contradiction|].
    subst n. destruct s; reflexivity.
  - pose proof (Z.div_mod (2 * n + d) (2 * d) ltac:(lia)) as Hdiv.
    pose proof (Z.mod_pos_bound (2 * n + d) (2 * d) ltac:(lia)) as Hbound.
    lia.
Qed.

(** *** Reads and coercions *)

Lemma Get_field (analysis : value) (k : string) :
  is_nullish analysis = false -> Get analysis k = Ok (field analysis k).
Proof. destruct analysis; simpl; (discriminate || reflexivity). Qed.

Lemma Get_nullish (analysis : value) (k : string) :
  is_nullish analysis = true -> Get analysis k = Throw TypeError_.
Proof. destruct analysis; simpl; (discriminate || reflexivity). Qed.

Lemma falsy_convertible (v : value) : ToBoolean v = false -> convertible v = true.
Proof. destruct v; simpl; (discriminate || reflexivity). Qed.

Section Reads.

Variable analysis : value.
Hypothesis Hvalue : is_nullish analysis = false.

Lemma value_or_eq (k d : string) :
  value_or analysis k (VStr d) = Ok (chosen analysis k d).
Proof. unfold value_or. rewrite Get_field by exact Hvalue. reflexivity. Qed.

Lemma number_or_eq (k : string) (d : number) :
  number_or analysis k d
  = if convertible (field analysis k) then Ok (coerced analysis k d)
    else Throw TypeError_.
Proof.
  unfold number_or, Number_, ToNumber. rewrite Get_field by exact Hvalue.
  unfold mbind, res_bind, bind.
  destruct (convertible (field analysis k)); reflexivity.
Qed.

Lemma number_or_null_eq (k : string) :
  number_or_null analysis k
  = if convertible (field analysis k) then Ok (coerced_or_null analysis k)
    else Throw TypeError_.
Proof.
  unfold number_or_null, Number_, ToNumber, coerced_or_null.
  rewrite Get_field by exact Hvalue.
  unfold mbind, res_bind, bind.
  destruct (ToBoolean (field analysis k)) eqn:Htruthy.
  - destruct (convertible (field analysis k)); reflexivity.
  - rewrite falsy_convertible by exact Htruthy. reflexivity.
Qed.

Lemma value_or2_eq (k1 k2 : string) :
  value_or2 analysis k1 k2
  = Ok (or_else (field analysis k1) (chosen analysis k2 "")).
Proof.
  unfold value_or2, chosen, or_else. rewrite !Get_field by exact Hvalue.
  unfold mbind, res_bind, bind.
  destruct (ToBoolean (field analysis k1)); reflexivity.
Qed.

Lemma array_or_empty_eq (k : string) :
  array_or_empty analysis k
  = Ok match field analysis k with VArr l => l | _ => [] end.
Proof.
  unfold array_or_empty. rewrite Get_field by exact Hvalue.
  unfold mbind, res_bind, bind.
  destruct (field analysis k); reflexivity.
Qed.

End Reads.

(** [normalizeAnalysisResponse] returns exactly on the normalizable
    inputs, and then the record [normalized]; on the others it throws the
    runtime's TypeError. *)
Lemma normalizeAnalysisResponse_eq (analysis : value) :
  normalizeAnalysisResponse analysis
  = if normalizable analysis then Ok (normalized analysis) else Throw TypeError_.
Proof.
  unfold normalizable.
  destruct (is_nullish analysis) eqn:Hvalue.
  - unfold normalizeAnalysisResponse, value_or.
    rewrite Get_nullish by exact Hvalue. reflexivity.
  - unfold normalizeAnalysisResponse.
    rewrite !value_or_eq, !number_or_eq, !number_or_null_eq, !value_or2_eq,
      !array_or_empty_eq by exact Hvalue.
    unfold coerced_keys, forallb, mbind, res_bind, bind.
    repeat match goal with
           | |- context [convertible (field analysis ?k)] =>
               destruct (convertible (field analysis k)); [|reflexivity]
           end.
    reflexivity.
Qed.

(** *** Prompt building *)

Section Prompt.

Variable JSON_stringify : value -> nat -> option string.

Lemma createAnalysisPrompt_updateText (isHebrew : bool) (updateText : option string)
    (editedIngredients : list value) :
  given updateText = true ->
  createAnalysisPrompt JSON_stringify isHebrew updateText editedIngredients
  = (if isHebrew then basePrompt_hebrew else basePrompt_english)
    +:+ nl +:+ nl
    +:+ (if isHebrew then "מידע נוסף מהמשתמש: " else "Additional user information: ")
    +:+ text_of updateText.
Proof.
  intros Hgiven. unfold createAnalysisPrompt. rewrite Hgiven.
  destruct isHebrew; reflexivity.
Qed.

Lemma createAnalysisPrompt_editedIngredients (isHebrew : bool)
    (updateText : option string) (editedIngredients : list value) :
  given updateText = false ->
  editedIngredients <> [] ->
  createAnalysisPrompt JSON_stringify isHebrew updateText editedIngredients
  = (if isHebrew then basePrompt_hebrew else basePrompt_english)
    +:+ nl +:+ nl
    +:+ (if isHebrew then "מרכיבים שערך המשתמש: " else "User-edited ingredients: ")
    +:+ text_of (JSON_stringify (VArr editedIngredients) 0%nat).
Proof.
  intros Hgiven Hne. unfold createAnalysisPrompt. rewrite Hgiven.
  destruct editedIngredients as [|x l]; [congruence|].
  destruct isHebrew; reflexivity.
Qed.

Lemma createAnalysisPrompt_plain (isHebrew : bool) (updateText : option string) :
  given updateText = false ->
  createAnalysisPrompt JSON_stringify isHebrew updateText []
  = if isHebrew then basePrompt_hebrew else basePrompt_english.
Proof.
  intros Hgiven. unfold createAnalysisPrompt. rewrite Hgiven. reflexivity.
Qed.

Lemma isHebrew_other (language : string) :
  language <> "hebrew" -> String.eqb language "hebrew" = false.
Proof. intros Hne. apply String.eqb_neq. exact Hne. Qed.

End Prompt.

(** C8. [createAnalysisPrompt] appends at most one suffix to the base
    prompt and the update text wins over the edited ingredients: with a
    non-empty [updateText] the prompt is the base prompt followed by the
    localized update-text suffix, whatever the edited ingredients are;
    otherwise, with a non-empty ingredient list, it is the base prompt
    followed by the localized suffix holding the list as JSON text;
    otherwise it is the base prompt.  For the locale "english", the text
    "add more rice" and no ingredients, the prompt contains
    "Additional user information: add more rice" and does not contain the
    edited-ingredients suffix. *)
Theorem C8_prompt_one_suffix :
  forall (JSON_stringify : value -> nat -> option string),
    (forall isHebrew updateText editedIngredients,
        createAnalysisPrompt JSON_stringify isHebrew updateText editedIngredients
        = (if isHebrew then basePrompt_hebrew else basePrompt_english)
          +:+ (if given updateText then
                 nl +:+ nl
                 +:+ (if isHebrew then "מידע נוסף מהמשתמש: "
                      else "Additional user information: ")
                 +:+ text_of updateText
               else
                 match editedIngredients with
                 | [] => EmptyString
                 | _ :: _ =>
                     nl +:+ nl
                     +:+ (if isHebrew then "מרכיבים שערך המשתמש: "
                          else "User-edited ingredients: ")
                     +:+ text_of (JSON_stringify (VArr editedIngredients) 0%nat)
                 end))
    /\ (let prompt :=
          createAnalysisPrompt JSON_stringify (String.eqb "english" "hebrew")
            (Some "add more rice") [] in
        includes prompt "Additional user information: add more rice" = true
        /\ includes prompt "User-edited ingredients" = false
        /\ includes prompt "מרכיבים שערך המשתמש" = false).
Proof.
  intros JSON_stringify. split.
  - intros isHebrew updateText editedIngredients.
    destruct (given updateText) eqn:Hgiven.
    + rewrite createAnalysisPrompt_updateText by exact Hgiven.
      destruct isHebrew; reflexivity.
    + destruct editedIngredients as [|x l].
      * rewrite createAnalysisPrompt_plain by exact Hgiven.
        destruct isHebrew; vm_compute; reflexivity.
      * rewrite createAnalysisPrompt_editedIngredients by (exact Hgiven || congruence).
        destruct isHebrew; reflexivity.
  - repeat split; vm_compute; reflexivity.
Qed.

(** C9. A locale other than "hebrew", supported or not, gets the prompt
    of the locale "english"; so does the whole analysis: the request sent
    to the provider and the fallback record are those of "english". *)
Theorem C9_other_locale_is_english :
  forall (JSON_stringify : value -> nat -> option string)
         (extractCleanJSON : string -> res string)
         (parsePartialJSON : string -> res value)
         (openai : option (chat_request -> res Completion.t))
         (OPENAI_API_KEY : option string)
         (language : string),
    language <> "hebrew" ->
    (forall updateText editedIngredients,
        createAnalysisPrompt JSON_stringify (String.eqb language "hebrew")
          updateText editedIngredients
        = createAnalysisPrompt JSON_stringify (String.eqb "english" "hebrew")
            updateText editedIngredients)
    /\ (forall imageBase64 updateText editedIngredients,
           analyzeMealImage JSON_stringify extractCleanJSON parsePartialJSON
             openai OPENAI_API_KEY imageBase64 language updateText editedIngredients
           = analyzeMealImage JSON_stringify extractCleanJSON parsePartialJSON
               openai OPENAI_API_KEY imageBase64 "english" updateText editedIngredients).
Proof.
  intros JSON_stringify extractCleanJSON parsePartialJSON openai OPENAI_API_KEY
    language Hother.
  apply isHebrew_other in Hother.
  split.
  - intros updateText editedIngredients. rewrite Hother. reflexivity.
  - intros imageBase64 updateText editedIngredients.
    unfold analyzeMealImage, analyzeMealImage_try, analyzeMealImage_catch,
      getFallbackAnalysis.
    rewrite Hother. reflexivity.
Qed.

Lemma C9_witness_french :
  "french"%string <> "hebrew"%string
  /\ createAnalysisPrompt Sample.JSON_stringify (String.eqb "french" "hebrew") None []
     = createAnalysisPrompt Sample.JSON_stringify (String.eqb "english" "hebrew") None [].
Proof.
  split.
  - discriminate.
  - apply (C9_other_locale_is_english Sample.JSON_stringify Sample.extractCleanJSON
             Sample.parsePartialJSON None None "french").
    discriminate.
Defined.

(** *** The unconfigured provider *)

(** C10. Without a client or without an API key, [analyzeMealImage]
    returns [getFallbackAnalysis(language)] for every image payload, the
    empty one and those that are not base64 included: the image is not
    looked at and no error is thrown. *)
Theorem C10_unconfigured_returns_fallback :
  forall (JSON_stringify : value -> nat -> option string)
         (extractCleanJSON : string -> res string)
         (parsePartialJSON : string -> res value)
         (openai : option (chat_request -> res Completion.t))
         (OPENAI_API_KEY : option string)
         (imageBase64 language : string) (updateText : option string)
         (editedIngredients : list value),
    openai = None \/ given OPENAI_API_KEY = false ->
    analyzeMealImage JSON_stringify extractCleanJSON parsePartialJSON
      openai OPENAI_API_KEY imageBase64 language updateText editedIngredients
    = Ok (getFallbackAnalysis language).
Proof.
  intros JSON_stringify extractCleanJSON parsePartialJSON openai OPENAI_API_KEY
    imageBase64 language updateText editedIngredients Hun.
  unfold analyzeMealImage, analyzeMealImage_try.
  destruct openai as [client|].
  - destruct Hun as [Hnone | Hkey]; [discriminate Hnone|].
    rewrite Hkey. reflexivity.
  - reflexivity.
Qed.

Lemma C10_witness_not_base64 :
  (Some (Sample.client_replying "{}") = None \/ given (Some ""%string) = false)
  /\ analyzeMealImage Sample.JSON_stringify Sample.extractCleanJSON
       Sample.parsePartialJSON (Some (Sample.client_replying "{}")) (Some ""%string)
       "not base64 !" "hebrew" None []
     = Ok (getFallbackAnalysis "hebrew").
Proof.
  split.
  - right. reflexivity.
  - apply C10_unconfigured_returns_fallback. right. reflexivity.
Defined.

(** *** Normalisation *)

Lemma normalizable_intro (analysis : value) :
  is_nullish analysis = false ->
  (forall k, In k coerced_keys -> convertible (field analysis k) = true) ->
  normalizable analysis = true.
Proof.
  intros Hvalue Hconv. unfold normalizable. rewrite Hvalue. simpl negb.
  apply andb_true_intro. split; [reflexivity|].
  apply forallb_forall. exact Hconv.
Qed.

Lemma normalizeAnalysisResponse_Ok (analysis : value) (r : NutritionRecord) :
  normalizeAnalysisResponse analysis = Ok r ->
  normalizable analysis = true /\ r = normalized analysis.
Proof.
  rewrite normalizeAnalysisResponse_eq.
  destruct (normalizable analysis); [|discriminate].
  intros H. injection H as <-. split; reflexivity.
Qed.

Lemma normalizeAnalysisResponse_returns (analysis : value) :
  is_nullish analysis = false ->
  (forall k, In k coerced_keys -> convertible (field analysis k) = true) ->
  normalizeAnalysisResponse analysis = Ok (normalized analysis).
Proof.
  intros Hvalue Hconv. rewrite normalizeAnalysisResponse_eq.
  rewrite normalizable_intro by assumption. reflexivity.
Qed.

Lemma or_default_valid (x d : number) :
  valid_number d = true -> valid_number (Num.or_default x d) = true.
Proof.
  intros Hd. unfold Num.or_default, Num.truthy, valid_number.
  destruct x; simpl; (exact Hd || reflexivity).
Qed.

Lemma strict_eq_refl (x : number) :
  valid_number x = true -> Num.strict_eq x x = true.
Proof.
  unfold valid_number, Num.strict_eq, SFeqb.
  destruct x as [s|s| |s m e]; simpl; try (destruct s; reflexivity); try discriminate.
  intros _. rewrite Z.compare_refl, Pos.compare_cont_refl.
  destruct s; reflexivity.
Qed.

(** C3, as it stands, fails: [normalizeAnalysisResponse(null)] reads
    [analysis.name] of [null], which throws a TypeError; no record is
    returned. *)
Lemma C3_null_throws :
  normalizeAnalysisResponse VNull = Throw TypeError_
  /\ (forall r, normalizeAnalysisResponse VNull <> Ok r).
Proof.
  assert (H : normalizeAnalysisResponse VNull = Throw TypeError_) by reflexivity.
  split; [exact H|]. intros r Hr. rewrite H in Hr. discriminate Hr.
Qed.

(** C3, amended. [normalizeAnalysisResponse] returns a record for every
    input other than [null] and [undefined] whose coerced properties
    convert to a primitive: this covers missing fields and fields of a
    wrong primitive type.  The record is the one described field by field
    by [normalized]. *)
Theorem C3_normalize_returns :
  forall analysis : value,
    is_nullish analysis = false ->
    (forall k, In k coerced_keys -> convertible (field analysis k) = true) ->
    exists r, normalizeAnalysisResponse analysis = Ok r /\ r = normalized analysis.
Proof.
  intros analysis Hvalue Hconv.
  exists (normalized analysis). split; [|reflexivity].
  apply normalizeAnalysisResponse_returns; assumption.
Qed.

Lemma C3_witness_wrong_types :
  exists r,
    normalizeAnalysisResponse
      (VObj (<["calories" := VBool true]> (<["name" := VNull]> ∅))) = Ok r
    /\ r = normalized (VObj (<["calories" := VBool true]> (<["name" := VNull]> ∅))).
Proof.
  apply C3_normalize_returns.
  - reflexivity.
  - intros k Hk. simpl in Hk.
    repeat (destruct Hk as [<- | Hk]; [vm_compute; reflexivity|]).
    destruct Hk.
Defined.

(** C5. In every record that [normalizeAnalysisResponse] returns, each
    legacy alias equals its primary field: [meal_name] and [name],
    [protein_g] and [protein], [carbs_g] and [carbs], [fats_g] and [fat],
    [fiber_g] and [fiber], [sugar_g] and [sugar], [sodium_mg] and
    [sodium]; the numeric ones are not NaN, so they are also equal for
    [===]. *)
Theorem C5_aliases_equal_primaries :
  forall (analysis : value) (r : NutritionRecord),
    normalizeAnalysisResponse analysis = Ok r ->
    meal_name r = name r
    /\ protein_g r = protein r /\ Num.strict_eq (protein_g r) (protein r) = true
    /\ carbs_g r = carbs r /\ Num.strict_eq (carbs_g r) (carbs r) = true
    /\ fats_g r = fat r /\ Num.strict_eq (fats_g r) (fat r) = true
    /\ fiber_g r = fiber r /\ Num.strict_eq (fiber_g r) (fiber r) = true
    /\ sugar_g r = sugar r /\ Num.strict_eq (sugar_g r) (sugar r) = true
    /\ sodium_mg r = sodium r /\ Num.strict_eq (sodium_mg r) (sodium r) = true.
Proof.
  intros analysis r Hr.
  apply normalizeAnalysisResponse_Ok in Hr as [_ ->]. simpl.
  repeat split; try reflexivity;
    apply strict_eq_refl, or_default_valid; reflexivity.
Qed.

Lemma C5_witness_calories_200 :
  meal_name (normalized calories_200_protein_null)
  = name (normalized calories_200_protein_null)
  /\ protein_g (normalized calories_200_protein_null)
     = protein (normalized calories_200_protein_null).
Proof.
  assert (H : normalizeAnalysisResponse calories_200_protein_null
              = Ok (normalized calories_200_protein_null)) by (vm_compute; reflexivity).
  pose proof (C5_aliases_equal_primaries _ _ H) as (Hname & Hprotein & _).
  split; assumption.
Defined.

(** C7. On the empty object the record has [calories = 0], [protein = 0],
    [serving_size_g = 100], [confidence = 75], [glycemic_index = null],
    [food_category = "Mixed"] and [ingredients = []]; on
    [{calories: "200", protein: null}] it has [calories = 200] and
    [protein = 0], and so has the record of any object with these two
    properties, which is returned whenever its other coerced properties
    convert. *)
Theorem C7_normalize_examples :
  (exists r,
      normalizeAnalysisResponse empty_object = Ok r
      /\ calories r = of_Z 0 /\ protein r = of_Z 0
      /\ serving_size_g r = of_Z 100 /\ confidence r = of_Z 75
      /\ glycemic_index r = None /\ food_category r = VStr "Mixed"
      /\ ingredients r = [])
  /\ (exists r,
         normalizeAnalysisResponse calories_200_protein_null = Ok r
         /\ calories r = of_Z 200 /\ protein r = of_Z 0)
  /\ (forall o : gmap string value,
         o !! "calories" = Some (VStr "200") ->
         o !! "protein" = Some VNull ->
         (forall r, normalizeAnalysisResponse (VObj o) = Ok r ->
                    calories r = of_Z 200 /\ protein r = of_Z 0)
         /\ ((forall k, In k coerced_keys -> convertible (field (VObj o) k) = true) ->
             exists r, normalizeAnalysisResponse (VObj o) = Ok r)).
Proof.
  split; [|split].
  - exists (normalized empty_object). vm_compute. repeat split; reflexivity.
  - exists (normalized calories_200_protein_null). vm_compute.
    repeat split; reflexivity.
  - intros o Hcalories Hprotein. split.
    + intros r Hr. apply normalizeAnalysisResponse_Ok in Hr as [_ ->].
      unfold normalized, coerced, field; simpl.
      rewrite Hcalories, Hprotein. split; vm_compute; reflexivity.
    + intros Hconv. exists (normalized (VObj o)).
      apply normalizeAnalysisResponse_returns; [reflexivity | exact Hconv].
Qed.

(** C4. The code does not keep what its comment announces ("Ensure all
    required fields exist with proper types"): on
    [{food_category: 42, glycemic_index: "high"}] the record returned has
    the number 42 as its [food_category], which is not a string, and NaN
    as its [glycemic_index], which is neither a valid number nor null,
    while every other numeric field is kept from NaN by its [|| 0]; so no
    record returned on this input is well typed. *)
Lemma C4_wrong_types_pass_through :
  (exists r,
      normalizeAnalysisResponse category_42_index_high = Ok r
      /\ food_category r = VNum (of_Z 42)
      /\ glycemic_index r = Some NaN)
  /\ ~ (exists r,
           normalizeAnalysisResponse category_42_index_high = Ok r
           /\ well_typed r = true).
Proof.
  assert (H : normalizeAnalysisResponse category_42_index_high
              = Ok (normalized category_42_index_high)) by (vm_compute; reflexivity).
  split.
  - exists (normalized category_42_index_high).
    split; [exact H|]. split; vm_compute; reflexivity.
  - intros (r & Hr & Htyped). rewrite H in Hr. injection Hr as <-.
    vm_compute in Htyped. discriminate Htyped.
Qed.

Lemma chosen_not_nullish (analysis : value) (k d : string) :
  is_nullish (chosen analysis k d) = false.
Proof.
  unfold chosen, or_else.
  destruct (ToBoolean (field analysis k)) eqn:Htruthy; [|reflexivity].
  destruct (field analysis k); simpl in *; (discriminate || reflexivity).
Qed.

Lemma chosen_string (analysis : value) (k d : string) :
  is_string (field analysis k) = true \/ ToBoolean (field analysis k) = false ->
  is_string (chosen analysis k d) = true.
Proof.
  unfold chosen, or_else. intros [Hstring | Hfalsy].
  - destruct (ToBoolean (field analysis k)); [exact Hstring | reflexivity].
  - rewrite Hfalsy. reflexivity.
Qed.

Lemma coerced_or_null_number (analysis : value) (k : string) (n : number) :
  field analysis k = VNum n ->
  coerced_or_null analysis k = (if Num.truthy n then Some n else None)
  /\ valid_or_null (coerced_or_null analysis k) = true.
Proof.
  intros Hn. unfold coerced_or_null. rewrite Hn. simpl.
  destruct (Num.truthy n) eqn:Htruthy; split; try reflexivity.
  simpl. unfold valid_number. destruct n; simpl in *; (discriminate || reflexivity).
Qed.

(** X23. For every input other than [null] and [undefined] whose
    coerced properties convert to a primitive, the record returned has:
    in every numeric field a number that is not NaN, namely the coerced
    input when that is a number other than zero and NaN, and else 0 (100
    for [serving_size_g], 75 for [confidence]); in every descriptive
    field a value that is not null, which is a string whenever the input
    is a string or is falsy (then the default text); in each index field
    [null] when the input is falsy and the input itself, a valid number,
    when the input is a truthy number; and a list in [ingredients], the
    input's when that is an array and the empty one otherwise. *)
Theorem X23_normalized_typing :
  forall analysis : value,
    is_nullish analysis = false ->
    (forall k, In k coerced_keys -> convertible (field analysis k) = true) ->
    exists r,
      normalizeAnalysisResponse analysis = Ok r
      /\ forallb valid_number (numeric_fields r) = true
      /\ (forall k get d,
             In (k, get, d) numeric_defaults ->
             get r = (if Num.truthy (number_of (field analysis k))
                      then number_of (field analysis k) else of_Z d))
      /\ (forall k get d,
             In (k, get, d) descriptive_defaults ->
             is_nullish (get r) = false
             /\ (is_string (field analysis k) = true
                 \/ ToBoolean (field analysis k) = false ->
                 is_string (get r) = true
                 /\ get r = (if ToBoolean (field analysis k)
                             then field analysis k else VStr d)))
      /\ (ToBoolean (field analysis "glycemic_index") = false ->
          glycemic_index r = None)
      /\ (ToBoolean (field analysis "insulin_index") = false ->
          insulin_index r = None)
      /\ (forall n, field analysis "glycemic_index" = VNum n ->
                    glycemic_index r = (if Num.truthy n then Some n else None)
                    /\ valid_or_null (glycemic_index r) = true)
      /\ (forall n, field analysis "insulin_index" = VNum n ->
                    insulin_index r = (if Num.truthy n then Some n else None)
                    /\ valid_or_null (insulin_index r) = true)
      /\ ingredients r
         = match field analysis "ingredients" with VArr l => l | _ => [] end.
Proof.
  intros analysis Hvalue Hconv.
  exists (normalized analysis).
  split; [apply normalizeAnalysisResponse_returns; assumption|].
  split; [|split; [|split; [|split; [|split; [|split; [|split]]]]]].
  - apply forallb_forall. intros x Hin. simpl in Hin.
    repeat (destruct Hin as [<- | Hin]; [apply or_default_valid; reflexivity|]).
    destruct Hin.
  - intros k get d Hin. simpl in Hin.
    repeat (destruct Hin as [Heq | Hin]; [injection Heq as <- <- <-; reflexivity|]).
    destruct Hin.
  - intros k get d Hin. simpl in Hin.
    repeat (destruct Hin as [Heq | Hin];
            [injection Heq as <- <- <-; simpl;
             split; [apply chosen_not_nullish|];
             intros Hin'; split; [apply chosen_string; exact Hin' | reflexivity]|]).
    destruct Hin.
  - intros Hfalsy. simpl. unfold coerced_or_null. rewrite Hfalsy. reflexivity.
  - intros Hfalsy. simpl. unfold coerced_or_null. rewrite Hfalsy. reflexivity.
  - intros n Hn. simpl. apply coerced_or_null_number. exact Hn.
  - intros n Hn. simpl. apply coerced_or_null_number. exact Hn.
  - reflexivity.
Qed.

Lemma X23_witness_calories_200 :
  exists r,
    normalizeAnalysisResponse calories_200_protein_null = Ok r
    /\ forallb valid_number (numeric_fields r) = true.
Proof.
  destruct (X23_normalized_typing calories_200_protein_null) as (r & Hr & Hvalid & _).
  - reflexivity.
  - intros k Hk. simpl in Hk.
    repeat (destruct Hk as [<- | Hk]; [vm_compute; reflexivity|]).
    destruct Hk.
  - exists r. split; assumption.
Defined.

Lemma C7_witness_calories_200 :
  exists r, normalizeAnalysisResponse calories_200_protein_null = Ok r.
Proof.
  destruct C7_normalize_examples as (_ & _ & Hany).
  destruct (Hany (<["calories" := VStr "200"]> (<["protein" := VNull]> ∅)))
    as [_ Hreturns].
  - vm_compute. reflexivity.
  - vm_compute. reflexivity.
  - apply Hreturns. intros k Hk. simpl in Hk.
    repeat (destruct Hk as [<- | Hk]; [vm_compute; reflexivity|]).
    destruct Hk.
Defined.

(** *** The keyword-driven update *)

Lemma prop_lookup (updated : gmap string value) (k : string) (v : value) :
  updated !! k = Some v -> prop updated k = v.
Proof. intros H. unfold prop. rewrite H. reflexivity. Qed.

Lemma scale_number (updated : gmap string value) (k : string) (x factor : number) :
  updated !! k = Some (VNum x) ->
  scale updated k factor = Ok (<[k := VNum (Math_round (Num.mul x factor))]> updated).
Proof.
  intros H. unfold scale. rewrite (prop_lookup _ _ _ H). reflexivity.
Qed.

(** Reads through a stack of assignments. *)
Ltac read_through :=
  unfold prop;
  repeat (rewrite lookup_insert_eq
          || rewrite lookup_insert_ne by (assumption || discriminate)).

Lemma getBasicUpdate_adjusts (o : gmap string value) (p c f conf : number)
    (updateText : string) :
  (wants_more_protein (toLowerCase updateText) = true ->
   o !! "protein" = Some (VNum p)) ->
  (wants_less_calories (toLowerCase updateText) = true ->
   o !! "calories" = Some (VNum c)) ->
  (wants_more_vegetables (toLowerCase updateText) = true ->
   o !! "fiber" = Some (VNum f)) ->
  o !! "confidence" = Some (VNum conf) ->
  exists updated,
    getBasicUpdate (VObj o) updateText = Ok updated
    /\ adjusted o p c f conf updateText updated.
Proof.
  intros Hp Hc Hf Hconf.
  unfold getBasicUpdate, adjusted. simpl spread.
  destruct (wants_more_protein (toLowerCase updateText));
    destruct (wants_less_calories (toLowerCase updateText));
    destruct (wants_more_vegetables (toLowerCase updateText)).
  all: try specialize (Hp eq_refl); try specialize (Hc eq_refl);
    try specialize (Hf eq_refl).
  all: unfold mbind, res_bind, bind.
  all: repeat (erewrite scale_number by (read_through; eassumption)).
  all: unfold ToNumber.
  all: erewrite prop_lookup by (read_through; eassumption).
  all: simpl convertible; cbv iota.
  all: eexists; split; [reflexivity|].
  all: simpl number_of.
  all: repeat split.
  all: try (read_through; (reflexivity || assumption)).
  all: intros k Hk; simpl in Hk.
  all: repeat (apply Decidable.not_or in Hk; destruct Hk as [? Hk]).
  all: read_through; reflexivity.
Qed.

Lemma Math_max_50 (conf : Z) (r : Z) :
  Math_max [of_Z 50; Num.sub (of_Z conf) (of_Z 10)] = of_Z r ->
  Some (VNum (Math_max [of_Z 50; Num.sub (of_Z conf) (of_Z 10)]))
  = Some (VNum (of_Z r)).
Proof. intros ->. reflexivity. Qed.

(** C6. On an original analysis whose [protein], [calories], [fiber] and
    [confidence] are numbers, [getBasicUpdate] returns a copy in which,
    for the lower-cased update text, "more protein" puts
    [Math.round(protein * 1.2)] in [protein] and in [protein_g], "less
    calories" puts [Math.round(calories * 0.8)] in [calories], "more
    vegetables" puts [Math.round(fiber * 1.3)] in [fiber] and in
    [fiber_g], each rule whatever the others do; [healthNotes] is always
    the fixed text followed by the update text as given, and [confidence]
    is always [Math.max(50, confidence - 10)]; nothing else changes.  The
    three factors are the doubles nearest to 1.2, 0.8 and 1.3.  The two
    examples of the specification evaluate as it says, and so does one
    with vegetables and calories: fiber 5 becomes 7 and calories 100
    become 80. *)
Theorem C6_basic_update :
  (forall (o : gmap string value) (p c f conf : number) (updateText : string),
      o !! "protein" = Some (VNum p) ->
      o !! "calories" = Some (VNum c) ->
      o !! "fiber" = Some (VNum f) ->
      o !! "confidence" = Some (VNum conf) ->
      exists updated,
        getBasicUpdate (VObj o) updateText = Ok updated
        /\ adjusted o p c f conf updateText updated)
  /\ (forall lowerUpdate,
         (includes lowerUpdate "more protein" = true ->
          wants_more_protein lowerUpdate = true)
         /\ (includes lowerUpdate "less calories" = true ->
             wants_less_calories lowerUpdate = true)
         /\ (includes lowerUpdate "more vegetables" = true ->
             wants_more_vegetables lowerUpdate = true))
  /\ (exists updated,
         getBasicUpdate (VObj object_100_10_5_80) "I want more protein please" = Ok updated
         /\ updated !! "protein" = Some (VNum (of_Z 12))
         /\ updated !! "protein_g" = Some (VNum (of_Z 12))
         /\ updated !! "calories" = Some (VNum (of_Z 100))
         /\ updated !! "confidence" = Some (VNum (of_Z 70)))
  /\ (exists updated,
         getBasicUpdate (VObj object_confidence_55) "anything" = Ok updated
         /\ updated !! "confidence" = Some (VNum (of_Z 50)))
  /\ (nearest_tenths lit_1_2 12 = true
      /\ nearest_tenths lit_0_8 8 = true
      /\ nearest_tenths lit_1_3 13 = true)
  /\ (exists updated,
         getBasicUpdate (VObj object_100_10_5_80) "More vegetables, less calories"
         = Ok updated
         /\ updated !! "fiber" = Some (VNum (of_Z 7))
         /\ updated !! "fiber_g" = Some (VNum (of_Z 7))
         /\ updated !! "calories" = Some (VNum (of_Z 80))
         /\ updated !! "protein" = Some (VNum (of_Z 10))
         /\ updated !! "confidence" = Some (VNum (of_Z 70))).
Proof.
  split; [|split; [|split; [|split; [|split]]]].
  - intros o p c f conf updateText Hp Hc Hf Hconf.
    apply getBasicUpdate_adjusts; auto.
  - intros lowerUpdate.
    unfold wants_more_protein, wants_less_calories, wants_more_vegetables.
    repeat split; intros ->; reflexivity.
  - edestruct (getBasicUpdate_adjusts object_100_10_5_80 (of_Z 10) (of_Z 100) (of_Z 5) (of_Z 80)
                 "I want more protein please")
      as (updated & Hupdated & Hprotein & Hprotein_g & Hcalories & _ & _ & _
          & Hconfidence & _);
      [| | | | exists updated; split; [exact Hupdated|]].
    1-4: try (intros _); unfold object_100_10_5_80; read_through; reflexivity.
    replace (wants_more_protein (toLowerCase "I want more protein please"))
      with true in * by (vm_compute; reflexivity).
    replace (wants_less_calories (toLowerCase "I want more protein please"))
      with false in * by (vm_compute; reflexivity).
    rewrite Hprotein, Hprotein_g, Hcalories, Hconfidence.
    split; [|split; [|split]].
    + vm_compute. reflexivity.
    + vm_compute. reflexivity.
    + unfold object_100_10_5_80. read_through. reflexivity.
    + apply Math_max_50. vm_compute. reflexivity.
  - edestruct (getBasicUpdate_adjusts object_confidence_55 NaN NaN NaN (of_Z 55) "anything")
      as (updated & Hupdated & _ & _ & _ & _ & _ & _ & Hconfidence & _);
      [| | | | exists updated; split; [exact Hupdated|]].
    1-3: intros H; vm_compute in H; discriminate H.
    + unfold object_confidence_55. read_through. reflexivity.
    + rewrite Hconfidence. apply Math_max_50. vm_compute. reflexivity.
  - repeat split; vm_compute; reflexivity.
  - edestruct (getBasicUpdate_adjusts object_100_10_5_80 (of_Z 10) (of_Z 100) (of_Z 5)
                 (of_Z 80) "More vegetables, less calories")
      as (updated & Hupdated & Hprotein & _ & Hcalories & Hfiber & Hfiber_g & _
          & Hconfidence & _);
      [| | | | exists updated; split; [exact Hupdated|]].
    1-4: try (intros _); unfold object_100_10_5_80; read_through; reflexivity.
    replace (wants_more_protein (toLowerCase "More vegetables, less calories"))
      with false in * by (vm_compute; reflexivity).
    replace (wants_less_calories (toLowerCase "More vegetables, less calories"))
      with true in * by (vm_compute; reflexivity).
    replace (wants_more_vegetables (toLowerCase "More vegetables, less calories"))
      with true in * by (vm_compute; reflexivity).
    rewrite Hprotein, Hcalories, Hfiber, Hfiber_g, Hconfidence.
    split; [|split; [|split; [|split]]].
    + vm_compute. reflexivity.
    + vm_compute. reflexivity.
    + vm_compute. reflexivity.
    + unfold object_100_10_5_80. read_through. reflexivity.
    + apply Math_max_50. vm_compute. reflexivity.
Qed.

Lemma C6_witness_more_protein :
  exists updated,
    getBasicUpdate (VObj object_100_10_5_80) "Less Calories and MORE PROTEIN" = Ok updated
    /\ updated !! "protein" = Some (VNum (of_Z 12))
    /\ updated !! "calories" = Some (VNum (of_Z 80)).
Proof.
  edestruct (proj1 C6_basic_update object_100_10_5_80 (of_Z 10) (of_Z 100) (of_Z 5) (of_Z 80)
               "Less Calories and MORE PROTEIN")
    as (updated & Hupdated & Hprotein & _ & Hcalories & _);
    [| | | | exists updated; split; [exact Hupdated|]].
  1-4: unfold object_100_10_5_80; read_through; reflexivity.
  replace (wants_more_protein (toLowerCase "Less Calories and MORE PROTEIN"))
    with true in * by (vm_compute; reflexivity).
  replace (wants_less_calories (toLowerCase "Less Calories and MORE PROTEIN"))
    with true in * by (vm_compute; reflexivity).
  rewrite Hprotein, Hcalories. split; vm_compute; reflexivity.
Defined.

(** *** The entry points *)

Lemma analyzeMealImage_catch_eq (language : string) (error : value) :
  analyzeMealImage_catch language error
  = if is_nullish error then Throw TypeError_
    else
      match rethrown_message error rethrown with
      | Some message => Throw (Error_ message)
      | None => Ok (getFallbackAnalysis language)
      end.
Proof.
  unfold analyzeMealImage_catch, status_is.
  destruct (is_nullish error) eqn:Hnullish.
  - rewrite Get_nullish by exact Hnullish. reflexivity.
  - rewrite !Get_field by exact Hnullish.
    unfold mbind, res_bind, bind, rethrown, rethrown_message, has_status.
    repeat match goal with
           | |- context [strict_eq_num (field error "status") ?n] =>
               destruct (strict_eq_num (field error "status") n); [reflexivity|]
           end.
    reflexivity.
Qed.

Lemma falls_back_Error (message : string) : falls_back (Error_ message) = true.
Proof.
  unfold falls_back, rethrown_message, rethrown, has_status, field, Error_.
  rewrite lookup_singleton_ne by discriminate. reflexivity.
Qed.

Lemma falls_back_TypeError : falls_back TypeError_ = true.
Proof.
  unfold falls_back, rethrown_message, rethrown, has_status, field, TypeError_.
  rewrite lookup_singleton_ne by discriminate. reflexivity.
Qed.

Lemma normalizeAnalysisResponse_Throw (analysis : value) (e : value) :
  normalizeAnalysisResponse analysis = Throw e -> e = TypeError_.
Proof.
  rewrite normalizeAnalysisResponse_eq.
  destruct (normalizable analysis); [discriminate|].
  intros H. injection H as <-. reflexivity.
Qed.

Lemma bind_Throw {A B : Type} (c : res A) (k : A -> res B) (e : value) :
  (x ← c; k x) = Throw e <-> c = Throw e \/ exists a, c = Ok a /\ k a = Throw e.
Proof.
  unfold mbind, res_bind, bind. destruct c as [a|e']; split.
  - intros H. right. exists a. split; [reflexivity | exact H].
  - intros [H | (a' & Ha & Hk)]; [discriminate H|]. injection Ha as <-. exact Hk.
  - intros H. left. injection H as <-. reflexivity.
  - intros [H | (a' & Ha & _)]; [injection H as <-; reflexivity | discriminate Ha].
Qed.

Lemma getBasicUpdate_returns (originalAnalysis : value) (updateText : string) :
  adjustable originalAnalysis updateText = true ->
  exists updated, getBasicUpdate originalAnalysis updateText = Ok updated.
Proof.
  unfold adjustable, getBasicUpdate, scale, ToNumber.
  generalize (spread originalAnalysis) as o. intros o Hadjustable.
  apply andb_prop in Hadjustable as [Hadjustable Hconfidence].
  apply andb_prop in Hadjustable as [Hadjustable Hfiber].
  apply andb_prop in Hadjustable as [Hprotein Hcalories].
  unfold prop in *.
  destruct (wants_more_protein (toLowerCase updateText));
    destruct (wants_less_calories (toLowerCase updateText));
    destruct (wants_more_vegetables (toLowerCase updateText));
    simpl in Hprotein, Hcalories, Hfiber.
  all: unfold mbind, res_bind, bind.
  all: repeat (rewrite ?Hprotein, ?Hcalories, ?Hfiber, ?Hconfidence; cbv iota;
               repeat (rewrite lookup_insert_ne by discriminate)).
  all: eexists; reflexivity.
Qed.

Section EntryPoints.

Variable JSON_stringify : value -> nat -> option string.
Variable extractCleanJSON : string -> res string.
Variable parsePartialJSON : string -> res value.
Variable openai : option (chat_request -> res Completion.t).
Variable OPENAI_API_KEY : option string.

#[local] Abbreviation analyze :=
  (analyzeMealImage JSON_stringify extractCleanJSON parsePartialJSON openai
     OPENAI_API_KEY).
#[local] Abbreviation analyze_try :=
  (analyzeMealImage_try JSON_stringify extractCleanJSON parsePartialJSON openai
     OPENAI_API_KEY).
#[local] Abbreviation update :=
  (updateMealAnalysis JSON_stringify extractCleanJSON parsePartialJSON openai
     OPENAI_API_KEY).
#[local] Abbreviation update_try :=
  (updateMealAnalysis_try JSON_stringify extractCleanJSON parsePartialJSON openai
     OPENAI_API_KEY).

(** Where an error of the [try] block of [analyzeMealImage] comes from:
    the block itself, the runtime, or a collaborator. *)
Lemma analyzeMealImage_try_Throw (imageBase64 language : string)
    (updateText : option string) (editedIngredients : list value) (e : value) :
  analyze_try imageBase64 language updateText editedIngredients = Throw e ->
  (exists message, e = Error_ message)
  \/ e = TypeError_
  \/ (exists client request, openai = Some client /\ client request = Throw e)
  \/ (exists text, extractCleanJSON text = Throw e)
  \/ (exists text, parsePartialJSON text = Throw e).
Proof.
  unfold analyzeMealImage_try.
  destruct openai as [client|]; [|discriminate].
  destruct (given OPENAI_API_KEY); [|discriminate]. simpl negb. cbv iota.
  destruct (image_missing imageBase64).
  { intros H. injection H as <-. left. eexists. reflexivity. }
  destruct (base64Regex_test (text_of (clean_base64 imageBase64))); simpl negb; cbv iota.
  2:{ intros H. injection H as <-. left. eexists. reflexivity. }
  intros H. apply bind_Throw in H as [H | (response & _ & H)].
  { right. right. left. eauto. }
  destruct (given (Completion.first_content response)); simpl negb in H; cbv iota in H.
  2:{ injection H as <-. left. eexists. reflexivity. }
  apply bind_Throw in H as [H | (cleanedJSON & _ & H)].
  { right. right. right. left. eauto. }
  apply bind_Throw in H as [H | (analysis & _ & H)].
  { right. right. right. right. eauto. }
  apply normalizeAnalysisResponse_Throw in H. right. left. exact H.
Qed.

Lemma analyzeMealImage_try_falls_back (imageBase64 language : string)
    (updateText : option string) (editedIngredients : list value) (e : value) :
  errors_fall_back extractCleanJSON parsePartialJSON openai ->
  analyze_try imageBase64 language updateText editedIngredients = Throw e ->
  falls_back e = true.
Proof.
  intros (Hclient & Hextract & Hparse) Htry.
  apply analyzeMealImage_try_Throw in Htry
    as [(message & ->) | [-> | [(client & request & Hopenai & Hcall)
                               | [(text & Htext) | (text & Htext)]]]].
  - apply falls_back_Error.
  - apply falls_back_TypeError.
  - eapply Hclient; eassumption.
  - eapply Hextract; eassumption.
  - eapply Hparse; eassumption.
Qed.

Lemma analyzeMealImage_caught (imageBase64 language : string)
    (updateText : option string) (editedIngredients : list value) (e : value) :
  analyze_try imageBase64 language updateText editedIngredients = Throw e ->
  falls_back e = true ->
  analyze imageBase64 language updateText editedIngredients
  = Ok (getFallbackAnalysis language).
Proof.
  intros Htry Hfalls. unfold analyzeMealImage, try_catch. rewrite Htry.
  rewrite analyzeMealImage_catch_eq.
  unfold falls_back in Hfalls. apply andb_prop in Hfalls as [Hvalue Hnone].
  apply negb_true_iff in Hvalue. rewrite Hvalue.
  destruct (rethrown_message e rethrown); [discriminate Hnone | reflexivity].
Qed.

Lemma analyzeMealImage_rethrown (imageBase64 language : string)
    (updateText : option string) (editedIngredients : list value)
    (e : value) (message : string) :
  analyze_try imageBase64 language updateText editedIngredients = Throw e ->
  is_nullish e = false ->
  rethrown_message e rethrown = Some message ->
  analyze imageBase64 language updateText editedIngredients
  = Throw (Error_ message).
Proof.
  intros Htry Hvalue Hmessage. unfold analyzeMealImage, try_catch. rewrite Htry.
  rewrite analyzeMealImage_catch_eq, Hvalue, Hmessage. reflexivity.
Qed.

Lemma analyzeMealImage_returns (imageBase64 language : string)
    (updateText : option string) (editedIngredients : list value) :
  errors_fall_back extractCleanJSON parsePartialJSON openai ->
  exists r, analyze imageBase64 language updateText editedIngredients = Ok r.
Proof.
  intros Herrors.
  destruct (analyze_try imageBase64 language updateText editedIngredients)
    as [r|e] eqn:Htry.
  - exists r. unfold analyzeMealImage, try_catch. rewrite Htry. reflexivity.
  - exists (getFallbackAnalysis language).
    eapply analyzeMealImage_caught; [exact Htry|].
    eapply analyzeMealImage_try_falls_back; eassumption.
Qed.

Lemma analyzeMealImage_refused (client : chat_request -> res Completion.t)
    (imageBase64 language : string) (updateText : option string)
    (editedIngredients : list value) :
  openai = Some client ->
  given OPENAI_API_KEY = true ->
  image_rejected imageBase64 = true ->
  analyze imageBase64 language updateText editedIngredients
  = Ok (getFallbackAnalysis language).
Proof.
  intros Hopenai Hkey Hrejected.
  assert (Htry : exists message,
             analyze_try imageBase64 language updateText editedIngredients
             = Throw (Error_ message)).
  { unfold analyzeMealImage_try. rewrite Hopenai, Hkey. simpl negb. cbv iota.
    unfold image_rejected in Hrejected.
    destruct (image_missing imageBase64); [eexists; reflexivity|].
    simpl in Hrejected. rewrite Hrejected. eexists. reflexivity. }
  destruct Htry as [message Htry].
  eapply analyzeMealImage_caught; [exact Htry | apply falls_back_Error].
Qed.

Lemma updateMealAnalysis_eq (originalAnalysis : value) (updateText language : string) :
  update originalAnalysis updateText language
  = match update_try originalAnalysis updateText language with
    | Ok r => Ok r
    | Throw _ =>
        updated ← getBasicUpdate originalAnalysis updateText;
        Ok (Adjusted updated)
    end.
Proof. reflexivity. Qed.

Lemma updateMealAnalysis_returns (originalAnalysis : value)
    (updateText language : string) :
  adjustable originalAnalysis updateText = true ->
  exists r,
    update originalAnalysis updateText language = Ok r
    /\ (forall e,
           update_try originalAnalysis updateText language = Throw e ->
           exists updated,
             getBasicUpdate originalAnalysis updateText = Ok updated
             /\ r = Adjusted updated).
Proof.
  intros Hadjustable. rewrite updateMealAnalysis_eq.
  destruct (getBasicUpdate_returns _ _ Hadjustable) as [updated Hupdated].
  destruct (update_try originalAnalysis updateText language) as [r|e].
  - exists r. split; [reflexivity|]. intros e He. discriminate He.
  - exists (Adjusted updated). rewrite Hupdated. split; [reflexivity|].
    intros e' _. exists updated. split; reflexivity.
Qed.

End EntryPoints.

(** C1, as it stands, fails: when the provider's call is rejected with
    status 429 the [catch] block of [analyzeMealImage] throws an error of
    its own, which reaches the caller; no record is returned. *)
Lemma C1_status_429_is_rethrown :
  analyzeMealImage Sample.JSON_stringify Sample.extractCleanJSON
    Sample.parsePartialJSON (Some (Sample.client_failing 429)) (Some "sk-test"%string)
    "AAAA" "english" None []
  = Throw (Error_ "OpenAI API rate limit exceeded. Please try again later.")
  /\ (forall r,
         analyzeMealImage Sample.JSON_stringify Sample.extractCleanJSON
           Sample.parsePartialJSON (Some (Sample.client_failing 429))
           (Some "sk-test"%string) "AAAA" "english" None []
         <> Ok r).
Proof.
  assert (H : analyzeMealImage Sample.JSON_stringify Sample.extractCleanJSON
                Sample.parsePartialJSON (Some (Sample.client_failing 429))
                (Some "sk-test"%string) "AAAA" "english" None []
              = Throw (Error_ "OpenAI API rate limit exceeded. Please try again later.")).
  { eapply analyzeMealImage_rethrown.
    - vm_compute. reflexivity.
    - reflexivity.
    - vm_compute. reflexivity. }
  split; [exact H|]. intros r Hr. rewrite H in Hr. discriminate Hr.
Qed.

(** C1, amended. [analyzeMealImage] answers an error of its pipeline with
    the fallback record when the error is not [null] or [undefined] and
    carries none of the statuses 400, 401, 429 and 500; the errors that
    the service, the runtime and [normalizeAnalysisResponse] raise are of
    this kind, so the operation returns a record whenever the errors of
    the provider and of the two JSON helpers are.  An error that carries
    one of the four statuses is answered with a new error holding the
    message of that status, which reaches the caller.
    [updateMealAnalysis] answers every error of its pipeline with
    [getBasicUpdate(originalAnalysis, updateText)], and returns a record
    whenever the properties that [getBasicUpdate] computes with convert
    to a primitive. *)
Theorem C1_errors_caught :
  forall (JSON_stringify : value -> nat -> option string)
         (extractCleanJSON : string -> res string)
         (parsePartialJSON : string -> res value)
         (openai : option (chat_request -> res Completion.t))
         (OPENAI_API_KEY : option string),
    (forall imageBase64 language updateText editedIngredients,
        (forall e,
            analyzeMealImage_try JSON_stringify extractCleanJSON parsePartialJSON
              openai OPENAI_API_KEY imageBase64 language updateText editedIngredients
            = Throw e ->
            (falls_back e = true ->
             analyzeMealImage JSON_stringify extractCleanJSON parsePartialJSON
               openai OPENAI_API_KEY imageBase64 language updateText editedIngredients
             = Ok (getFallbackAnalysis language))
            /\ (forall message,
                   is_nullish e = false ->
                   rethrown_message e rethrown = Some message ->
                   analyzeMealImage JSON_stringify extractCleanJSON parsePartialJSON
                     openai OPENAI_API_KEY imageBase64 language updateText
                     editedIngredients
                   = Throw (Error_ message)))
        /\ (errors_fall_back extractCleanJSON parsePartialJSON openai ->
            exists r,
              analyzeMealImage JSON_stringify extractCleanJSON parsePartialJSON
                openai OPENAI_API_KEY imageBase64 language updateText editedIngredients
              = Ok r))
    /\ (forall originalAnalysis updateText language,
           adjustable originalAnalysis updateText = true ->
           exists r,
             updateMealAnalysis JSON_stringify extractCleanJSON parsePartialJSON
               openai OPENAI_API_KEY originalAnalysis updateText language
             = Ok r
             /\ (forall e,
                    updateMealAnalysis_try JSON_stringify extractCleanJSON
                      parsePartialJSON openai OPENAI_API_KEY originalAnalysis
                      updateText language
                    = Throw e ->
                    exists updated,
                      getBasicUpdate originalAnalysis updateText = Ok updated
                      /\ r = Adjusted updated)).
Proof.
  intros JSON_stringify extractCleanJSON parsePartialJSON openai OPENAI_API_KEY.
  split.
  - intros imageBase64 language updateText editedIngredients. split.
    + intros e Htry. split.
      * intros Hfalls. eapply analyzeMealImage_caught; eassumption.
      * intros message Hvalue Hmessage.
        eapply analyzeMealImage_rethrown; eassumption.
    + apply analyzeMealImage_returns.
  - intros originalAnalysis updateText language.
    apply updateMealAnalysis_returns.
Qed.

Lemma C1_witness_status_503 :
  (exists r,
      analyzeMealImage Sample.JSON_stringify Sample.extractCleanJSON
        Sample.parsePartialJSON (Some (Sample.client_failing 503))
        (Some "sk-test"%string) "AAAA" "english" None []
      = Ok r)
  /\ (exists r,
         updateMealAnalysis Sample.JSON_stringify Sample.extractCleanJSON
           Sample.parsePartialJSON (Some (Sample.client_failing 503))
           (Some "sk-test"%string) (VObj object_confidence_55) "anything" "english"
         = Ok r).
Proof.
  destruct (C1_errors_caught Sample.JSON_stringify Sample.extractCleanJSON
              Sample.parsePartialJSON (Some (Sample.client_failing 503))
              (Some "sk-test"%string)) as [Hanalyze Hupdate].
  split.
  - apply Hanalyze. split; [|split].
    + intros client request e Hclient Hcall. injection Hclient as <-.
      unfold Sample.client_failing in Hcall. injection Hcall as <-.
      vm_compute. reflexivity.
    + intros text e He. discriminate He.
    + intros text e He. unfold Sample.parsePartialJSON in He.
      destruct (String.eqb text "null"); discriminate He.
  - destruct (Hupdate (VObj object_confidence_55) "anything"%string "english"%string)
      as (r & Hr & _).
    + vm_compute. reflexivity.
    + exists r. exact Hr.
Defined.


(** *** Inputs on which an operation throws *)

Example normalize_own_toString_throws :
  normalizeAnalysisResponse
    (VObj (<["calories" := VObj (<["toString" := VNum (of_Z 1)]> ∅)]> ∅))
  = Throw TypeError_.
Proof.
  rewrite normalizeAnalysisResponse_eq.
  replace (normalizable _) with false by (vm_compute; reflexivity).
  reflexivity.
Qed.

Example updateMealAnalysis_own_toString_throws :
  updateMealAnalysis Sample.JSON_stringify Sample.extractCleanJSON
    Sample.parsePartialJSON None None
    (VObj (<["confidence" := VObj (<["toString" := VNum (of_Z 1)]> ∅)]> ∅))
    "anything" "english"
  = Throw TypeError_.
Proof. vm_compute. reflexivity. Qed.

Example analyzeMealImage_null_error_throws :
  analyzeMealImage Sample.JSON_stringify Sample.extractCleanJSON
    Sample.parsePartialJSON (Some (fun _ => Throw VNull)) (Some "sk-test"%string)
    "AAAA" "english" None []
  = Throw TypeError_.
Proof. vm_compute. reflexivity. Qed.

(** ** Further results *)

(** *** Normalisation: what is read and what is kept *)

(** The outcome of [normalizeAnalysisResponse] is decided by the
    properties it reads. *)
Lemma normalize_ext (a b : value) :
  is_nullish a = false ->
  is_nullish b = false ->
  (forall k, In k read_keys -> field a k = field b k) ->
  normalizeAnalysisResponse a = normalizeAnalysisResponse b.
Proof.
  intros Ha Hb Hread.
  rewrite !normalizeAnalysisResponse_eq.
  unfold normalizable, normalized, coerced_keys, forallb, coerced, chosen,
    coerced_or_null.
  rewrite Ha, Hb.
  apply List.Forall_forall in Hread. unfold read_keys in Hread.
  repeat match type of Hread with
         | List.Forall _ (_ :: _) =>
             let E := fresh "E" in
             apply List.Forall_cons_iff in Hread as [E Hread]; rewrite E; clear E
         end.
  reflexivity.
Qed.

(** X1. A value that is neither an object nor [null] or [undefined] (a
    string, a number, a boolean, an array) is normalised to the record of
    the empty object: every field takes its default. *)
Theorem X1_non_object_gives_defaults :
  forall analysis : value,
    is_nullish analysis = false ->
    (forall o, analysis <> VObj o) ->
    normalizeAnalysisResponse analysis = Ok (normalized empty_object)
    /\ normalizeAnalysisResponse analysis = normalizeAnalysisResponse empty_object.
Proof.
  intros analysis Hvalue Hobject.
  assert (H : normalizeAnalysisResponse analysis
              = normalizeAnalysisResponse empty_object).
  { apply normalize_ext; [exact Hvalue | reflexivity |].
    intros k _. destruct analysis; try reflexivity.
    exfalso. eapply Hobject. reflexivity. }
  split; [|exact H]. rewrite H. vm_compute. reflexivity.
Qed.

Lemma X1_witness_array :
  normalizeAnalysisResponse (VArr [VObj (<["calories" := VNum (of_Z 300)]> ∅)])
  = Ok (normalized empty_object).
Proof.
  refine (proj1 (X1_non_object_gives_defaults
                   (VArr [VObj (<["calories" := VNum (of_Z 300)]> ∅)]) _ _)).
  - reflexivity.
  - intros o H. discriminate H.
Defined.

(** X2. A property that [normalizeAnalysisResponse] does not read has no
    effect: adding it to the input, replacing it or removing it leaves
    the outcome as it is. *)
Theorem X2_unread_properties_ignored :
  forall (o : gmap string value) (k : string) (v : value),
    ~ In k read_keys ->
    normalizeAnalysisResponse (VObj (<[k := v]> o)) = normalizeAnalysisResponse (VObj o)
    /\ normalizeAnalysisResponse (VObj (delete k o)) = normalizeAnalysisResponse (VObj o).
Proof.
  intros o k v Hk. split; apply normalize_ext; try reflexivity.
  - intros k' Hk'. simpl. rewrite lookup_insert_ne; [reflexivity|].
    intros ->. contradiction.
  - intros k' Hk'. simpl. rewrite lookup_delete_ne; [reflexivity|].
    intros ->. contradiction.
Qed.

Lemma X2_witness_meal_name :
  normalizeAnalysisResponse
    (VObj (<["meal_name" := VStr "Soup"]> (<["name" := VStr "Salad"]> ∅)))
  = normalizeAnalysisResponse (VObj (<["name" := VStr "Salad"]> ∅)).
Proof.
  refine (proj1 (X2_unread_properties_ignored (<["name" := VStr "Salad"]> ∅)
                   "meal_name" (VStr "Soup") _)).
  simpl. intros H.
  repeat (destruct H as [H | H]; [discriminate H|]).
  exact H.
Defined.

(** X3. In a normalised record [healthNotes] and [recommendations] fill
    each other: each keeps its own input when that is truthy and takes
    the other's otherwise, so the two are truthy together or are both the
    empty string, and neither is ever [null] or [undefined]. *)
Theorem X3_notes_and_recommendations_cross_fill :
  forall (analysis : value) (r : NutritionRecord),
    normalizeAnalysisResponse analysis = Ok r ->
    let notes := field analysis "healthNotes" in
    let advice := field analysis "recommendations" in
    healthNotes r = (if ToBoolean notes then notes
                     else if ToBoolean advice then advice else VStr "")
    /\ recommendations r = (if ToBoolean advice then advice
                            else if ToBoolean notes then notes else VStr "")
    /\ ToBoolean (healthNotes r) = ToBoolean (recommendations r)
    /\ ToBoolean (healthNotes r) = ToBoolean notes || ToBoolean advice
    /\ is_nullish (healthNotes r) = false
    /\ is_nullish (recommendations r) = false.
Proof.
  intros analysis r Hr notes advice.
  apply normalizeAnalysisResponse_Ok in Hr as [_ ->].
  unfold normalized, chosen, or_else; simpl. fold notes advice.
  destruct (ToBoolean notes) eqn:Hnotes; destruct (ToBoolean advice) eqn:Hadvice;
    rewrite ?Hnotes, ?Hadvice; repeat split; try reflexivity.
  all: try (destruct notes; simpl in *; (discriminate || reflexivity)).
  all: try (destruct advice; simpl in *; (discriminate || reflexivity)).
Qed.

Lemma X3_witness_only_recommendations :
  healthNotes (normalized (VObj (<["recommendations" := VStr "Drink water"]> ∅)))
  = VStr "Drink water".
Proof.
  assert (H : normalizeAnalysisResponse
                (VObj (<["recommendations" := VStr "Drink water"]> ∅))
              = Ok (normalized (VObj (<["recommendations" := VStr "Drink water"]> ∅))))
    by (vm_compute; reflexivity).
  destruct (X3_notes_and_recommendations_cross_fill _ _ H) as (Hnotes & _).
  rewrite Hnotes. vm_compute. reflexivity.
Defined.

(** *** The keyword-driven update on any input *)

Lemma prop_insert_ne (updated : gmap string value) (k k' : string) (v : value) :
  k' <> k -> prop (<[k' := v]> updated) k = prop updated k.
Proof. intros Hne. unfold prop. rewrite lookup_insert_ne by exact Hne. reflexivity. Qed.

Lemma scale_convertible (updated : gmap string value) (k : string) (factor : number) :
  convertible (prop updated k) = true ->
  scale updated k factor
  = Ok (<[k := VNum (Math_round (Num.mul (number_of (prop updated k)) factor))]> updated).
Proof. intros H. unfold scale, ToNumber. rewrite H. reflexivity. Qed.

Lemma scale_not_convertible (updated : gmap string value) (k : string)
    (factor : number) :
  convertible (prop updated k) = false -> scale updated k factor = Throw TypeError_.
Proof. intros H. unfold scale, ToNumber. rewrite H. reflexivity. Qed.

(** [getBasicUpdate] on any input: it returns exactly on the adjustable
    inputs, and then computes with the numbers that its properties
    convert to. *)
Lemma getBasicUpdate_any (originalAnalysis : value) (updateText : string) :
  let o := spread originalAnalysis in
  if adjustable originalAnalysis updateText then
    exists updated,
      getBasicUpdate originalAnalysis updateText = Ok updated
      /\ adjusted o (number_of (prop o "protein")) (number_of (prop o "calories"))
           (number_of (prop o "fiber")) (number_of (prop o "confidence"))
           updateText updated
  else getBasicUpdate originalAnalysis updateText = Throw TypeError_.
Proof.
  unfold adjustable, getBasicUpdate, adjusted.
  generalize (spread originalAnalysis) as o. intros o. cbv zeta.
  destruct (wants_more_protein (toLowerCase updateText));
    destruct (wants_less_calories (toLowerCase updateText));
    destruct (wants_more_vegetables (toLowerCase updateText));
    simpl negb; simpl orb.
  all: destruct (convertible (prop o "protein")) eqn:Hprotein;
    destruct (convertible (prop o "calories")) eqn:Hcalories;
    destruct (convertible (prop o "fiber")) eqn:Hfiber;
    destruct (convertible (prop o "confidence")) eqn:Hconfidence;
    simpl andb; cbv iota.
  all: unfold mbind, res_bind, bind.
  all: repeat first
         [ rewrite scale_convertible
             by (rewrite ?prop_insert_ne by discriminate; assumption)
         | rewrite scale_not_convertible
             by (rewrite ?prop_insert_ne by discriminate; assumption) ].
  all: try reflexivity.
  all: unfold ToNumber; rewrite ?prop_insert_ne by discriminate;
    rewrite ?Hconfidence; cbv iota.
  all: try reflexivity.
  all: eexists; split; [reflexivity|].
  all: repeat split.
  all: try (read_through; reflexivity).
  all: intros k Hk; simpl in Hk.
  all: repeat (apply Decidable.not_or in Hk; destruct Hk as [? Hk]).
  all: read_through; reflexivity.
Qed.

Lemma getBasicUpdate_Ok (originalAnalysis : value) (updateText : string)
    (updated : gmap string value) :
  getBasicUpdate originalAnalysis updateText = Ok updated ->
  let o := spread originalAnalysis in
  adjustable originalAnalysis updateText = true
  /\ adjusted o (number_of (prop o "protein")) (number_of (prop o "calories"))
       (number_of (prop o "fiber")) (number_of (prop o "confidence"))
       updateText updated.
Proof.
  intros Hupdated o.
  pose proof (getBasicUpdate_any originalAnalysis updateText) as Hany.
  cbv zeta in Hany.
  destruct (adjustable originalAnalysis updateText).
  - destruct Hany as (updated' & Heq & Hadjusted).
    rewrite Hupdated in Heq. injection Heq as <-. split; [reflexivity | exact Hadjusted].
  - rewrite Hupdated in Hany. discriminate Hany.
Qed.

Lemma SFltb_asym (a b : number) :
  SFltb a b = true -> SFltb b a = false.
Proof.
  unfold SFltb.
  destruct a as [sa|sa| |sa ma ea], b as [sb|sb| |sb mb eb]; simpl;
    try discriminate; try reflexivity;
    try (destruct sa; (discriminate || reflexivity));
    try (destruct sb; (discriminate || reflexivity));
    try (destruct sa, sb; (discriminate || reflexivity)).
  destruct sa, sb; try discriminate; try reflexivity.
  - rewrite (Z.compare_antisym ea eb).
    destruct (ea ?= eb) eqn:He; simpl; try discriminate; try reflexivity.
    replace (Pos.compare_cont Eq mb ma) with (CompOpp (Pos.compare_cont Eq ma mb))
      by apply (Pos.compare_cont_antisym ma mb Eq).
    destruct (Pos.compare_cont Eq ma mb); simpl; (discriminate || reflexivity).
  - rewrite (Z.compare_antisym ea eb).
    destruct (ea ?= eb) eqn:He; simpl; try discriminate; try reflexivity.
    replace (Pos.compare_cont Eq mb ma) with (CompOpp (Pos.compare_cont Eq ma mb))
      by apply (Pos.compare_cont_antisym ma mb Eq).
    destruct (Pos.compare_cont Eq ma mb); simpl; (discriminate || reflexivity).
Qed.

Lemma Math_max_50_cases (x : number) :
  Math_max [of_Z 50; x]
  = if is_nan x then NaN else if Num.gt x (of_Z 50) then x else of_Z 50.
Proof.
  change (of_Z 50) with (S754_finite false 7036874417766400 (-47)).
  destruct x as [[|]|[|]| |s m e]; try reflexivity.
  unfold Math_max, fold_left, max_step. simpl is_nan. cbv iota.
  change (Num.gt (S754_finite false 7036874417766400 (-47)) (S754_infinity true))
    with true. cbv iota.
  destruct (Num.gt (S754_finite s m e) (S754_finite false 7036874417766400 (-47)));
    reflexivity.
Qed.

(** X4. [getBasicUpdate] on any original analysis and any text: it
    returns exactly when the confidence, and each of [protein],
    [calories] and [fiber] whose keyword occurs, converts to a primitive,
    and otherwise throws a TypeError.  When it returns, the rules compute
    with [Number] of the properties (a numeric string counts as its
    number) and every property outside the seven assigned ones is copied
    from the original as it is. *)
Theorem X4_basic_update_any_input :
  forall (originalAnalysis : value) (updateText : string),
    let o := spread originalAnalysis in
    (adjustable originalAnalysis updateText = true ->
     exists updated,
       getBasicUpdate originalAnalysis updateText = Ok updated
       /\ adjusted o (number_of (prop o "protein")) (number_of (prop o "calories"))
            (number_of (prop o "fiber")) (number_of (prop o "confidence"))
            updateText updated)
    /\ (adjustable originalAnalysis updateText = false ->
        getBasicUpdate originalAnalysis updateText = Throw TypeError_).
Proof.
  intros originalAnalysis updateText o.
  pose proof (getBasicUpdate_any originalAnalysis updateText) as Hany.
  cbv zeta in Hany. fold o in Hany.
  destruct (adjustable originalAnalysis updateText).
  - split; [intros _; exact Hany | discriminate].
  - split; [discriminate | intros _; exact Hany].
Qed.

Lemma X4_witness_numeric_string :
  exists updated,
    getBasicUpdate (VObj (<["protein" := VStr "10"]> (<["confidence" := VStr "80"]> ∅)))
      "more protein" = Ok updated
    /\ updated !! "protein" = Some (VNum (of_Z 12))
    /\ updated !! "confidence" = Some (VNum (of_Z 70)).
Proof.
  destruct (proj1 (X4_basic_update_any_input
                     (VObj (<["protein" := VStr "10"]> (<["confidence" := VStr "80"]> ∅)))
                     "more protein"))
    as (updated & Hupdated & Hprotein & _ & _ & _ & _ & _ & Hconfidence & _).
  - vm_compute. reflexivity.
  - exists updated. split; [exact Hupdated|]. split.
    + rewrite Hprotein. vm_compute. reflexivity.
    + rewrite Hconfidence. vm_compute. reflexivity.
Defined.

(** X5. A property that [Number] converts to NaN makes the update yield
    NaN: when [Number(confidence)] is NaN, as it is for a missing
    [confidence], the new confidence is NaN and not the floor 50, and a
    keyword whose property converts to NaN puts NaN in the property and
    in its alias.  A [confidence] of [null] is not such a property: it
    counts as 0 and gives 50. *)
Theorem X5_missing_numbers_give_NaN :
  forall (originalAnalysis : value) (updateText : string)
         (updated : gmap string value),
    getBasicUpdate originalAnalysis updateText = Ok updated ->
    let o := spread originalAnalysis in
    (is_nan (number_of (prop o "confidence")) = true ->
     updated !! "confidence" = Some (VNum NaN))
    /\ (o !! "confidence" = None -> updated !! "confidence" = Some (VNum NaN))
    /\ (wants_more_protein (toLowerCase updateText) = true ->
        is_nan (number_of (prop o "protein")) = true ->
        updated !! "protein" = Some (VNum NaN)
        /\ updated !! "protein_g" = Some (VNum NaN))
    /\ (wants_less_calories (toLowerCase updateText) = true ->
        is_nan (number_of (prop o "calories")) = true ->
        updated !! "calories" = Some (VNum NaN))
    /\ (wants_more_vegetables (toLowerCase updateText) = true ->
        is_nan (number_of (prop o "fiber")) = true ->
        updated !! "fiber" = Some (VNum NaN)
        /\ updated !! "fiber_g" = Some (VNum NaN))
    /\ (o !! "confidence" = Some VNull ->
        updated !! "confidence" = Some (VNum (of_Z 50))).
Proof.
  intros originalAnalysis updateText updated Hupdated o.
  apply getBasicUpdate_Ok in Hupdated as [_ Hadjusted]. fold o in Hadjusted.
  destruct Hadjusted
    as (Hprotein & Hprotein_g & Hcalories & Hfiber & Hfiber_g & _ & Hconfidence & _).
  assert (Hnan : forall n, is_nan n = true -> n = NaN)
    by (intros n Hn; destruct n; (discriminate || reflexivity)).
  split; [|split; [|split; [|split; [|split]]]].
  - intros Hc. apply Hnan in Hc. rewrite Hconfidence, Hc. reflexivity.
  - intros Hnone. rewrite Hconfidence. unfold prop. rewrite Hnone. reflexivity.
  - intros Hwants Hp. apply Hnan in Hp.
    rewrite Hprotein, Hprotein_g, Hwants, Hp. split; reflexivity.
  - intros Hwants Hc. apply Hnan in Hc. rewrite Hcalories, Hwants, Hc. reflexivity.
  - intros Hwants Hf. apply Hnan in Hf.
    rewrite Hfiber, Hfiber_g, Hwants, Hf. split; reflexivity.
  - intros Hnull. rewrite Hconfidence. unfold prop. rewrite Hnull.
    vm_compute. reflexivity.
Qed.

Lemma X5_witness_no_confidence :
  exists updated,
    getBasicUpdate (VObj (<["calories" := VNum (of_Z 100)]> ∅)) "anything" = Ok updated
    /\ updated !! "confidence" = Some (VNum NaN).
Proof.
  destruct (getBasicUpdate (VObj (<["calories" := VNum (of_Z 100)]> ∅)) "anything")
    as [updated|e] eqn:Hupdated.
  - exists updated. split; [reflexivity|].
    destruct (X5_missing_numbers_give_NaN _ _ _ Hupdated) as (_ & Hnone & _).
    apply Hnone. simpl. rewrite lookup_insert_ne by discriminate. apply lookup_empty.
  - exfalso.
    pose proof (getBasicUpdate_any (VObj (<["calories" := VNum (of_Z 100)]> ∅))
                  "anything") as Hany.
    cbv zeta in Hany.
    replace (adjustable (VObj (<["calories" := VNum (of_Z 100)]> ∅)) "anything")
      with true in Hany by (vm_compute; reflexivity).
    destruct Hany as (updated & Heq & _). rewrite Hupdated in Heq. discriminate Heq.
Defined.

(** X6. The confidence after an update is NaN, 50, or the original
    confidence less 10, and it is never below 50. *)
Theorem X6_confidence_floor :
  forall (originalAnalysis : value) (updateText : string)
         (updated : gmap string value),
    getBasicUpdate originalAnalysis updateText = Ok updated ->
    let c := number_of (prop (spread originalAnalysis) "confidence") in
    exists c',
      updated !! "confidence" = Some (VNum c')
      /\ (c' = NaN \/ c' = of_Z 50 \/ c' = Num.sub c (of_Z 10))
      /\ Num.gt (of_Z 50) c' = false.
Proof.
  intros originalAnalysis updateText updated Hupdated c.
  apply getBasicUpdate_Ok in Hupdated as [_ Hadjusted].
  destruct Hadjusted as (_ & _ & _ & _ & _ & _ & Hconfidence & _).
  fold c in Hconfidence.
  exists (Math_max [of_Z 50; Num.sub c (of_Z 10)]).
  split; [exact Hconfidence|].
  rewrite Math_max_50_cases.
  destruct (is_nan (Num.sub c (of_Z 10))).
  - split; [left; reflexivity | reflexivity].
  - destruct (Num.gt (Num.sub c (of_Z 10)) (of_Z 50)) eqn:Hgt.
    + split; [right; right; reflexivity|].
      unfold Num.gt in *. apply SFltb_asym. exact Hgt.
    + split; [right; left; reflexivity | reflexivity].
Qed.

Lemma X6_witness_confidence_55 :
  exists updated c',
    getBasicUpdate (VObj object_confidence_55) "anything" = Ok updated
    /\ updated !! "confidence" = Some (VNum c')
    /\ Num.gt (of_Z 50) c' = false.
Proof.
  destruct (getBasicUpdate_returns (VObj object_confidence_55) "anything")
    as [updated Hupdated]; [vm_compute; reflexivity|].
  destruct (X6_confidence_floor _ _ _ Hupdated) as (c' & Hc' & _ & Hfloor).
  exists updated, c'. split; [exact Hupdated|]. split; assumption.
Defined.

(** X7. An update keeps each alias equal to its primary: if [protein_g]
    equals [protein] in the original, or the protein rule applies, they
    are equal in the result; the same for [fiber_g] and [fiber]. *)
Theorem X7_update_keeps_aliases :
  forall (originalAnalysis : value) (updateText : string)
         (updated : gmap string value),
    getBasicUpdate originalAnalysis updateText = Ok updated ->
    let o := spread originalAnalysis in
    (o !! "protein_g" = o !! "protein"
     \/ wants_more_protein (toLowerCase updateText) = true ->
     updated !! "protein_g" = updated !! "protein")
    /\ (o !! "fiber_g" = o !! "fiber"
        \/ wants_more_vegetables (toLowerCase updateText) = true ->
        updated !! "fiber_g" = updated !! "fiber").
Proof.
  intros originalAnalysis updateText updated Hupdated o.
  apply getBasicUpdate_Ok in Hupdated as [_ Hadjusted]. fold o in Hadjusted.
  destruct Hadjusted as (Hprotein & Hprotein_g & _ & Hfiber & Hfiber_g & _).
  split.
  - intros H. rewrite Hprotein, Hprotein_g.
    destruct (wants_more_protein (toLowerCase updateText)); [reflexivity|].
    destruct H as [H | H]; [exact H | discriminate H].
  - intros H. rewrite Hfiber, Hfiber_g.
    destruct (wants_more_vegetables (toLowerCase updateText)); [reflexivity|].
    destruct H as [H | H]; [exact H | discriminate H].
Qed.

Lemma X7_witness_more_vegetables :
  exists updated,
    getBasicUpdate (VObj object_100_10_5_80) "More vegetables" = Ok updated
    /\ updated !! "fiber_g" = updated !! "fiber".
Proof.
  destruct (getBasicUpdate_returns (VObj object_100_10_5_80) "More vegetables")
    as [updated Hupdated]; [vm_compute; reflexivity|].
  exists updated. split; [exact Hupdated|].
  apply (proj2 (X7_update_keeps_aliases _ _ _ Hupdated)).
  right. vm_compute. reflexivity.
Defined.

(** *** Keywords *)

Lemma prefix_append (w b : string) : String.prefix w (w +:+ b) = true.
Proof.
  induction w as [|a w IH]; simpl.
  - destruct b; reflexivity.
  - destruct (ascii_dec a a) as [_|Hne]; [exact IH | contradiction].
Qed.

Lemma includes_prefix (s p : string) :
  String.prefix p s = true -> includes s p = true.
Proof. intros H. destruct s; cbn [includes]; rewrite H; reflexivity. Qed.

Lemma includes_append (a w b : string) : includes (a +:+ w +:+ b) w = true.
Proof.
  induction a as [|x a IH].
  - change ("" +:+ w +:+ b) with (w +:+ b). apply includes_prefix, prefix_append.
  - change (String x a +:+ w +:+ b) with (String x (a +:+ w +:+ b)).
    cbn [includes]. rewrite IH. apply orb_true_r.
Qed.

Lemma toLowerCase_append (a b : string) :
  toLowerCase (a +:+ b) = toLowerCase a +:+ toLowerCase b.
Proof. induction a as [|x a IH]; simpl; [reflexivity | rewrite IH; reflexivity]. Qed.

(** X8. A rule applies to every text that contains one of its phrases in
    any mix of upper and lower case letters A to Z, wherever it stands in
    the text.  The Hebrew phrase of the protein rule is the word for
    protein alone, and that of the vegetables rule the word for
    vegetables alone. *)
Theorem X8_keywords_any_case_anywhere :
  forall (before phrase after : string),
    (In (toLowerCase phrase) protein_phrases ->
     wants_more_protein (toLowerCase (before +:+ phrase +:+ after)) = true)
    /\ (In (toLowerCase phrase) calories_phrases ->
        wants_less_calories (toLowerCase (before +:+ phrase +:+ after)) = true)
    /\ (In (toLowerCase phrase) vegetables_phrases ->
        wants_more_vegetables (toLowerCase (before +:+ phrase +:+ after)) = true).
Proof.
  intros before phrase after.
  rewrite !toLowerCase_append.
  pose proof (includes_append (toLowerCase before) (toLowerCase phrase)
                (toLowerCase after)) as Hincludes.
  unfold wants_more_protein, wants_less_calories, wants_more_vegetables.
  repeat split; intros [H | [H | []]]; rewrite <- H in *; rewrite Hincludes;
    (reflexivity || apply orb_true_r).
Qed.

Lemma X8_witness_less_protein_in_hebrew :
  wants_more_protein (toLowerCase ("אני רוצה " +:+ "חלבון" +:+ " פחות")) = true
  /\ wants_more_protein (toLowerCase ("Give me " +:+ "MORE Protein" +:+ "!")) = true.
Proof.
  split.
  - apply (proj1 (X8_keywords_any_case_anywhere "אני רוצה " "חלבון" " פחות")).
    right. left. vm_compute. reflexivity.
  - apply (proj1 (X8_keywords_any_case_anywhere "Give me " "MORE Protein" "!")).
    left. vm_compute. reflexivity.
Defined.

(** *** The entry points with a configured provider *)

Section Configured.

Variable JSON_stringify : value -> nat -> option string.
Variable extractCleanJSON : string -> res string.
Variable parsePartialJSON : string -> res value.
Variable client : chat_request -> res Completion.t.
Variable OPENAI_API_KEY : option string.
Hypothesis Hkey : given OPENAI_API_KEY = true.

#[local] Abbreviation analyze :=
  (analyzeMealImage JSON_stringify extractCleanJSON parsePartialJSON (Some client)
     OPENAI_API_KEY).
#[local] Abbreviation update :=
  (updateMealAnalysis JSON_stringify extractCleanJSON parsePartialJSON (Some client)
     OPENAI_API_KEY).

#[local] Abbreviation parsed :=
  (parsed_reply extractCleanJSON parsePartialJSON client).

Lemma analyzeMealImage_try_accepted (imageBase64 language : string)
    (updateText : option string) (editedIngredients : list value) :
  image_rejected imageBase64 = false ->
  analyzeMealImage_try JSON_stringify extractCleanJSON parsePartialJSON (Some client)
    OPENAI_API_KEY imageBase64 language updateText editedIngredients
  = (response ←
       client (analysis_request JSON_stringify imageBase64 language updateText
                 editedIngredients);
     let content_ := Completion.first_content response in
     if negb (given content_) then Throw (Error_ "No response from OpenAI")
     else
       cleanedJSON ← extractCleanJSON (text_of content_);
       analysis ← parsePartialJSON cleanedJSON;
       normalizeAnalysisResponse analysis).
Proof.
  intros Haccepted. unfold image_rejected in Haccepted.
  apply orb_false_elim in Haccepted as [Hmissing Hformat].
  unfold analyzeMealImage_try. rewrite Hkey, Hmissing, Hformat. reflexivity.
Qed.

Lemma analyzeMealImage_parsed (imageBase64 language : string)
    (updateText : option string) (editedIngredients : list value)
    (analysis : value) :
  image_rejected imageBase64 = false ->
  parsed
    (analysis_request JSON_stringify imageBase64 language updateText editedIngredients)
    analysis ->
  analyze imageBase64 language updateText editedIngredients
  = Ok (if normalizable analysis then normalized analysis
        else getFallbackAnalysis language).
Proof.
  intros Haccepted (response & text & cleanedJSON & Hcall & Hcontent & Htext
                    & Hextract & Hparse).
  unfold analyzeMealImage. rewrite analyzeMealImage_try_accepted by exact Haccepted.
  rewrite Hcall. unfold mbind, res_bind, bind. cbv zeta. rewrite Hcontent.
  assert (Hgiven : given (Some text) = true).
  { simpl. apply negb_true_iff, String.eqb_neq. exact Htext. }
  rewrite Hgiven. simpl negb. cbv iota. simpl text_of.
  rewrite Hextract, Hparse, normalizeAnalysisResponse_eq.
  destruct (normalizable analysis); [reflexivity|].
  unfold try_catch. rewrite analyzeMealImage_catch_eq.
  pose proof falls_back_TypeError as Hfalls. unfold falls_back in Hfalls.
  apply andb_prop in Hfalls as [Hvalue Hnone].
  apply negb_true_iff in Hvalue. rewrite Hvalue.
  destruct (rethrown_message TypeError_ rethrown); [discriminate Hnone | reflexivity].
Qed.

Lemma analyzeMealImage_no_content (imageBase64 language : string)
    (updateText : option string) (editedIngredients : list value)
    (response : Completion.t) :
  image_rejected imageBase64 = false ->
  client (analysis_request JSON_stringify imageBase64 language updateText
            editedIngredients) = Ok response ->
  given (Completion.first_content response) = false ->
  analyze imageBase64 language updateText editedIngredients
  = Ok (getFallbackAnalysis language).
Proof.
  intros Haccepted Hcall Hcontent.
  eapply analyzeMealImage_caught; [|apply (falls_back_Error "No response from OpenAI")].
  rewrite analyzeMealImage_try_accepted by exact Haccepted.
  rewrite Hcall. unfold mbind, res_bind, bind. cbv zeta. rewrite Hcontent.
  reflexivity.
Qed.

Lemma updateMealAnalysis_try_configured (originalAnalysis : value)
    (updateText language : string) :
  updateMealAnalysis_try JSON_stringify extractCleanJSON parsePartialJSON
    (Some client) OPENAI_API_KEY originalAnalysis updateText language
  = (response ←
       client (update_request JSON_stringify originalAnalysis updateText language);
     let content_ := Completion.first_content response in
     if negb (given content_) then Throw (Error_ "No response from OpenAI")
     else
       cleanedJSON ← extractCleanJSON (text_of content_);
       updatedAnalysis ← parsePartialJSON cleanedJSON;
       r ← normalizeAnalysisResponse updatedAnalysis;
       Ok (Normalized r)).
Proof. unfold updateMealAnalysis_try. rewrite Hkey. reflexivity. Qed.

Lemma updateMealAnalysis_parsed (originalAnalysis : value)
    (updateText language : string) (analysis : value) :
  parsed (update_request JSON_stringify originalAnalysis updateText language)
    analysis ->
  update originalAnalysis updateText language
  = if normalizable analysis then Ok (Normalized (normalized analysis))
    else basic_update originalAnalysis updateText.
Proof.
  intros (response & text & cleanedJSON & Hcall & Hcontent & Htext
          & Hextract & Hparse).
  unfold updateMealAnalysis. rewrite updateMealAnalysis_try_configured.
  rewrite Hcall. unfold mbind, res_bind, bind. cbv zeta. rewrite Hcontent.
  assert (Hgiven : given (Some text) = true).
  { simpl. apply negb_true_iff, String.eqb_neq. exact Htext. }
  rewrite Hgiven. simpl negb. cbv iota. simpl text_of.
  rewrite Hextract, Hparse, normalizeAnalysisResponse_eq.
  destruct (normalizable analysis); reflexivity.
Qed.

Lemma updateMealAnalysis_failed (originalAnalysis : value)
    (updateText language : string) :
  (forall analysis,
      parsed (update_request JSON_stringify originalAnalysis updateText language)
        analysis ->
      normalizable analysis = false) ->
  update originalAnalysis updateText language
  = basic_update originalAnalysis updateText.
Proof.
  intros Hnone.
  unfold updateMealAnalysis. rewrite updateMealAnalysis_try_configured.
  destruct (client (update_request JSON_stringify originalAnalysis updateText language))
    as [response|e] eqn:Hcall; [|reflexivity].
  unfold mbind, res_bind, bind. cbv zeta.
  destruct (Completion.first_content response) as [text|] eqn:Hcontent; [|reflexivity].
  destruct (String.eqb text "") eqn:Htext.
  { simpl. rewrite Htext. reflexivity. }
  simpl given. rewrite Htext. simpl negb. cbv iota. simpl text_of.
  destruct (extractCleanJSON text) as [cleanedJSON|e] eqn:Hextract; [|reflexivity].
  destruct (parsePartialJSON cleanedJSON) as [analysis|e] eqn:Hparse; [|reflexivity].
  rewrite normalizeAnalysisResponse_eq.
  rewrite (Hnone analysis); [reflexivity|].
  exists response, text, cleanedJSON.
  apply String.eqb_neq in Htext. repeat split; assumption.
Qed.

End Configured.

(** X9. With a configured provider and an accepted image, when the
    provider answers with a text that is not empty and the two helpers
    turn it into a value, [analyzeMealImage] returns the normalisation of
    that value, and the fallback record when the value cannot be
    normalised (for instance when the helpers yield [null]). *)
Theorem X9_analysis_of_a_parsed_reply :
  forall (JSON_stringify : value -> nat -> option string)
         (extractCleanJSON : string -> res string)
         (parsePartialJSON : string -> res value)
         (client : chat_request -> res Completion.t)
         (OPENAI_API_KEY : option string)
         (imageBase64 language : string) (updateText : option string)
         (editedIngredients : list value) (analysis : value),
    given OPENAI_API_KEY = true ->
    image_rejected imageBase64 = false ->
    parsed_reply extractCleanJSON parsePartialJSON client
      (analysis_request JSON_stringify imageBase64 language updateText
         editedIngredients)
      analysis ->
    analyzeMealImage JSON_stringify extractCleanJSON parsePartialJSON (Some client)
      OPENAI_API_KEY imageBase64 language updateText editedIngredients
    = Ok (if normalizable analysis then normalized analysis
          else getFallbackAnalysis language).
Proof.
  intros. apply analyzeMealImage_parsed; assumption.
Qed.

Lemma X9_witness_null_reply :
  analyzeMealImage Sample.JSON_stringify Sample.extractCleanJSON
    Sample.parsePartialJSON (Some (Sample.client_replying "null"))
    (Some "sk-test"%string) "AAAA" "english" None []
  = Ok (getFallbackAnalysis "english").
Proof.
  apply (X9_analysis_of_a_parsed_reply Sample.JSON_stringify Sample.extractCleanJSON
           Sample.parsePartialJSON (Sample.client_replying "null")
           (Some "sk-test"%string) "AAAA" "english" None [] VNull).
  - reflexivity.
  - reflexivity.
  - exists {| Completion.choices :=
               [ {| Completion.message :=
                      Some {| Completion.content := Some "null"%string |} |} ] |},
      "null"%string, "null"%string.
    repeat split; (reflexivity || discriminate).
Defined.

(** X10. A reply without content (no choice, no message, [null] or the
    empty text) is answered with the fallback record by
    [analyzeMealImage] and with the basic update by
    [updateMealAnalysis]. *)
Theorem X10_reply_without_content :
  forall (JSON_stringify : value -> nat -> option string)
         (extractCleanJSON : string -> res string)
         (parsePartialJSON : string -> res value)
         (client : chat_request -> res Completion.t)
         (OPENAI_API_KEY : option string),
    given OPENAI_API_KEY = true ->
    (forall imageBase64 language updateText editedIngredients response,
        image_rejected imageBase64 = false ->
        client (analysis_request JSON_stringify imageBase64 language updateText
                  editedIngredients) = Ok response ->
        given (Completion.first_content response) = false ->
        analyzeMealImage JSON_stringify extractCleanJSON parsePartialJSON
          (Some client) OPENAI_API_KEY imageBase64 language updateText
          editedIngredients
        = Ok (getFallbackAnalysis language))
    /\ (forall originalAnalysis updateText language response,
           client (update_request JSON_stringify originalAnalysis updateText language)
           = Ok response ->
           given (Completion.first_content response) = false ->
           updateMealAnalysis JSON_stringify extractCleanJSON parsePartialJSON
             (Some client) OPENAI_API_KEY originalAnalysis updateText language
           = basic_update originalAnalysis updateText).
Proof.
  intros JSON_stringify extractCleanJSON parsePartialJSON client OPENAI_API_KEY Hkey.
  split.
  - intros. eapply analyzeMealImage_no_content; eassumption.
  - intros originalAnalysis updateText language response Hcall Hcontent.
    apply updateMealAnalysis_failed; [exact Hkey|].
    intros analysis (response' & text & cleanedJSON & Hcall' & Hcontent' & Htext & _).
    rewrite Hcall in Hcall'. injection Hcall' as <-.
    rewrite Hcontent' in Hcontent. simpl in Hcontent.
    apply negb_false_iff, String.eqb_eq in Hcontent. contradiction.
Qed.

Lemma X10_witness_empty_text :
  analyzeMealImage Sample.JSON_stringify Sample.extractCleanJSON
    Sample.parsePartialJSON (Some (Sample.client_replying "")) (Some "sk-test"%string)
    "AAAA" "hebrew" None []
  = Ok (getFallbackAnalysis "hebrew").
Proof.
  refine (proj1 (X10_reply_without_content Sample.JSON_stringify
                   Sample.extractCleanJSON Sample.parsePartialJSON
                   (Sample.client_replying "") (Some "sk-test"%string) _)
            "AAAA"%string "hebrew"%string None [] _ _ _ _).
  - reflexivity.
  - reflexivity.
  - reflexivity.
  - reflexivity.
Defined.

(** X11. [updateMealAnalysis] lets no failure of its pipeline reach the
    caller as such.  Unconfigured, it answers with the basic update; with
    a configured provider it returns the normalised reply when the reply
    is parsed into a value that can be normalised, and answers every
    other course (an error of the provider whatever its status, a reply
    without content, an error of a helper, a value that cannot be
    normalised) with the basic update. *)
Theorem X11_update_outcomes :
  forall (JSON_stringify : value -> nat -> option string)
         (extractCleanJSON : string -> res string)
         (parsePartialJSON : string -> res value)
         (openai : option (chat_request -> res Completion.t))
         (OPENAI_API_KEY : option string)
         (originalAnalysis : value) (updateText language : string),
    (openai = None \/ given OPENAI_API_KEY = false ->
     updateMealAnalysis JSON_stringify extractCleanJSON parsePartialJSON openai
       OPENAI_API_KEY originalAnalysis updateText language
     = basic_update originalAnalysis updateText)
    /\ (forall client,
           openai = Some client ->
           given OPENAI_API_KEY = true ->
           (forall analysis,
               parsed_reply extractCleanJSON parsePartialJSON client
                 (update_request JSON_stringify originalAnalysis updateText language)
                 analysis ->
               normalizable analysis = true ->
               updateMealAnalysis JSON_stringify extractCleanJSON parsePartialJSON
                 openai OPENAI_API_KEY originalAnalysis updateText language
               = Ok (Normalized (normalized analysis)))
           /\ ((forall analysis,
                   parsed_reply extractCleanJSON parsePartialJSON client
                     (update_request JSON_stringify originalAnalysis updateText
                        language)
                     analysis ->
                   normalizable analysis = false) ->
               updateMealAnalysis JSON_stringify extractCleanJSON parsePartialJSON
                 openai OPENAI_API_KEY originalAnalysis updateText language
               = basic_update originalAnalysis updateText)).
Proof.
  intros JSON_stringify extractCleanJSON parsePartialJSON openai OPENAI_API_KEY
    originalAnalysis updateText language.
  split.
  - intros Hun. unfold updateMealAnalysis, updateMealAnalysis_try, basic_update.
    destruct openai as [client|].
    + destruct Hun as [Hnone | Hkey]; [discriminate Hnone|]. rewrite Hkey. simpl.
      destruct (getBasicUpdate originalAnalysis updateText); reflexivity.
    + simpl. destruct (getBasicUpdate originalAnalysis updateText); reflexivity.
  - intros client -> Hkey. split.
    + intros analysis Hparsed Hnormalizable.
      rewrite (updateMealAnalysis_parsed _ _ _ _ _ Hkey _ _ _ _ Hparsed).
      rewrite Hnormalizable. reflexivity.
    + intros Hnone. apply updateMealAnalysis_failed; assumption.
Qed.

Lemma X11_witness_status_429 :
  updateMealAnalysis Sample.JSON_stringify Sample.extractCleanJSON
    Sample.parsePartialJSON (Some (Sample.client_failing 429)) (Some "sk-test"%string)
    (VObj object_confidence_55) "anything" "english"
  = basic_update (VObj object_confidence_55) "anything".
Proof.
  destruct (X11_update_outcomes Sample.JSON_stringify Sample.extractCleanJSON
              Sample.parsePartialJSON (Some (Sample.client_failing 429))
              (Some "sk-test"%string) (VObj object_confidence_55) "anything" "english")
    as [_ Hconfigured].
  destruct (Hconfigured (Sample.client_failing 429) eq_refl eq_refl) as [_ Hfailed].
  apply Hfailed.
  intros analysis (response & text & cleanedJSON & Hcall & _).
  discriminate Hcall.
Defined.

(** X12. [analyzeMealImage] consults the provider with one request only:
    two providers that answer that request alike give the same outcome;
    and with a refused image the provider is not consulted at all.  The
    same holds of [updateMealAnalysis] and its request. *)
Theorem X12_one_request_decides :
  forall (JSON_stringify : value -> nat -> option string)
         (extractCleanJSON : string -> res string)
         (parsePartialJSON : string -> res value)
         (client1 client2 : chat_request -> res Completion.t)
         (OPENAI_API_KEY : option string),
    (forall imageBase64 language updateText editedIngredients,
        image_rejected imageBase64 = true
        \/ client1 (analysis_request JSON_stringify imageBase64 language updateText
                      editedIngredients)
           = client2 (analysis_request JSON_stringify imageBase64 language updateText
                        editedIngredients) ->
        analyzeMealImage JSON_stringify extractCleanJSON parsePartialJSON
          (Some client1) OPENAI_API_KEY imageBase64 language updateText
          editedIngredients
        = analyzeMealImage JSON_stringify extractCleanJSON parsePartialJSON
            (Some client2) OPENAI_API_KEY imageBase64 language updateText
            editedIngredients)
    /\ (forall originalAnalysis updateText language,
           client1 (update_request JSON_stringify originalAnalysis updateText language)
           = client2 (update_request JSON_stringify originalAnalysis updateText
                        language) ->
           updateMealAnalysis JSON_stringify extractCleanJSON parsePartialJSON
             (Some client1) OPENAI_API_KEY originalAnalysis updateText language
           = updateMealAnalysis JSON_stringify extractCleanJSON parsePartialJSON
               (Some client2) OPENAI_API_KEY originalAnalysis updateText language).
Proof.
  intros JSON_stringify extractCleanJSON parsePartialJSON client1 client2
    OPENAI_API_KEY.
  destruct (given OPENAI_API_KEY) eqn:Hkey.
  - split.
    + intros imageBase64 language updateText editedIngredients Hsame.
      destruct (image_rejected imageBase64) eqn:Hrejected.
      * rewrite (analyzeMealImage_refused _ _ _ _ _ client1) by (reflexivity || assumption).
        rewrite (analyzeMealImage_refused _ _ _ _ _ client2) by (reflexivity || assumption).
        reflexivity.
      * destruct Hsame as [Hsame | Hsame]; [discriminate Hsame|].
        unfold analyzeMealImage.
        rewrite !analyzeMealImage_try_accepted by assumption.
        rewrite Hsame. reflexivity.
    + intros originalAnalysis updateText language Hsame.
      unfold updateMealAnalysis.
      rewrite !updateMealAnalysis_try_configured by assumption.
      rewrite Hsame. reflexivity.
  - split.
    + intros. unfold analyzeMealImage, analyzeMealImage_try. rewrite Hkey. reflexivity.
    + intros.
      unfold updateMealAnalysis, updateMealAnalysis_try. rewrite Hkey. reflexivity.
Qed.

Lemma X12_witness_refused_image :
  analyzeMealImage Sample.JSON_stringify Sample.extractCleanJSON
    Sample.parsePartialJSON (Some (Sample.client_failing 429)) (Some "sk-test"%string)
    "not base64 !" "english" None []
  = analyzeMealImage Sample.JSON_stringify Sample.extractCleanJSON
      Sample.parsePartialJSON (Some (Sample.client_replying "{}"))
      (Some "sk-test"%string) "not base64 !" "english" None [].
Proof.
  refine (proj1 (X12_one_request_decides Sample.JSON_stringify
                   Sample.extractCleanJSON Sample.parsePartialJSON
                   (Sample.client_failing 429) (Sample.client_replying "{}")
                   (Some "sk-test"%string))
            "not base64 !"%string "english"%string None [] _).
  left. vm_compute. reflexivity.
Defined.

(** *** The image payload *)

Lemma append_cons (a : ascii) (s t : string) :
  String a s +:+ t = String a (s +:+ t).
Proof. reflexivity. Qed.

Lemma append_nil_l (t : string) : "" +:+ t = t.
Proof. reflexivity. Qed.

Lemma append_assoc (s t u : string) : (s +:+ t) +:+ u = s +:+ t +:+ u.
Proof.
  induction s as [|a s IH].
  - rewrite !append_nil_l. reflexivity.
  - rewrite !append_cons, IH. reflexivity.
Qed.

Lemma upto_comma_id (s : string) : no_comma s = true -> upto_comma s = s.
Proof.
  induction s as [|a s IH]; simpl; [reflexivity|].
  intros H. apply andb_prop in H as [Ha Hs]. apply negb_true_iff in Ha.
  rewrite Ha, IH by exact Hs. reflexivity.
Qed.

Lemma split_comma_1_none (s : string) : no_comma s = true -> split_comma_1 s = None.
Proof.
  induction s as [|a s IH]; simpl; [reflexivity|].
  intros H. apply andb_prop in H as [Ha Hs]. apply negb_true_iff in Ha.
  rewrite Ha. apply IH. exact Hs.
Qed.

Lemma split_comma_1_append (a b : string) :
  no_comma a = true -> split_comma_1 (a +:+ "," +:+ b) = Some (upto_comma b).
Proof.
  induction a as [|x a IH].
  - intros _. rewrite append_nil_l. reflexivity.
  - simpl no_comma. intros H. apply andb_prop in H as [Hx Ha].
    apply negb_true_iff in Hx. rewrite append_cons. simpl. rewrite Hx.
    apply IH. exact Ha.
Qed.

Lemma no_comma_append (a b : string) :
  no_comma (a +:+ b) = no_comma a && no_comma b.
Proof.
  induction a as [|x a IH].
  - rewrite append_nil_l. reflexivity.
  - rewrite append_cons. simpl. rewrite IH. apply andb_assoc.
Qed.

Lemma data_uri_not_missing (rest : string) :
  image_missing ("data:image/" +:+ rest) = false.
Proof.
  unfold image_missing, trim.
  rewrite !append_cons, append_nil_l. reflexivity.
Qed.

Lemma data_uri_starts (rest : string) :
  startsWith ("data:image/" +:+ rest) "data:image/" = true.
Proof. apply prefix_append. Qed.



(** X13. From a data URI [data:image/<kind>,<body>] the service keeps the
    text between the first comma and the next one (all of [body] when it
    has no comma), validates that text alone, and sends it as a JPEG
    reference whatever [kind] says; a payload that does not start with
    [data:image/] is validated and sent whole.  A data URI without any
    comma is accepted: the text validated and sent is "undefined". *)
Theorem X13_data_uri_payload :
  (forall kind body : string,
      no_comma kind = true ->
      let imageBase64 := "data:image/" +:+ kind +:+ "," +:+ body in
      clean_base64 imageBase64 = Some (upto_comma body)
      /\ image_rejected imageBase64 = negb (base64Regex_test (upto_comma body))
      /\ sent_image_url imageBase64 = "data:image/jpeg;base64," +:+ upto_comma body
      /\ (no_comma body = true -> upto_comma body = body))
  /\ (forall imageBase64 : string,
         startsWith imageBase64 "data:image/" = false ->
         clean_base64 imageBase64 = Some imageBase64
         /\ sent_image_url imageBase64 = "data:image/jpeg;base64," +:+ imageBase64)
  /\ (forall rest : string,
         no_comma rest = true ->
         clean_base64 ("data:image/" +:+ rest) = None
         /\ image_rejected ("data:image/" +:+ rest) = false
         /\ sent_image_url ("data:image/" +:+ rest)
            = "data:image/jpeg;base64,undefined")
  /\ (forall JSON_stringify imageBase64 language updateText editedIngredients,
         exists system_message user_text,
           messages (analysis_request JSON_stringify imageBase64 language
                       updateText editedIngredients)
           = [ system_message;
               {| role := "user";
                  content :=
                    parts_content
                      [ text_part user_text;
                        image_url_part (sent_image_url imageBase64) "high" ] |} ]).
Proof.
  split; [|split; [|split]].
  - intros kind body Hkind imageBase64.
    assert (Hclean : clean_base64 imageBase64 = Some (upto_comma body)).
    { unfold clean_base64, imageBase64. rewrite data_uri_starts.
      rewrite <- append_assoc. apply split_comma_1_append.
      rewrite no_comma_append, Hkind. reflexivity. }
    split; [exact Hclean|]. split; [|split].
    + unfold image_rejected. rewrite Hclean. unfold imageBase64.
      rewrite data_uri_not_missing. reflexivity.
    + unfold sent_image_url. rewrite Hclean. reflexivity.
    + apply upto_comma_id.
  - intros imageBase64 Hstarts. unfold sent_image_url, clean_base64.
    rewrite Hstarts. split; reflexivity.
  - intros rest Hrest.
    assert (Hclean : clean_base64 ("data:image/" +:+ rest) = None).
    { unfold clean_base64. rewrite data_uri_starts. apply split_comma_1_none.
      rewrite no_comma_append, Hrest. reflexivity. }
    split; [exact Hclean|]. split.
    + unfold image_rejected. rewrite Hclean, data_uri_not_missing. reflexivity.
    + unfold sent_image_url. rewrite Hclean. reflexivity.
  - intros. eexists. eexists. reflexivity.
Qed.

Lemma X13_witness_png :
  clean_base64 ("data:image/" +:+ "png;base64" +:+ "," +:+ "iVBORw0KGgo=")
  = Some "iVBORw0KGgo="%string.
Proof.
  destruct (proj1 X13_data_uri_payload "png;base64"%string "iVBORw0KGgo="%string)
    as (Hclean & _); [reflexivity|].
  rewrite Hclean. reflexivity.
Defined.

(** *** The base64 pattern *)

Lemma code_61 (a : ascii) : (code a =? 61) = true -> String a "" = "="%string.
Proof.
  destruct a as [[|] [|] [|] [|] [|] [|] [|] [|]]; vm_compute;
    intros H; (reflexivity || discriminate H).
Qed.

Lemma drop_base64_split (s : string) :
  exists body, s = body +:+ drop_base64 s /\ all_base64 body = true.
Proof.
  induction s as [|a s (body & Hs & Hbody)]; simpl.
  - exists ""%string. split; reflexivity.
  - destruct (base64_char a) eqn:Ha.
    + exists (String a body). rewrite append_cons, <- Hs. simpl.
      rewrite Ha, Hbody. split; reflexivity.
    + exists ""%string. split; reflexivity.
Qed.

Lemma drop_base64_append (body pad : string) :
  all_base64 body = true -> drop_base64 (body +:+ pad) = drop_base64 pad.
Proof.
  induction body as [|a body IH].
  - intros _. rewrite append_nil_l. reflexivity.
  - rewrite append_cons. simpl. intros H. apply andb_prop in H as [Ha Hbody].
    rewrite Ha. apply IH. exact Hbody.
Qed.

(** X14. The validation pattern accepts exactly the texts made of
    characters of the base64 alphabet (letters, digits, [+] and [/])
    followed by at most two [=] signs: the empty text is accepted, and
    neither the length nor where the padding belongs is checked. *)
Theorem X14_base64_pattern :
  forall s : string,
    base64Regex_test s = true
    <-> exists body pad,
          s = body +:+ pad
          /\ all_base64 body = true
          /\ (pad = ""%string \/ pad = "="%string \/ pad = "=="%string).
Proof.
  intros s. split.
  - intros Htest. destruct (drop_base64_split s) as (body & Hs & Hbody).
    exists body, (drop_base64 s). split; [exact Hs|]. split; [exact Hbody|].
    unfold base64Regex_test in Htest.
    destruct (drop_base64 s) as [|a [|b [|c r]]]; try discriminate Htest.
    + left. reflexivity.
    + right. left. apply code_61. exact Htest.
    + right. right. apply andb_prop in Htest as [Ha Hb].
      apply code_61 in Ha. apply code_61 in Hb.
      injection Ha as ->. injection Hb as ->. reflexivity.
  - intros (body & pad & -> & Hbody & Hpad).
    unfold base64Regex_test. rewrite drop_base64_append by exact Hbody.
    destruct Hpad as [-> | [-> | ->]]; reflexivity.
Qed.

Lemma X14_witness_padding_only :
  base64Regex_test "==" = true.
Proof.
  apply (proj2 (X14_base64_pattern "==")).
  exists ""%string, "=="%string. repeat split. right. right. reflexivity.
Defined.

(** *** [generateText] *)

(** X15. [generateText] never returns the empty text: without a
    configured provider it returns a fixed notice; with one, a reply
    with content is returned as it is and a reply without content
    becomes "No response generated".  It fails exactly when the call of
    the provider fails, with the provider's own error, whatever its
    status. *)
Theorem X15_generateText :
  forall (openai : option (chat_request -> res Completion.t))
         (OPENAI_API_KEY : option string) (prompt : string) (maxTokens : Z),
    (forall text, generateText openai OPENAI_API_KEY prompt maxTokens = Ok text ->
                  text <> ""%string)
    /\ (openai = None \/ given OPENAI_API_KEY = false ->
        generateText openai OPENAI_API_KEY prompt maxTokens
        = Ok "AI text generation not available - no API key configured"%string)
    /\ (forall e,
           generateText openai OPENAI_API_KEY prompt maxTokens = Throw e
           <-> exists client,
                 openai = Some client
                 /\ given OPENAI_API_KEY = true
                 /\ client (text_request prompt maxTokens) = Throw e)
    /\ (forall client response,
           openai = Some client ->
           given OPENAI_API_KEY = true ->
           client (text_request prompt maxTokens) = Ok response ->
           (given (Completion.first_content response) = false ->
            generateText openai OPENAI_API_KEY prompt maxTokens
            = Ok "No response generated"%string)
           /\ (forall reply,
                  Completion.first_content response = Some reply ->
                  reply <> ""%string ->
                  generateText openai OPENAI_API_KEY prompt maxTokens = Ok reply)).
Proof.
  intros openai OPENAI_API_KEY prompt maxTokens.
  unfold generateText, try_catch. fold (text_request prompt maxTokens).
  destruct openai as [client|].
  - destruct (given OPENAI_API_KEY) eqn:Hkey; simpl negb; cbv iota.
    + destruct (client (text_request prompt maxTokens)) as [response|e'] eqn:Hcall;
        unfold mbind, res_bind, bind; cbv zeta.
      * split; [|split; [|split]].
        -- intros text Htext. injection Htext as <-.
           destruct (Completion.first_content response) as [reply|]; simpl.
           ++ destruct (String.eqb reply "") eqn:Hreply; simpl; [discriminate|].
              apply String.eqb_neq. exact Hreply.
           ++ discriminate.
        -- intros [Hnone | Hfalse]; discriminate.
        -- intros e. split; [discriminate|].
           intros (client' & Hclient & _ & Hthrow). injection Hclient as <-.
           rewrite Hcall in Hthrow. discriminate Hthrow.
        -- intros client' response' Hclient _ Hcall'. injection Hclient as <-.
           rewrite Hcall in Hcall'. injection Hcall' as <-. split.
           ++ intros Hcontent. rewrite Hcontent. reflexivity.
           ++ intros reply Hreply Hfilled. rewrite Hreply. simpl.
              apply String.eqb_neq in Hfilled. rewrite Hfilled. reflexivity.
      * split; [|split; [|split]].
        -- discriminate.
        -- intros [Hnone | Hfalse]; discriminate.
        -- intros e. split.
           ++ intros He. injection He as <-. exists client. repeat split. exact Hcall.
           ++ intros (client' & Hclient & _ & Hthrow). injection Hclient as <-.
              rewrite Hcall in Hthrow. injection Hthrow as <-. reflexivity.
        -- intros client' response' Hclient _ Hcall'. injection Hclient as <-.
           rewrite Hcall in Hcall'. discriminate Hcall'.
    + split; [|split; [|split]].
      * intros text Htext. injection Htext as <-. discriminate.
      * reflexivity.
      * intros e. split; [discriminate|].
        intros (client' & _ & Hfalse & _). discriminate Hfalse.
      * intros client' response' _ Hfalse. discriminate Hfalse.
  - split; [|split; [|split]].
    + intros text Htext. injection Htext as <-. discriminate.
    + reflexivity.
    + intros e. split; [discriminate|].
      intros (client' & Hclient & _). discriminate Hclient.
    + intros client' response' Hclient. discriminate Hclient.
Qed.

Lemma X15_witness_status_429 :
  generateText (Some (Sample.client_failing 429)) (Some "sk-test"%string)
    "Suggest a dinner" 1000
  = Throw (VObj (<["status" := VNum (of_Z 429)]>
                (<["message" := VStr "request failed"]> ∅))).
Proof.
  apply (proj1 (proj2 (proj2 (X15_generateText (Some (Sample.client_failing 429))
                                (Some "sk-test"%string) "Suggest a dinner" 1000)))).
  exists (Sample.client_failing 429). repeat split.
Defined.

(** *** The fallback record *)

(** X16. For every language the fallback record is fully typed, its
    aliases equal their primaries, and its numbers and index values are
    those of the English record; the record itself is the English one
    for every language but "hebrew". *)
Theorem X16_fallback_record :
  forall language : string,
    let r := getFallbackAnalysis language in
    well_typed r = true
    /\ forallb is_string [name r; description r; healthNotes r; recommendations r]
       = true
    /\ meal_name r = name r
    /\ [protein_g r; carbs_g r; fats_g r; fiber_g r; sugar_g r; sodium_mg r]
       = [protein r; carbs r; fat r; fiber r; sugar r; sodium r]
    /\ numeric_fields r = numeric_fields (getFallbackAnalysis "english")
    /\ glycemic_index r = Some (of_Z 55)
    /\ insulin_index r = Some (of_Z 45)
    /\ length (ingredients r) = 2%nat
    /\ (language <> "hebrew"%string -> r = getFallbackAnalysis "english").
Proof.
  intros language r. subst r. unfold getFallbackAnalysis.
  destruct (String.eqb language "hebrew") eqn:Hlanguage.
  - repeat split; try (vm_compute; reflexivity).
    intros Hother. apply String.eqb_eq in Hlanguage. contradiction.
  - repeat split; try (vm_compute; reflexivity).
Qed.

Lemma X16_witness_french :
  getFallbackAnalysis "french" = getFallbackAnalysis "english".
Proof.
  destruct (X16_fallback_record "french") as (_ & _ & _ & _ & _ & _ & _ & _ & Hother).
  apply Hother. discriminate.
Defined.

(** *** Prompts *)

Lemma append_nil_r (s : string) : s +:+ "" = s.
Proof.
  induction s as [|a s IH]; [reflexivity|].
  rewrite append_cons, IH. reflexivity.
Qed.

Lemma prefix_append_r (p a b : string) :
  String.prefix p a = true -> String.prefix p (a +:+ b) = true.
Proof.
  revert a. induction p as [|x p IH]; intros a H.
  - destruct (a +:+ b); reflexivity.
  - destruct a as [|y a]; [discriminate H|].
    rewrite append_cons. simpl in *.
    destruct (ascii_dec x y); [apply IH; exact H | discriminate H].
Qed.

Lemma includes_append_r (a b p : string) :
  includes a p = true -> includes (a +:+ b) p = true.
Proof.
  induction a as [|x a IH]; cbn [includes]; intros H.
  - rewrite orb_false_r in H. apply includes_prefix.
    rewrite <- (append_nil_l b). apply prefix_append_r. exact H.
  - rewrite append_cons. cbn [includes].
    apply orb_prop in H as [H | H].
    + rewrite <- append_cons, (prefix_append_r _ _ _ H). reflexivity.
    + rewrite (IH H). apply orb_true_r.
Qed.

Lemma includes_skip (x t w : string) :
  includes t w = true -> includes (x +:+ t) w = true.
Proof.
  intros H. induction x as [|a x IH].
  - rewrite append_nil_l. exact H.
  - rewrite append_cons. cbn [includes]. rewrite IH. apply orb_true_r.
Qed.

Lemma createAnalysisPrompt_base (JSON_stringify : value -> nat -> option string)
    (isHebrew : bool) (updateText : option string) (editedIngredients : list value) :
  exists suffix,
    createAnalysisPrompt JSON_stringify isHebrew updateText editedIngredients
    = (if isHebrew then basePrompt_hebrew else basePrompt_english) +:+ suffix.
Proof.
  unfold createAnalysisPrompt.
  destruct (given updateText); [eexists; reflexivity|].
  destruct (0 <? length editedIngredients)%nat; [eexists; reflexivity|].
  exists ""%string. rewrite append_nil_r. reflexivity.
Qed.

(** X17. Every analysis prompt, in either language and with either
    suffix, starts with the base prompt and names, in double quotes,
    every property that [normalizeAnalysisResponse] reads; with an update
    text it also contains that text as given. *)
Theorem X17_prompt_names_what_is_read :
  forall (JSON_stringify : value -> nat -> option string) (isHebrew : bool)
         (updateText : option string) (editedIngredients : list value),
    let prompt :=
      createAnalysisPrompt JSON_stringify isHebrew updateText editedIngredients in
    startsWith prompt (if isHebrew then basePrompt_hebrew else basePrompt_english)
    = true
    /\ (forall k, In k read_keys -> includes prompt (quoted k) = true)
    /\ (given updateText = true -> includes prompt (text_of updateText) = true).
Proof.
  intros JSON_stringify isHebrew updateText editedIngredients prompt.
  destruct (createAnalysisPrompt_base JSON_stringify isHebrew updateText
              editedIngredients) as [suffix Hprompt].
  fold prompt in Hprompt.
  split; [|split].
  - rewrite Hprompt. apply prefix_append.
  - intros k Hk. rewrite Hprompt. apply includes_append_r.
    assert (Hall : forallb (fun k => includes basePrompt_hebrew (quoted k)
                                     && includes basePrompt_english (quoted k))
                     read_keys = true) by (vm_compute; reflexivity).
    rewrite forallb_forall in Hall. specialize (Hall k Hk).
    apply andb_prop in Hall as [Hhebrew Henglish].
    destruct isHebrew; assumption.
  - intros Hgiven. subst prompt.
    rewrite createAnalysisPrompt_updateText by exact Hgiven.
    do 4 apply includes_skip.
    apply includes_prefix. rewrite <- (append_nil_r (text_of updateText)) at 2.
    apply prefix_append.
Qed.

Lemma X17_witness_add_rice :
  includes (createAnalysisPrompt Sample.JSON_stringify true (Some "add rice"%string) [])
    "add rice" = true.
Proof.
  apply (proj2 (proj2 (X17_prompt_names_what_is_read Sample.JSON_stringify true
                         (Some "add rice"%string) []))).
  reflexivity.
Defined.

(** X18. The update prompt, in either language, contains the update text
    as given and the JSON text of the original analysis (the text
    "undefined" when there is none). *)
Theorem X18_update_prompt_embeds_inputs :
  forall (JSON_stringify : value -> nat -> option string)
         (originalAnalysis : value) (updateText : string) (isHebrew : bool),
    let prompt :=
      createUpdatePrompt JSON_stringify originalAnalysis updateText isHebrew in
    includes prompt updateText = true
    /\ includes prompt (text_of (JSON_stringify originalAnalysis 2%nat)) = true.
Proof.
  intros JSON_stringify originalAnalysis updateText isHebrew prompt. subst prompt.
  unfold createUpdatePrompt, join_lines.
  destruct isHebrew; split.
  all: try (do 12 apply includes_skip; apply includes_prefix, prefix_append).
  all: do 6 apply includes_skip; apply includes_prefix, prefix_append.
Qed.

(** *** Records as inputs *)

Lemma as_object_lookup (r : NutritionRecord) :
  forall k, as_object r !! k
            = (fix find (l : list (string * value)) : option value :=
                 match l with
                 | [] => None
                 | (k', v) :: l' => if String.eqb k' k then Some v else find l'
                 end) (record_properties r).
Proof.
  intros k. unfold as_object.
  induction (record_properties r) as [|[k' v] l IH]; [apply lookup_empty|].
  simpl. destruct (String.eqb k' k) eqn:Hk.
  - apply String.eqb_eq in Hk as ->. apply lookup_insert_eq.
  - apply String.eqb_neq in Hk. rewrite lookup_insert_ne by exact Hk.
    apply IH.
Qed.

(** The properties of the object of a record are its fields. *)
Lemma field_as_value (r : NutritionRecord) :
  List.Forall (fun kv => field (as_value r) (fst kv) = snd kv) (record_properties r).
Proof.
  unfold field, as_value, record_properties.
  repeat (apply List.Forall_cons;
          [cbn [fst snd]; rewrite as_object_lookup; reflexivity|]).
  apply List.Forall_nil.
Qed.

(** Rewrites the reads of the properties of [as_value r] into the fields
    of [r]. *)
Ltac read_record r :=
  let H := fresh "Hfields" in
  pose proof (field_as_value r) as H;
  unfold record_properties in H;
  repeat match type of H with
         | List.Forall _ (_ :: _) =>
             let E := fresh "E" in
             apply List.Forall_cons_iff in H as [E H];
             cbn [fst snd] in E; rewrite ?E; clear E
         end;
  clear H.

Lemma or_else_twice (v d : value) : or_else (or_else v d) d = or_else v d.
Proof. unfold or_else. destruct (ToBoolean v) eqn:Hv; [rewrite Hv|]; destruct (ToBoolean d); reflexivity. Qed.

Lemma or_default_twice (n d : number) :
  Num.or_default (Num.or_default n d) d = Num.or_default n d.
Proof.
  unfold Num.or_default. destruct (Num.truthy n) eqn:Hn; [rewrite Hn|];
    destruct (Num.truthy d); reflexivity.
Qed.

Lemma or_else_notes (h c : value) :
  or_else (or_else h (or_else c (VStr "")))
    (or_else (or_else c (or_else h (VStr ""))) (VStr ""))
  = or_else h (or_else c (VStr "")).
Proof.
  unfold or_else.
  destruct (ToBoolean h) eqn:Hh; destruct (ToBoolean c) eqn:Hc;
    rewrite ?Hh, ?Hc; simpl; rewrite ?Hh, ?Hc; reflexivity.
Qed.

Lemma index_kept_again (o : option number) :
  index_kept o = true ->
  (if ToBoolean (number_or_null_value o)
   then Some (number_of (number_or_null_value o)) else None) = o.
Proof.
  destruct o as [n|]; simpl; [|reflexivity]. intros ->. reflexivity.
Qed.

Lemma normalizable_as_value (r : NutritionRecord) : normalizable (as_value r) = true.
Proof.
  unfold normalizable, coerced_keys, forallb.
  read_record r. simpl.
  destruct (glycemic_index r), (insulin_index r); reflexivity.
Qed.

(** X19. Normalising is idempotent on the records it returns, seen as
    objects: a record returned by [normalizeAnalysisResponse] whose index
    fields are [null] or numbers other than zero and NaN is normalised to
    itself.  (An index of zero or NaN, which a first normalisation lets
    through, is replaced by [null].) *)
Theorem X19_normalize_idempotent (analysis : value) (r : NutritionRecord) :
  normalizeAnalysisResponse analysis = Ok r ->
  index_kept (glycemic_index r) = true ->
  index_kept (insulin_index r) = true ->
  normalizeAnalysisResponse (as_value r) = Ok r.
Proof.
  intros Hr Hglycemic Hinsulin.
  apply normalizeAnalysisResponse_Ok in Hr as [_ Hr].
  rewrite normalizeAnalysisResponse_eq, normalizable_as_value.
  f_equal. unfold normalized at 1. unfold coerced, chosen, coerced_or_null.
  read_record r.
  rewrite (index_kept_again _ Hglycemic), (index_kept_again _ Hinsulin).
  subst r. unfold normalized, coerced, chosen.
  cbn [name description calories protein carbs fat fiber sugar sodium
       saturated_fats_g polyunsaturated_fats_g monounsaturated_fats_g
       omega_3_g omega_6_g soluble_fiber_g insoluble_fiber_g cholesterol_mg
       alcohol_g caffeine_mg liquids_ml serving_size_g glycemic_index
       insulin_index food_category processing_level cooking_method
       health_risk_notes confidence ingredients healthNotes recommendations
       number_of].
  rewrite !or_else_twice, !or_default_twice, ?or_else_notes.
  reflexivity.
Qed.

Lemma X19_witness_calories_200 :
  normalizeAnalysisResponse (as_value (normalized calories_200_protein_null))
  = Ok (normalized calories_200_protein_null).
Proof.
  apply (X19_normalize_idempotent calories_200_protein_null).
  - rewrite normalizeAnalysisResponse_eq. reflexivity.
  - reflexivity.
  - reflexivity.
Defined.


(** An index of zero, which a first normalisation lets through (here from
    the text "0"), is replaced by [null] when the record is normalised
    again. *)
Example normalize_index_zero_dropped :
  let analysis := VObj (<["glycemic_index" := VStr "0"]> ∅) in
  glycemic_index (normalized analysis) = Some (of_Z 0)
  /\ normalizeAnalysisResponse analysis = Ok (normalized analysis)
  /\ exists r,
      normalizeAnalysisResponse (as_value (normalized analysis)) = Ok r
      /\ glycemic_index r = None.
Proof.
  cbv zeta. split; [vm_compute; reflexivity|].
  split; [rewrite normalizeAnalysisResponse_eq; reflexivity|].
  rewrite normalizeAnalysisResponse_eq, normalizable_as_value.
  eexists. split; [reflexivity|].
  unfold normalized at 1. unfold coerced_or_null. cbn [glycemic_index].
  read_record (normalized (VObj (<["glycemic_index" := VStr "0"]> ∅))).
  vm_compute. reflexivity.
Qed.

(** X20. The fallback record of every language is a fixed point of the
    normalisation: seen as an object it is normalised to itself, so none of
    its fields is one that the normalisation would replace by a default. *)
Theorem X20_fallback_is_normal (language : string) :
  normalizeAnalysisResponse (as_value (getFallbackAnalysis language))
  = Ok (getFallbackAnalysis language).
Proof.
  rewrite normalizeAnalysisResponse_eq, normalizable_as_value.
  f_equal. unfold normalized, coerced, chosen, coerced_or_null.
  read_record (getFallbackAnalysis language).
  unfold getFallbackAnalysis.
  destruct (String.eqb language "hebrew"); vm_compute; reflexivity.
Qed.


(** *** Arithmetic never invents a NaN *)

Lemma shr_1_nonneg (mrs : shr_record) : 0 <= shr_m mrs -> 0 <= shr_m (shr_1 mrs).
Proof.
  destruct mrs as [m r s]. simpl.
  destruct m as [|[p|p|]|[p|p|]]; simpl; lia.
Qed.

Lemma iter_pos_shr_1_nonneg (p : positive) :
  forall mrs, 0 <= shr_m mrs -> 0 <= shr_m (SpecFloat.iter_pos shr_1 p mrs).
Proof.
  induction p as [p IH|p IH|]; intros mrs H; simpl.
  - apply IH, IH, shr_1_nonneg, H.
  - apply IH, IH, H.
  - apply shr_1_nonneg, H.
Qed.

Lemma shr_nonneg (mrs : shr_record) (e n : Z) :
  0 <= shr_m mrs -> 0 <= shr_m (fst (shr mrs e n)).
Proof.
  intros H. unfold shr. destruct n; simpl; try exact H.
  apply iter_pos_shr_1_nonneg, H.
Qed.

Lemma shr_fexp_nonneg (m e : Z) (l : location) :
  0 <= m -> 0 <= shr_m (fst (shr_fexp prec emax m e l)).
Proof.
  intros H. unfold shr_fexp. apply shr_nonneg.
  unfold shr_record_of_loc. destruct l as [|[| |]]; simpl; exact H.
Qed.

Lemma round_nearest_even_nonneg (m : Z) (l : location) :
  0 <= m -> 0 <= round_nearest_even m l.
Proof.
  intros H. unfold round_nearest_even.
  destruct l as [|[| |]]; try destruct (Z.even m); lia.
Qed.

Lemma binary_round_aux_valid (s : bool) (m e : Z) (l : location) :
  0 <= m -> is_nan (binary_round_aux prec emax s m e l) = false.
Proof.
  intros H. unfold binary_round_aux.
  pose proof (shr_fexp_nonneg m e l H) as H1.
  destruct (shr_fexp prec emax m e l) as [mrs' e']. simpl fst in H1.
  pose proof (shr_fexp_nonneg _ e' loc_Exact
                (round_nearest_even_nonneg (shr_m mrs') (loc_of_shr_record mrs') H1))
    as H2.
  destruct (shr_fexp prec emax _ e' loc_Exact) as [mrs'' e'']. simpl fst in H2.
  destruct (shr_m mrs'') as [|p|p]; [reflexivity| |lia].
  destruct (e'' <=? emax - prec); reflexivity.
Qed.

Lemma binary_normalize_valid (m e : Z) (s : bool) :
  is_nan (binary_normalize prec emax m e s) = false.
Proof.
  unfold binary_normalize, binary_round.
  destruct m as [|p|p]; [reflexivity| |];
    destruct (shl_align p e _) as [mz ez];
    apply binary_round_aux_valid; lia.
Qed.

(** A valid number times a finite one, and a valid number less a finite
    one, are valid. *)
Lemma mul_finite_valid (x : number) (s : bool) (m : positive) (e : Z) :
  is_nan x = false -> is_nan (Num.mul x (S754_finite s m e)) = false.
Proof.
  intros H. destruct x as [sx|sx| |sx mx ex]; try discriminate H; try reflexivity.
  unfold Num.mul, SFmul. apply binary_round_aux_valid. lia.
Qed.

Lemma sub_finite_valid (x : number) (s : bool) (m : positive) (e : Z) :
  is_nan x = false -> is_nan (Num.sub x (S754_finite s m e)) = false.
Proof.
  intros H. destruct x as [sx|sx| |sx mx ex]; try discriminate H; try reflexivity.
  unfold Num.sub, SFsub. apply binary_normalize_valid.
Qed.

Lemma Math_round_valid (x : number) : is_nan x = false -> is_nan (Math_round x) = false.
Proof.
  intros H. destruct x as [sx|sx| |sx mx ex]; try discriminate H; try reflexivity.
  unfold Math_round.
  destruct (0 <=? ex); [reflexivity|].
  destruct ((Z.pos mx mod 2 ^ (- ex)) =? 0); [reflexivity|].
  match goal with |- context [if ?b then S754_zero _ else _] => destruct b end;
    [reflexivity|].
  apply binary_normalize_valid.
Qed.


(** *** Updating a record *)

Lemma as_object_operands (r : NutritionRecord) :
  as_object r !! "protein" = Some (VNum (protein r))
  /\ as_object r !! "calories" = Some (VNum (calories r))
  /\ as_object r !! "fiber" = Some (VNum (fiber r))
  /\ as_object r !! "confidence" = Some (VNum (confidence r)).
Proof. rewrite !as_object_lookup. repeat split; reflexivity. Qed.

Lemma adjustable_as_value (r : NutritionRecord) (updateText : string) :
  adjustable (as_value r) updateText = true.
Proof.
  destruct (as_object_operands r) as (Hp & Hc & Hf & Hconf).
  unfold adjustable, as_value, spread, prop. rewrite Hp, Hc, Hf, Hconf. simpl.
  rewrite !orb_true_r. reflexivity.
Qed.

Lemma scaled_valid (x factor : number) :
  valid_number x = true ->
  (exists s m e, factor = S754_finite s m e) ->
  valid_number (Math_round (Num.mul x factor)) = true.
Proof.
  unfold valid_number. intros Hx (s & m & e & ->).
  apply negb_true_iff in Hx. apply negb_true_iff.
  apply Math_round_valid, mul_finite_valid, Hx.
Qed.

Lemma lowered_valid (c : number) :
  valid_number c = true ->
  valid_number (Math_max [of_Z 50; Num.sub c (of_Z 10)]) = true
  /\ Num.gt (of_Z 50) (Math_max [of_Z 50; Num.sub c (of_Z 10)]) = false.
Proof.
  unfold valid_number. intros Hc. apply negb_true_iff in Hc.
  rewrite Math_max_50_cases.
  assert (Hsub : is_nan (Num.sub c (of_Z 10)) = false).
  { change (of_Z 10) with (S754_finite false 5629499534213120 (-49)).
    apply sub_finite_valid, Hc. }
  rewrite Hsub.
  destruct (Num.gt (Num.sub c (of_Z 10)) (of_Z 50)) eqn:Hgt.
  - rewrite Hsub. split; [reflexivity|]. unfold Num.gt in *. apply SFltb_asym, Hgt.
  - split; reflexivity.
Qed.

(** The basic update of a record with valid operands returns, and what it
    assigns is valid. *)
Lemma getBasicUpdate_record (r : NutritionRecord) (updateText : string) :
  forallb valid_number (update_operands r) = true ->
  exists updated,
    getBasicUpdate (as_value r) updateText = Ok updated
    /\ update_valid updated = true.
Proof.
  unfold update_operands, forallb. intros H.
  apply andb_prop in H as [Hp H]. apply andb_prop in H as [Hc H].
  apply andb_prop in H as [Hf H]. apply andb_prop in H as [Hconf _].
  pose proof (getBasicUpdate_any (as_value r) updateText) as Hany.
  cbv zeta in Hany. rewrite adjustable_as_value in Hany.
  destruct Hany as (updated & Hupdated & Hadjusted).
  exists updated. split; [exact Hupdated|].
  destruct (as_object_operands r) as (Ep & Ec & Ef & Econf).
  unfold as_value, spread, prop in Hadjusted.
  rewrite Ep, Ec, Ef, Econf in Hadjusted. simpl default in Hadjusted.
  unfold number_of in Hadjusted.
  destruct Hadjusted as (Hp' & _ & Hc' & Hf' & _ & _ & Hconf' & _).
  unfold update_valid, valid_at. rewrite Hp', Hc', Hf', Hconf'.
  destruct (lowered_valid _ Hconf) as [Hvalid Hfloor]. rewrite Hvalid, Hfloor.
  assert (H12 : exists s m e, lit_1_2 = S754_finite s m e)
    by (do 3 eexists; vm_compute; reflexivity).
  assert (H08 : exists s m e, lit_0_8 = S754_finite s m e)
    by (do 3 eexists; vm_compute; reflexivity).
  assert (H13 : exists s m e, lit_1_3 = S754_finite s m e)
    by (do 3 eexists; vm_compute; reflexivity).
  destruct (wants_more_protein (toLowerCase updateText));
    destruct (wants_less_calories (toLowerCase updateText));
    destruct (wants_more_vegetables (toLowerCase updateText)).
  all: rewrite ?Ep, ?Ec, ?Ef.
  all: rewrite ?(scaled_valid _ _ Hp H12), ?(scaled_valid _ _ Hc H08),
         ?(scaled_valid _ _ Hf H13), ?Hp, ?Hc, ?Hf.
  all: reflexivity.
Qed.

(** X21. The basic update keeps the numbers of a record valid: on a
    record whose [protein], [calories], [fiber] and [confidence] are
    numbers other than NaN, [getBasicUpdate] returns whatever the text
    is, these four properties of its result are numbers other than NaN
    again (scaling, rounding and lowering never produce a NaN from a
    number), and the confidence is not below 50. *)
Theorem X21_basic_update_keeps_numbers_valid :
  forall (r : NutritionRecord) (updateText : string),
    forallb valid_number (update_operands r) = true ->
    exists updated,
      getBasicUpdate (as_value r) updateText = Ok updated
      /\ update_valid updated = true.
Proof.
  intros r updateText Hvalid. apply getBasicUpdate_record, Hvalid.
Qed.

Lemma X21_witness_fallback_more_protein :
  exists updated,
    getBasicUpdate (as_value (getFallbackAnalysis "english")) "More protein" = Ok updated
    /\ update_valid updated = true.
Proof.
  apply (X21_basic_update_keeps_numbers_valid (getFallbackAnalysis "english")
           "More protein").
  vm_compute. reflexivity.
Defined.

(** *** From an analysis to its update *)

Lemma bind_Ok {A B : Type} (c : res A) (k : A -> res B) (b : B) :
  (x ← c; k x) = Ok b -> exists a, c = Ok a /\ k a = Ok b.
Proof.
  unfold mbind, res_bind, bind. destruct c as [a|e]; [|discriminate].
  intros H. exists a. split; [reflexivity | exact H].
Qed.

Lemma operands_valid_normalized (analysis : value) :
  forallb valid_number (update_operands (normalized analysis)) = true.
Proof.
  unfold update_operands, forallb, normalized, coerced. simpl.
  rewrite !or_default_valid by reflexivity. reflexivity.
Qed.

Lemma operands_valid_fallback (language : string) :
  forallb valid_number (update_operands (getFallbackAnalysis language)) = true.
Proof.
  unfold update_operands, getFallbackAnalysis. simpl.
  destruct (String.eqb language "hebrew"); vm_compute; reflexivity.
Qed.

Section Chain.

Variable JSON_stringify : value -> nat -> option string.
Variable extractCleanJSON : string -> res string.
Variable parsePartialJSON : string -> res value.
Variable openai : option (chat_request -> res Completion.t).
Variable OPENAI_API_KEY : option string.

#[local] Abbreviation analyze :=
  (analyzeMealImage JSON_stringify extractCleanJSON parsePartialJSON openai
     OPENAI_API_KEY).
#[local] Abbreviation update :=
  (updateMealAnalysis JSON_stringify extractCleanJSON parsePartialJSON openai
     OPENAI_API_KEY).

(** What [analyzeMealImage] returns is the fallback record or a
    normalised value. *)
Lemma analyzeMealImage_Ok (imageBase64 language : string)
    (updateText : option string) (editedIngredients : list value)
    (r : NutritionRecord) :
  analyze imageBase64 language updateText editedIngredients = Ok r ->
  r = getFallbackAnalysis language \/ exists analysis, r = normalized analysis.
Proof.
  unfold analyzeMealImage, try_catch.
  destruct (analyzeMealImage_try _ _ _ _ _ imageBase64 language updateText
              editedIngredients) as [r'|e] eqn:Htry.
  - intros H. injection H as ->.
    unfold analyzeMealImage_try in Htry.
    destruct openai as [client|]; [|injection Htry as <-; left; reflexivity].
    destruct (given OPENAI_API_KEY); simpl negb in Htry; cbv iota in Htry;
      [|injection Htry as <-; left; reflexivity].
    destruct (image_missing imageBase64); [discriminate Htry|].
    destruct (base64Regex_test (text_of (clean_base64 imageBase64)));
      simpl negb in Htry; cbv iota in Htry; [|discriminate Htry].
    apply bind_Ok in Htry as (response & _ & Htry).
    destruct (given (Completion.first_content response));
      simpl negb in Htry; cbv iota in Htry; [|discriminate Htry].
    apply bind_Ok in Htry as (cleanedJSON & _ & Htry).
    apply bind_Ok in Htry as (analysis & _ & Htry).
    apply normalizeAnalysisResponse_Ok in Htry as [_ ->].
    right. exists analysis. reflexivity.
  - rewrite analyzeMealImage_catch_eq.
    destruct (is_nullish e); [discriminate|].
    destruct (rethrown_message e rethrown); [discriminate|].
    intros H. injection H as <-. left. reflexivity.
Qed.

(** When [updateMealAnalysis] answers with adjusted numbers, they are
    those of [getBasicUpdate]. *)
Lemma updateMealAnalysis_Adjusted (originalAnalysis : value)
    (updateText language : string) (updated : gmap string value) :
  update originalAnalysis updateText language = Ok (Adjusted updated) ->
  getBasicUpdate originalAnalysis updateText = Ok updated.
Proof.
  unfold updateMealAnalysis, updateMealAnalysis_try, try_catch.
  unfold mbind, res_bind, bind.
  destruct openai as [client|]; [destruct (given OPENAI_API_KEY)|];
    simpl negb; cbv iota.
  - repeat (match goal with
            | |- context [client ?request] => destruct (client request)
            | |- context [given ?c] => destruct (given c)
            | |- context [extractCleanJSON ?t] => destruct (extractCleanJSON t)
            | |- context [parsePartialJSON ?t] => destruct (parsePartialJSON t)
            | |- context [normalizeAnalysisResponse ?t] =>
                destruct (normalizeAnalysisResponse t)
            end; simpl negb; cbv iota).
    all: destruct (getBasicUpdate originalAnalysis updateText).
    all: intros H; try discriminate H; injection H as <-; reflexivity.
  - destruct (getBasicUpdate originalAnalysis updateText).
    all: intros H; try discriminate H; injection H as <-; reflexivity.
  - destruct (getBasicUpdate originalAnalysis updateText).
    all: intros H; try discriminate H; injection H as <-; reflexivity.
Qed.

Lemma updateMealAnalysis_of_an_analysis (imageBase64 language : string)
    (updateText : option string) (editedIngredients : list value)
    (r : NutritionRecord) (text language' : string) :
  analyze imageBase64 language updateText editedIngredients = Ok r ->
  exists result,
    update (as_value r) text language' = Ok result
    /\ (forall updated, result = Adjusted updated -> update_valid updated = true).
Proof.
  intros Hr.
  assert (Hvalid : forallb valid_number (update_operands r) = true).
  { apply analyzeMealImage_Ok in Hr as [-> | [analysis ->]].
    - apply operands_valid_fallback.
    - apply operands_valid_normalized. }
  destruct (getBasicUpdate_record r text Hvalid) as (updated & Hupdated & Hnumbers).
  destruct (updateMealAnalysis_returns JSON_stringify extractCleanJSON
              parsePartialJSON openai OPENAI_API_KEY (as_value r) text language'
              (adjustable_as_value r text)) as (result & Hresult & _).
  exists result. split; [exact Hresult|].
  intros updated' ->. apply updateMealAnalysis_Adjusted in Hresult.
  rewrite Hupdated in Hresult. injection Hresult as <-. exact Hnumbers.
Qed.

End Chain.

(** X22. A result of [analyzeMealImage] can always be updated: whatever
    the collaborators do, [updateMealAnalysis] returns on the record that
    [analyzeMealImage] returned, for every update text and language; and
    when it answers with the basic update, [protein], [calories] and
    [fiber] are numbers other than NaN and the confidence is a number
    that is not below 50. *)
Theorem X22_analysis_then_update :
  forall (JSON_stringify : value -> nat -> option string)
         (extractCleanJSON : string -> res string)
         (parsePartialJSON : string -> res value)
         (openai : option (chat_request -> res Completion.t))
         (OPENAI_API_KEY : option string)
         (imageBase64 language : string) (updateText : option string)
         (editedIngredients : list value) (r : NutritionRecord)
         (text language' : string),
    analyzeMealImage JSON_stringify extractCleanJSON parsePartialJSON openai
      OPENAI_API_KEY imageBase64 language updateText editedIngredients
    = Ok r ->
    exists result,
      updateMealAnalysis JSON_stringify extractCleanJSON parsePartialJSON openai
        OPENAI_API_KEY (as_value r) text language'
      = Ok result
      /\ (forall updated, result = Adjusted updated -> update_valid updated = true).
Proof.
  intros. eapply updateMealAnalysis_of_an_analysis. eassumption.
Qed.

Lemma X22_witness_unconfigured :
  exists result,
    updateMealAnalysis Sample.JSON_stringify Sample.extractCleanJSON
      Sample.parsePartialJSON None None
      (as_value (getFallbackAnalysis "english")) "more protein" "english"
    = Ok result
    /\ (forall updated, result = Adjusted updated -> update_valid updated = true).
Proof.
  apply (X22_analysis_then_update Sample.JSON_stringify Sample.extractCleanJSON
           Sample.parsePartialJSON None None "AAAA" "english" None []
           (getFallbackAnalysis "english") "more protein" "english").
  reflexivity.
Defined.
